(** * The search client of [static/script.js]: a shallow embedding

    The page script collects a machine identifier or a location text,
    calls the backend search API, renders the JSON answer as a table and
    offers CSV export and clipboard copy of the last result.  Two variants
    of the script are embedded:

    - [Static]: [src/static/script.js] (one request per [fetchJson],
      status 204 answered by an empty object, cookie pre-warm by a ping);
    - [Boot]: the [boot()] variant (absolute URLs, one controlled retry,
      pre-warm through a hidden iframe).

    Everything the two variants share textually ([escapeHtml], [toast],
    [showHint], [showError], [showLoading], [renderTable],
    [downloadAllMatched], [copyJson]) is embedded once.

    Conventions of the model.
    - A JavaScript string is the [string] of its UTF-8 bytes: the text of
      the page, of the payloads and of the messages is well-formed
      Unicode.  The one text that need not be is what the user types; the
      handlers are therefore also given on the UTF-16 code units of the
      field ([Raw]), where [encodeURIComponent] can throw.  On a
      well-formed text the two readings of the field are shown to agree.
    - A JSON object is a finite map from keys to values, kept as an
      association list in source order.  A read [v.k] with a name written
      in the script looks among the own keys ([Get]); the computed read
      [r[c]] of a cell also finds the members of the prototypes
      ([Member]).
    - A conversion to a string can throw: an object that has a key
      [toString] of its own has lost the inherited method.
    - Numbers are the integer-valued doubles, [NaN] and the infinities.
    - Built-ins whose result is fixed by the JavaScript engine and not by
      this script ([JSON.parse], [JSON.stringify], number printing, the
      texts of engine-raised errors, property reads on string values, the
      members of the built-in prototypes) are the fields of an [Engine].
    - An asynchronous function is run to completion against a [network],
      a deterministic function from the requests issued so far and the
      current request to the outcome of [fetch].  The handlers are also
      cut at their [await] points, and the pieces interleaved freely, to
      get at the states the page can be in. *)

From Stdlib Require Import String Ascii List ZArith NArith Bool Lia.
From Stdlib Require Import DecimalString.
Import ListNotations.
Local Open Scope string_scope.
Local Open Scope Z_scope.

(* ===================================================================== *)
(** ** Strings and the string built-ins the script calls *)
(* ===================================================================== *)

Definition byte_of (a : ascii) : N := N_of_ascii a.

(** [s || d] on strings: the empty string is the only falsy string. *)
Definition or_default (s d : string) : string :=
  match s with EmptyString => d | _ => s end.

Definition is_empty (s : string) : bool :=
  match s with EmptyString => true | _ => false end.

(** [String.prototype.startsWith]. *)
Definition startsWith (s p : string) : bool := prefix p s.

(** [String.prototype.includes]: [sub] occurs somewhere in [s]
    (case-sensitive). *)
Fixpoint includes (s sub : string) : bool :=
  prefix sub s ||
  match s with
  | EmptyString => false
  | String _ s' => includes s' sub
  end.

(** [s.replace(/c/g, by)] for a one-character pattern. *)
Fixpoint replaceAll (c : ascii) (by_ : string) (s : string) : string :=
  match s with
  | EmptyString => EmptyString
  | String a s' =>
      if Ascii.eqb a c then by_ ++ replaceAll c by_ s'
      else String a (replaceAll c by_ s')
  end.

Definition string_rev (s : string) : string :=
  string_of_list_ascii (rev (list_ascii_of_string s)).

(** White space and line terminators of ECMAScript, by their UTF-8 bytes:
    U+0009..U+000D and U+0020 (one byte); U+00A0 (two bytes); U+1680,
    U+2000..U+200A, U+2028, U+2029, U+202F, U+205F, U+3000, U+FEFF (three
    bytes). *)
Definition ws1 (a : N) : bool :=
  ((9 <=? a) && (a <=? 13) || (a =? 32))%N.

Definition ws2 (a b : N) : bool := ((a =? 194) && (b =? 160))%N.

Definition ws3 (a b c : N) : bool :=
  ((a =? 225) && (b =? 154) && (c =? 128)
   || (a =? 226) && (b =? 128)
      && ((128 <=? c) && (c <=? 138) || (c =? 168) || (c =? 169) || (c =? 175))
   || (a =? 226) && (b =? 129) && (c =? 159)
   || (a =? 227) && (b =? 128) && (c =? 128)
   || (a =? 239) && (b =? 187) && (c =? 191))%N.

(** Drop leading white space.  With [fwd = false] the bytes of each
    character are expected in reverse order, which serves [trimEnd]. *)
Fixpoint dropWs (fwd : bool) (s : string) : string :=
  match s with
  | EmptyString => s
  | String a s1 =>
      if ws1 (byte_of a) then dropWs fwd s1
      else
        match s1 with
        | EmptyString => s
        | String b s2 =>
            if (if fwd then ws2 (byte_of a) (byte_of b)
                else ws2 (byte_of b) (byte_of a))
            then dropWs fwd s2
            else
              match s2 with
              | EmptyString => s
              | String c s3 =>
                  if (if fwd then ws3 (byte_of a) (byte_of b) (byte_of c)
                      else ws3 (byte_of c) (byte_of b) (byte_of a))
                  then dropWs fwd s3
                  else s
              end
        end
  end.

Definition trimStart (s : string) : string := dropWs true s.
Definition trimEnd (s : string) : string :=
  string_rev (dropWs false (string_rev s)).

(** [String.prototype.trim]. *)
Definition trim (s : string) : string := trimEnd (trimStart s).

(** *** [encodeURIComponent] *)

(** The characters [encodeURIComponent] leaves alone: ASCII letters and
    digits and [- _ . ! ~ * ' ( )]. *)
Definition uri_unreserved (a : ascii) : bool :=
  let n := byte_of a in
  ((65 <=? n) && (n <=? 90) || (97 <=? n) && (n <=? 122)
   || (48 <=? n) && (n <=? 57)
   || (n =? 45) || (n =? 95) || (n =? 46) || (n =? 33) || (n =? 126)
   || (n =? 42) || (n =? 39) || (n =? 40) || (n =? 41))%N.

Definition hex_digit (n : N) : ascii :=
  ascii_of_N (if (n <? 10)%N then 48 + n else 55 + n)%N.

Definition pct_encode (a : ascii) : string :=
  let n := byte_of a in
  String "%" (String (hex_digit (n / 16)) (String (hex_digit (n mod 16)) "")).

(** On well-formed text the function works byte by byte on the UTF-8
    encoding: an unreserved ASCII character is copied, every other byte
    becomes [%XX] in upper-case hexadecimal. *)
Fixpoint encodeURIComponent (s : string) : string :=
  match s with
  | EmptyString => EmptyString
  | String a s' =>
      if uri_unreserved a then String a (encodeURIComponent s')
      else pct_encode a ++ encodeURIComponent s'
  end.

(** The inverse, [decodeURIComponent], on the image of the encoder. *)
Definition hex_value (a : ascii) : N :=
  let n := byte_of a in
  (if n <? 58 then n - 48 else n - 55)%N.

Fixpoint decodeURIComponent (s : string) : string :=
  match s with
  | EmptyString => EmptyString
  | String a s1 =>
      if Ascii.eqb a "%" then
        match s1 with
        | String h (String l s3) =>
            String (ascii_of_N (16 * hex_value h + hex_value l))
                   (decodeURIComponent s3)
        | _ => s
        end
      else String a (decodeURIComponent s1)
  end.

(** The UTF-8 bytes of a code point. *)
Definition utf8 (c : N) : string :=
  (if c <? 128 then String (ascii_of_N c) ""
   else if c <? 2048 then
     String (ascii_of_N (192 + c / 64)) (String (ascii_of_N (128 + c mod 64)) "")
   else if c <? 65536 then
     String (ascii_of_N (224 + c / 4096))
       (String (ascii_of_N (128 + (c / 64) mod 64))
          (String (ascii_of_N (128 + c mod 64)) ""))
   else
     String (ascii_of_N (240 + c / 262144))
       (String (ascii_of_N (128 + (c / 4096) mod 64))
          (String (ascii_of_N (128 + (c / 64) mod 64))
             (String (ascii_of_N (128 + c mod 64)) ""))))%N.

(* ===================================================================== *)
(** ** Numbers, [parseInt] *)
(* ===================================================================== *)

(** The Number values the script meets: [Fin z] is the double of integer
    value [z]. *)
Inductive number : Type :=
  | NaN
  | Fin (z : Z)
  | Inf (negative : bool).

(** Truthiness of a number: [NaN] and zero are falsy. *)
Definition number_truthy (n : number) : bool :=
  match n with
  | NaN => false
  | Fin z => negb (z =? 0)
  | Inf _ => true
  end.

(** Round a non-negative integer to the nearest double (ties to even);
    from [2^1024 - 2^970] on the result is infinite. *)
Definition round_binary64 (z : Z) : option Z :=
  let b := Z.log2 z in
  if b <=? 52 then Some z
  else
    let sh := b - 52 in
    let q := Z.shiftr z sh in
    let r := z - Z.shiftl q sh in
    let half := Z.shiftl 1 (sh - 1) in
    let q' := if (half <? r) || ((r =? half) && Z.odd q) then q + 1 else q in
    let v := Z.shiftl q' sh in
    if 2 ^ 1024 <=? v then None else Some v.

Definition number_of_Z (negative : bool) (z : Z) : number :=
  match round_binary64 z with
  | Some v => Fin (if negative then - v else v)
  | None => Inf negative
  end.

(** Value of a digit in radix 10 or 16, if it is one. *)
Definition digit_value (radix : Z) (a : ascii) : option Z :=
  let n := Z.of_N (byte_of a) in
  if (48 <=? n) && (n <=? 57) then Some (n - 48)
  else if radix =? 16 then
    if (97 <=? n) && (n <=? 102) then Some (n - 87)
    else if (65 <=? n) && (n <=? 70) then Some (n - 55)
    else None
  else None.

(** Longest prefix of digits: [acc] is the value read so far, [None] while
    no digit has been read. *)
Fixpoint read_digits (radix : Z) (acc : option Z) (s : string) : option Z :=
  match s with
  | EmptyString => acc
  | String a s' =>
      match digit_value radix a with
      | Some d =>
          read_digits radix
            (Some (match acc with Some v => v * radix + d | None => d end)) s'
      | None => acc
      end
  end.

(** [parseInt(s)] with the radix left out: leading white space is skipped,
    a sign is read, [0x]/[0X] selects radix 16, the longest prefix of
    digits is taken; without a digit the result is [NaN]. *)
Definition parseInt (s : string) : number :=
  let s0 := trimStart s in
  let '(neg, s1) :=
    match s0 with
    | String "-" t => (true, t)
    | String "+" t => (false, t)
    | _ => (false, s0)
    end in
  let '(radix, s2) :=
    match s1 with
    | String "0" (String "x" t) => (16, t)
    | String "0" (String "X" t) => (16, t)
    | _ => (10, s1)
    end in
  match read_digits radix None s2 with
  | Some v => number_of_Z neg v
  | None => NaN
  end.


(* ===================================================================== *)
(** ** JSON values and the coercions of the language *)
(* ===================================================================== *)

Set Warnings "-register-all".

Inductive json : Type :=
  | JNull
  | JBool (b : bool)
  | JNum (n : number)
  | JStr (s : string)
  | JArr (items : list json)
  | JObj (fields : list (string * json)).

(** A JavaScript value of the script: [None] is [undefined]. *)
Definition jsval : Type := option json.

Definition truthy (j : json) : bool :=
  match j with
  | JNull => false
  | JBool b => b
  | JNum n => number_truthy n
  | JStr s => negb (is_empty s)
  | JArr _ | JObj _ => true
  end.

(** [v || d]. *)
Definition js_or (v : jsval) (d : json) : json :=
  match v with
  | Some j => if truthy j then j else d
  | None => d
  end.

(** [n || d] on numbers. *)
Definition number_or (n d : number) : number :=
  if number_truthy n then n else d.

(** Own-property lookup in an object. *)
Fixpoint assoc (k : string) (fields : list (string * json)) : jsval :=
  match fields with
  | [] => None
  | (k', v) :: rest => if String.eqb k k' then Some v else assoc k rest
  end.

(** The result of a computation that may throw: every exception the
    script sees is an [Error] object, kept as its [message]. *)
Inductive outcome (A : Type) : Type :=
  | Ok (a : A)
  | Throw (message : string).
Arguments Ok {A} a.
Arguments Throw {A} message.

Definition obind {A B} (o : outcome A) (k : A -> outcome B) : outcome B :=
  match o with
  | Ok a => k a
  | Throw m => Throw m
  end.

(** What the JavaScript engine fixes. *)
Class Engine : Type := {
  (** [JSON.parse]: the value, or the message of the [SyntaxError]. *)
  JSON_parse : string -> outcome json;
  (** [JSON.stringify(j)]. *)
  JSON_stringify : json -> string;
  (** The text [JSON.stringify(v, null, 2)] leaves on the clipboard. *)
  JSON_stringify_pretty : jsval -> string;
  (** [Number.prototype.toString]. *)
  Number_toString : number -> string;
  (** Message of the [TypeError] for reading a property of [null]. *)
  TypeError_null : string -> string;
  (** Message of the [TypeError] for [cols.map] not being a function. *)
  TypeError_not_a_function : string;
  (** Message of the [TypeError] for [rows] not being iterable. *)
  TypeError_not_iterable : string;
  (** Message of the [TypeError] for an object that cannot be converted
      to a primitive value. *)
  TypeError_not_primitive : string;
  (** Message of the [TypeError] for the computed read [null[c]]. *)
  TypeError_null_at : json -> string;
  (** Message of the [URIError] of [encodeURIComponent]. *)
  URIError_malformed : string;
  (** [Prototype_member v k], for a value [v] other than [null] and a key
      [k] that is not among its own: the member [k] that [v] inherits from
      its prototypes, if there is one, as the text [String] makes of it
      (the members are functions, or the prototype itself for
      [__proto__]). *)
  Prototype_member : json -> string -> option string;
  (** Property read on a string value (its length, its characters). *)
  String_get : string -> string -> jsval;
  (** The characters a [for ... of] over a string visits. *)
  String_iterate : string -> list string;
  (** The array index a property key denotes, if it is a canonical one. *)
  Array_index : string -> option nat;
  (** [window.location.origin]. *)
  location_origin : string
}.

Section Language.
Context {E : Engine}.

(** [ToString] on JSON values.  An array joins its elements with commas,
    [null] elements giving the empty string.  An object is converted by
    its [toString] method: the inherited one gives "[object Object]"; a
    key [toString] of its own hides it with a value that cannot be called
    (no JSON value can), and then neither that nor [valueOf], own or
    inherited, gives a primitive value: the conversion throws. *)
Fixpoint ToString (j : json) : outcome string :=
  match j with
  | JNull => Ok "null"
  | JBool true => Ok "true"
  | JBool false => Ok "false"
  | JNum n => Ok (Number_toString n)
  | JStr s => Ok s
  | JArr items =>
      (fix join (l : list json) : outcome string :=
         match l with
         | [] => Ok ""
         | x :: rest =>
             obind (match x with JNull => Ok "" | _ => ToString x end)
               (fun t =>
                  match rest with
                  | [] => Ok t
                  | _ => obind (join rest) (fun u => Ok (t ++ "," ++ u))
                  end)
         end) items
  | JObj fields =>
      match assoc "toString" fields with
      | Some _ => Throw TypeError_not_primitive
      | None => Ok "[object Object]"
      end
  end.

(** A template literal's [${v}]. *)
Definition template (v : jsval) : outcome string :=
  match v with
  | None => Ok "undefined"
  | Some j => ToString j
  end.

(** [String(v ?? "")]. *)
Definition String_nullish (v : jsval) : outcome string :=
  match v with
  | None | Some JNull => Ok ""
  | Some j => ToString j
  end.

(** The message of what [throw new Error(v)] throws: the [Error] whose
    message is [v] as a string, or the [TypeError] of that conversion. *)
Definition Error_message (v : json) : string :=
  match ToString v with
  | Ok text => text
  | Throw type_error => type_error
  end.

(** The own property [k] of a value other than [null]: a key of an
    object, the length or an element of an array, the length or a
    character of a string. *)
Definition own (v : json) (k : string) : jsval :=
  match v with
  | JObj fields => assoc k fields
  | JArr items =>
      if String.eqb k "length"
      then Some (JNum (Fin (Z.of_nat (length items))))
      else match Array_index k with
           | Some i => nth_error items i
           | None => None
           end
  | JStr s => String_get s k
  | JNull | JBool _ | JNum _ => None
  end.

(** [v.k] for the names the script writes out: [columns], [rows],
    [matched_rows], [detail] and [length].  No built-in prototype has a
    member of one of these names, so the read finds an own property or
    [undefined]; reading a property of [null] throws. *)
Definition Get (v : json) (k : string) : outcome jsval :=
  match v with
  | JNull => Throw (TypeError_null k)
  | _ => Ok (own v k)
  end.

(** What the computed read [r[c]] finds: an own property, a member of a
    prototype (by its text), or nothing. *)
Inductive member : Type :=
  | Own (v : json)
  | Inherited (text : string)
  | Absent.

(** [r[c]]: [null] has no properties; the key is [c] converted to a
    string; own properties hide inherited ones. *)
Definition Member (r c : json) : outcome member :=
  match r with
  | JNull => Throw (TypeError_null_at c)
  | _ =>
      obind (ToString c) (fun k =>
      match own r k with
      | Some v => Ok (Own v)
      | None =>
          match Prototype_member r k with
          | Some text => Ok (Inherited text)
          | None => Ok Absent
          end
      end)
  end.

End Language.

(* ===================================================================== *)
(** ** The network, the page and the monad of the handlers *)
(* ===================================================================== *)

(** The options of a [fetch] call that the script sets. *)
Record request : Type := {
  req_url : string;
  req_credentials : option string;
  req_accept : option string;
  req_cache : option string;
  req_redirect : option string
}.

(** A response body is read asynchronously; the read gives the text or
    rejects. *)
Inductive body : Type :=
  | BodyText (text : string)
  | BodyError (message : string).

Record response : Type := {
  status : N;
  content_type : option string;   (* [headers.get('content-type')] *)
  res_body : body
}.

(** [res.ok]. *)
Definition ok (r : response) : bool :=
  ((200 <=? status r) && (status r <=? 299))%N.

Inductive fetch_outcome : Type :=
  | Rejected (message : string)      (* network failure *)
  | Resolved (r : response).

(** The backend and everything between: the outcome of a request, given
    the requests issued before it. *)
Definition network : Type := list request -> request -> fetch_outcome.

Inductive kind : Type := machine | location.

(** [lastSearch]: [{ type, value }]. *)
Record search : Type := { type : kind; value : string }.

(** What the script does to the world besides its page state. *)
Inductive event : Type :=
  | EvFetch (r : request)
  | EvSleep (ms : N)
  | EvToast (type_ msg : string)
  | EvIframe (src : string)
  | EvDownload (filename content : string)
  | EvClipboard (text : string).

Record state : Type := {
  machineInput_value : string;
  locationInput_value : string;
  limitSelect_value : string;
  outputBox_innerHTML : string;
  matchedPill_textContent : string;
  returnedPill_textContent : string;
  statusText_textContent : string;
  downloadBtn_disabled : bool;
  copyJsonBtn_disabled : bool;
  lastSearch : option search;
  lastResult : jsval;            (* [None] is the initial [null] *)
  prewarmed : bool;              (* used by the [boot()] variant only *)
  trace : list event             (* oldest first *)
}.

Definition set_outputBox (h : string) (s : state) : state :=
  {| machineInput_value := machineInput_value s;
     locationInput_value := locationInput_value s;
     limitSelect_value := limitSelect_value s;
     outputBox_innerHTML := h;
     matchedPill_textContent := matchedPill_textContent s;
     returnedPill_textContent := returnedPill_textContent s;
     statusText_textContent := statusText_textContent s;
     downloadBtn_disabled := downloadBtn_disabled s;
     copyJsonBtn_disabled := copyJsonBtn_disabled s;
     lastSearch := lastSearch s;
     lastResult := lastResult s;
     prewarmed := prewarmed s;
     trace := trace s |}.

Definition set_matchedPill (t : string) (s : state) : state :=
  {| machineInput_value := machineInput_value s;
     locationInput_value := locationInput_value s;
     limitSelect_value := limitSelect_value s;
     outputBox_innerHTML := outputBox_innerHTML s;
     matchedPill_textContent := t;
     returnedPill_textContent := returnedPill_textContent s;
     statusText_textContent := statusText_textContent s;
     downloadBtn_disabled := downloadBtn_disabled s;
     copyJsonBtn_disabled := copyJsonBtn_disabled s;
     lastSearch := lastSearch s;
     lastResult := lastResult s;
     prewarmed := prewarmed s;
     trace := trace s |}.

Definition set_returnedPill (t : string) (s : state) : state :=
  {| machineInput_value := machineInput_value s;
     locationInput_value := locationInput_value s;
     limitSelect_value := limitSelect_value s;
     outputBox_innerHTML := outputBox_innerHTML s;
     matchedPill_textContent := matchedPill_textContent s;
     returnedPill_textContent := t;
     statusText_textContent := statusText_textContent s;
     downloadBtn_disabled := downloadBtn_disabled s;
     copyJsonBtn_disabled := copyJsonBtn_disabled s;
     lastSearch := lastSearch s;
     lastResult := lastResult s;
     prewarmed := prewarmed s;
     trace := trace s |}.

Definition set_statusText (t : string) (s : state) : state :=
  {| machineInput_value := machineInput_value s;
     locationInput_value := locationInput_value s;
     limitSelect_value := limitSelect_value s;
     outputBox_innerHTML := outputBox_innerHTML s;
     matchedPill_textContent := matchedPill_textContent s;
     returnedPill_textContent := returnedPill_textContent s;
     statusText_textContent := t;
     downloadBtn_disabled := downloadBtn_disabled s;
     copyJsonBtn_disabled := copyJsonBtn_disabled s;
     lastSearch := lastSearch s;
     lastResult := lastResult s;
     prewarmed := prewarmed s;
     trace := trace s |}.

Definition set_downloadBtn (d : bool) (s : state) : state :=
  {| machineInput_value := machineInput_value s;
     locationInput_value := locationInput_value s;
     limitSelect_value := limitSelect_value s;
     outputBox_innerHTML := outputBox_innerHTML s;
     matchedPill_textContent := matchedPill_textContent s;
     returnedPill_textContent := returnedPill_textContent s;
     statusText_textContent := statusText_textContent s;
     downloadBtn_disabled := d;
     copyJsonBtn_disabled := copyJsonBtn_disabled s;
     lastSearch := lastSearch s;
     lastResult := lastResult s;
     prewarmed := prewarmed s;
     trace := trace s |}.

Definition set_copyJsonBtn (d : bool) (s : state) : state :=
  {| machineInput_value := machineInput_value s;
     locationInput_value := locationInput_value s;
     limitSelect_value := limitSelect_value s;
     outputBox_innerHTML := outputBox_innerHTML s;
     matchedPill_textContent := matchedPill_textContent s;
     returnedPill_textContent := returnedPill_textContent s;
     statusText_textContent := statusText_textContent s;
     downloadBtn_disabled := downloadBtn_disabled s;
     copyJsonBtn_disabled := d;
     lastSearch := lastSearch s;
     lastResult := lastResult s;
     prewarmed := prewarmed s;
     trace := trace s |}.

Definition set_lastSearch (x : option search) (s : state) : state :=
  {| machineInput_value := machineInput_value s;
     locationInput_value := locationInput_value s;
     limitSelect_value := limitSelect_value s;
     outputBox_innerHTML := outputBox_innerHTML s;
     matchedPill_textContent := matchedPill_textContent s;
     returnedPill_textContent := returnedPill_textContent s;
     statusText_textContent := statusText_textContent s;
     downloadBtn_disabled := downloadBtn_disabled s;
     copyJsonBtn_disabled := copyJsonBtn_disabled s;
     lastSearch := x;
     lastResult := lastResult s;
     prewarmed := prewarmed s;
     trace := trace s |}.

Definition set_lastResult (x : jsval) (s : state) : state :=
  {| machineInput_value := machineInput_value s;
     locationInput_value := locationInput_value s;
     limitSelect_value := limitSelect_value s;
     outputBox_innerHTML := outputBox_innerHTML s;
     matchedPill_textContent := matchedPill_textContent s;
     returnedPill_textContent := returnedPill_textContent s;
     statusText_textContent := statusText_textContent s;
     downloadBtn_disabled := downloadBtn_disabled s;
     copyJsonBtn_disabled := copyJsonBtn_disabled s;
     lastSearch := lastSearch s;
     lastResult := x;
     prewarmed := prewarmed s;
     trace := trace s |}.

Definition set_prewarmed (b : bool) (s : state) : state :=
  {| machineInput_value := machineInput_value s;
     locationInput_value := locationInput_value s;
     limitSelect_value := limitSelect_value s;
     outputBox_innerHTML := outputBox_innerHTML s;
     matchedPill_textContent := matchedPill_textContent s;
     returnedPill_textContent := returnedPill_textContent s;
     statusText_textContent := statusText_textContent s;
     downloadBtn_disabled := downloadBtn_disabled s;
     copyJsonBtn_disabled := copyJsonBtn_disabled s;
     lastSearch := lastSearch s;
     lastResult := lastResult s;
     prewarmed := b;
     trace := trace s |}.

Definition set_trace (t : list event) (s : state) : state :=
  {| machineInput_value := machineInput_value s;
     locationInput_value := locationInput_value s;
     limitSelect_value := limitSelect_value s;
     outputBox_innerHTML := outputBox_innerHTML s;
     matchedPill_textContent := matchedPill_textContent s;
     returnedPill_textContent := returnedPill_textContent s;
     statusText_textContent := statusText_textContent s;
     downloadBtn_disabled := downloadBtn_disabled s;
     copyJsonBtn_disabled := copyJsonBtn_disabled s;
     lastSearch := lastSearch s;
     lastResult := lastResult s;
     prewarmed := prewarmed s;
     trace := t |}.

(** The user's edits of the three form controls. *)
Definition set_inputs (m l sel : string) (s : state) : state :=
  {| machineInput_value := m;
     locationInput_value := l;
     limitSelect_value := sel;
     outputBox_innerHTML := outputBox_innerHTML s;
     matchedPill_textContent := matchedPill_textContent s;
     returnedPill_textContent := returnedPill_textContent s;
     statusText_textContent := statusText_textContent s;
     downloadBtn_disabled := downloadBtn_disabled s;
     copyJsonBtn_disabled := copyJsonBtn_disabled s;
     lastSearch := lastSearch s;
     lastResult := lastResult s;
     prewarmed := prewarmed s;
     trace := trace s |}.

(** The requests among the events, oldest first. *)
Fixpoint requests (t : list event) : list request :=
  match t with
  | [] => []
  | EvFetch r :: t' => r :: requests t'
  | _ :: t' => requests t'
  end.

(** State and exceptions: a handler maps the state to an outcome and the
    state it leaves, also when it throws. *)
Definition M (A : Type) : Type := state -> outcome A * state.

Definition ret {A} (a : A) : M A := fun s => (Ok a, s).
Definition throw {A} (m : string) : M A := fun s => (Throw m, s).
Definition bind {A B} (c : M A) (k : A -> M B) : M B :=
  fun s =>
    match c s with
    | (Ok a, s') => k a s'
    | (Throw m, s') => (Throw m, s')
    end.
Definition read : M state := fun s => (Ok s, s).
Definition modify (f : state -> state) : M unit := fun s => (Ok tt, f s).
Definition lift {A} (o : outcome A) : M A := fun s => (o, s).

(** [try { c } catch (e) { h(e.message) }]. *)
Definition try_catch {A} (c : M A) (h : string -> M A) : M A :=
  fun s =>
    match c s with
    | (Ok a, s') => (Ok a, s')
    | (Throw m, s') => h m s'
    end.

Declare Scope js_scope.
Delimit Scope js_scope with js.
Notation "x <- c ;; k" := (bind c (fun x => k))
  (at level 61, c at next level, right associativity) : js_scope.
Notation "c ;; k" := (bind c (fun _ => k))
  (at level 61, right associativity) : js_scope.
Local Open Scope js_scope.

Definition emit (e : event) : M unit :=
  modify (fun s => set_trace (trace s ++ [e]) s).

Definition exec {A} (c : M A) (s : state) : state := snd (c s).
Definition result {A} (c : M A) (s : state) : outcome A := fst (c s).

(** The events a run adds to the trace. *)
Definition emitted {A} (c : M A) (s : state) : list event :=
  skipn (length (trace s)) (trace (exec c s)).

(* ===================================================================== *)
(** ** What the two variants share *)
(* ===================================================================== *)

(** The double quote and the line feed of the template literals. *)
Definition dq : string := String (ascii_of_nat 34) "".
Definition nl : string := String (ascii_of_nat 10) "".

Section Client.
Context {E : Engine}.
Variable net : network.

(** The three [replace] calls of [escapeHtml], in their order. *)
Definition escapeHtml_replace (text : string) : string :=
  replaceAll ">" "&gt;"
    (replaceAll "<" "&lt;"
       (replaceAll "&" "&amp;" text)).

(** [escapeHtml(v)]: [String(v ?? "")], which can throw, with [&], [<]
    and [>] replaced. *)
Definition escapeHtml (v : jsval) : outcome string :=
  obind (String_nullish v) (fun text => Ok (escapeHtml_replace text)).

(** [toast(type, msg)]: a notification that removes itself after 3 s. *)
Definition toast (type_ msg : string) : M unit := emit (EvToast type_ msg).

Definition hint_html : string :=
  nl ++ "<div class=" ++ dq ++ "hint" ++ dq ++ ">" ++ nl
  ++ "  Results will appear here.<br/>" ++ nl
  ++ "  This UI calls your backend and renders JSON." ++ nl
  ++ "</div>".

Definition showHint : M unit :=
  modify (set_lastResult None) ;;
  modify (set_lastSearch None) ;;
  modify (set_downloadBtn true) ;;
  modify (set_copyJsonBtn true) ;;
  modify (set_outputBox hint_html) ;;
  modify (set_matchedPill "Matched: 0") ;;
  modify (set_returnedPill "Returned: 0") ;;
  modify (set_statusText "Ready.").

(** The markup of an error, for a message that is a string. *)
Definition error_html (message : string) : string :=
  "<div class=" ++ dq ++ "error" ++ dq ++ ">"
  ++ escapeHtml_replace message ++ "</div>".

Definition showError (message : string) : M unit :=
  escaped <- lift (escapeHtml (Some (JStr message))) ;;
  modify (set_outputBox
            ("<div class=" ++ dq ++ "error" ++ dq ++ ">" ++ escaped
             ++ "</div>")) ;;
  modify (set_statusText "Error!") ;;
  toast "error" message.

Definition showLoading (msg : string) : M unit :=
  escaped <- lift (escapeHtml (Some (JStr msg))) ;;
  modify (set_outputBox
            ("<div class=" ++ dq ++ "loading" ++ dq ++ ">" ++ nl
             ++ "      <div class=" ++ dq ++ "spinner" ++ dq ++ "></div> "
             ++ escaped ++ nl
             ++ "    </div>")) ;;
  modify (set_statusText msg).

(** [fetch(url, options)]: the request is recorded, the network answers
    from the requests issued before. *)
Definition fetch (req : request) : M response :=
  fun s =>
    let s' := set_trace (trace s ++ [EvFetch req]) s in
    match net (requests (trace s)) req with
    | Rejected m => (Throw m, s')
    | Resolved r => (Ok r, s')
    end.

(** [res.text()], [res.blob()] (the bytes, as text) and [res.json()]. *)
Definition res_text (r : response) : outcome string :=
  match res_body r with
  | BodyText t => Ok t
  | BodyError m => Throw m
  end.

Definition res_blob (r : response) : outcome string := res_text r.

Definition res_json (r : response) : outcome json :=
  obind (res_text r) JSON_parse.

(** [res.headers.get('content-type') || '']. *)
Definition ct_of (r : response) : string :=
  match content_type r with
  | Some c => c
  | None => ""
  end.

Definition is_json (r : response) : bool :=
  includes (ct_of r) "application/json".

(** [`HTTP ${res.status}`]. *)
Definition http_status (r : response) : string :=
  "HTTP " ++ Number_toString (Fin (Z.of_N (status r))).

(** The branch [if (!res.ok) { ... }] of [fetchJson], the same text in
    both variants: the message of what it throws.  That is the [Error]
    made from [msg || 'Request failed'], or the [TypeError] of the
    conversion when [msg] is an object that has no string. *)
Definition error_message (r : response) : string :=
  let extracted : outcome json :=
    if is_json r then
      obind (res_json r) (fun j =>
      obind (Get j "detail") (fun detail =>
      Ok (js_or detail (JStr (JSON_stringify j)))))
    else
      obind (res_text r) (fun t => Ok (JStr t)) in
  let msg :=
    match extracted with
    | Ok m => m
    | Throw _ => JStr (http_status r)
    end in
  Error_message (js_or (Some msg) (JStr "Request failed")).

(** *** [renderTable] *)

(** [cols.map(c => `<th>${escapeHtml(c)}</th>`).join("")]. *)
Fixpoint header_cells (cols : list json) : outcome string :=
  match cols with
  | [] => Ok ""
  | c :: cols' =>
      obind (escapeHtml (Some c)) (fun escaped =>
      obind (header_cells cols') (fun rest =>
      Ok ("<th>" ++ escaped ++ "</th>" ++ rest)))
  end.

(** [escapeHtml(r[c])]; a member of a prototype is converted by [String]
    to its text. *)
Definition cell (r c : json) : outcome string :=
  obind (Member r c) (fun m =>
  match m with
  | Own v => escapeHtml (Some v)
  | Inherited text => Ok (escapeHtml_replace text)
  | Absent => escapeHtml None
  end).

(** The inner loop [for (const c of cols)] over one row [r]. *)
Fixpoint row_cells (r : json) (cols : list json) : outcome string :=
  match cols with
  | [] => Ok ""
  | c :: cols' =>
      obind (cell r c) (fun escaped =>
      obind (row_cells r cols') (fun rest =>
      Ok ("<td>" ++ escaped ++ "</td>" ++ rest)))
  end.

(** The outer loop [for (const r of rows)]. *)
Fixpoint table_rows (cols rows : list json) : outcome string :=
  match rows with
  | [] => Ok ""
  | r :: rows' =>
      obind (row_cells r cols) (fun cells =>
      obind (table_rows cols rows') (fun rest =>
      Ok ("<tr>" ++ cells ++ "</tr>" ++ rest)))
  end.

(** What [for ... of] iterates: arrays and strings are iterable. *)
Definition iterate (rows : json) : outcome (list json) :=
  match rows with
  | JArr items => Ok items
  | JStr s => Ok (map JStr (String_iterate s))
  | _ => Throw TypeError_not_iterable
  end.

(** The result line, for the two counts as [escapeHtml] gives them. *)
Definition result_meta (bullet matched len : string) : string :=
  "<div class=" ++ dq ++ "result-meta" ++ dq ++ ">" ++ nl
  ++ "      Matched: <b>" ++ matched ++ "</b> " ++ bullet ++ nl
  ++ "      Returned: <b>" ++ len ++ "</b>" ++ nl
  ++ "    </div>".

Definition table_open : string :=
  "<div class=" ++ dq ++ "result-table-wrap" ++ dq ++ "><table class="
  ++ dq ++ "result-table" ++ dq ++ "><thead><tr>".

(** [bullet] is the separator of the two counts in the result line, the
    only text in which the variants' [renderTable] differ.  Every
    conversion to a string is a point where the function can stop; the
    first two come after [lastResult = data] and before the buttons are
    enabled. *)
Definition renderTable (bullet : string) (data : json) : M unit :=
  cols_v <- lift (Get data "columns") ;;
  let cols := js_or cols_v (JArr []) in
  rows_v <- lift (Get data "rows") ;;
  let rows := js_or rows_v (JArr []) in
  modify (set_lastResult (Some data)) ;;
  matched <- lift (Get data "matched_rows") ;;
  matched_text <- lift (template matched) ;;
  modify (set_matchedPill ("Matched: " ++ matched_text)) ;;
  len <- lift (Get rows "length") ;;
  len_text <- lift (template len) ;;
  modify (set_returnedPill ("Returned: " ++ len_text)) ;;
  modify (set_downloadBtn false) ;;
  modify (set_copyJsonBtn false) ;;
  matched_html <- lift (escapeHtml matched) ;;
  len_html <- lift (escapeHtml len) ;;
  let html := result_meta bullet matched_html len_html ++ table_open in
  match cols with
  | JArr cs =>
      head <- lift (header_cells cs) ;;
      let html := html ++ head ++ "</tr></thead><tbody>" in
      rs <- lift (iterate rows) ;;
      body <- lift (table_rows cs rs) ;;
      modify (set_outputBox (html ++ body ++ "</tbody></table></div>")) ;;
      modify (set_statusText "Loaded results.")
  | _ => throw TypeError_not_a_function
  end.

(** *** Export and copy *)

Definition export_url (ls : search) : string :=
  match type ls with
  | machine => "/api/export/machine?machine_id=" ++ encodeURIComponent (value ls)
  | location => "/api/export/location?q=" ++ encodeURIComponent (value ls)
  end.

Definition export_request (url : string) : request :=
  {| req_url := url; req_credentials := Some "include";
     req_accept := None; req_cache := None; req_redirect := None |}.

Definition downloadAllMatched : M unit :=
  s <- read ;;
  match lastSearch s with
  | None => showError "Search first before exporting."
  | Some ls =>
      let url := export_url ls in
      try_catch
        (toast "success" "Preparing full CSV..." ;;
         res <- fetch (export_request url) ;;
         if negb (ok res) then
           txt <- lift (res_text res) ;;
           throw (or_default txt (http_status res))
         else
           blob <- lift (res_blob res) ;;
           emit (EvDownload "results.csv" blob))
        (fun message => showError message)
  end.

(** [copyJson]; [clipboard] is the answer of
    [navigator.clipboard.writeText] to a text. *)
Definition copyJson (clipboard : string -> outcome unit) : M unit :=
  s <- read ;;
  match lastResult s with
  | None => ret tt
  | Some data =>
      if negb (truthy data) then ret tt
      else
        try_catch
          (rows <- lift (Get data "rows") ;;
           let text := JSON_stringify_pretty rows in
           lift (clipboard text) ;;
           emit (EvClipboard text) ;;
           toast "success" "Copied JSON to clipboard")
          (fun _ => toast "error" "Copy failed")
  end.

(** [parseInt(limitSelect.value) || 50]. *)
Definition search_limit (selected : string) : number :=
  number_or (parseInt selected) (Fin 50).

Definition search_url (k : kind) (v : string) (limit : number) : string :=
  match k with
  | machine => "/api/search/machine?machine_id="
  | location => "/api/search/location?q="
  end ++ encodeURIComponent v ++ "&limit=" ++ Number_toString limit.

End Client.

(* ===================================================================== *)
(** ** [src/static/script.js] *)
(* ===================================================================== *)

Module Static.
Section Script.
Context {E : Engine}.
Variable net : network.

(** The separator of the result line, as the bytes of the file have it. *)
Definition bullet : string :=
  string_of_list_ascii
    (map ascii_of_nat [195; 162; 226; 130; 172; 194; 162]%nat).

Definition json_request (url : string) : request :=
  {| req_url := url; req_credentials := Some "include";
     req_accept := Some "application/json"; req_cache := Some "no-store";
     req_redirect := None |}.

(** [fetchJson(url)]: one request; status 204 gives [{}]. *)
Definition fetchJson (url : string) : M json :=
  res <- fetch net (json_request url) ;;
  if negb (ok res) then throw (error_message res)
  else if (status res =? 204)%N then ret (JObj [])
  else if negb (is_json res) then
    text <- lift (res_text res) ;;
    throw (or_default text "Non-JSON response received")
  else lift (res_json res).

Definition search (k : kind) (field required loading : string) : M unit :=
  let v := trim field in
  if is_empty v then showError required
  else
    showLoading loading ;;
    try_catch
      (s <- read ;;
       let limit := search_limit (limitSelect_value s) in
       data <- fetchJson (search_url k v limit) ;;
       modify (set_lastSearch (Some {| type := k; value := v |})) ;;
       renderTable bullet data)
      (fun message => showError message).

Definition searchByMachine : M unit :=
  s <- read ;;
  search machine (machineInput_value s)
    "Machine ID required" "Searching machine...".

Definition searchByLocation : M unit :=
  s <- read ;;
  search location (locationInput_value s)
    "Location required" "Searching location...".

(** The end of the script: [showHint()] and the cookie pre-warm, whose
    outcome is ignored. *)
Definition init : M unit :=
  showHint ;;
  try_catch (fetch net (export_request "/api/ping") ;; ret tt)
            (fun _ => ret tt).

End Script.
End Static.

(* ===================================================================== *)
(** ** The [boot()] variant *)
(* ===================================================================== *)

Module Boot.
Section Script.
Context {E : Engine}.
Variable net : network.

Definition bullet : string :=
  string_of_list_ascii (map ascii_of_nat [226; 128; 162]%nat).

(** [prewarmViaIframe()]: a hidden iframe on [/health], once per load. *)
Definition prewarmViaIframe : M unit :=
  s <- read ;;
  if prewarmed s then ret tt
  else emit (EvIframe "/health") ;; modify (set_prewarmed true).

(** [abs], the absolute URL of the request. *)
Definition absolute (url : string) : string :=
  location_origin ++ (if startsWith url "/" then url else "/" ++ url).

Definition doFetch (url : string) : M response :=
  fetch net {| req_url := absolute url; req_credentials := Some "include";
               req_accept := Some "application/json";
               req_cache := Some "no-store";
               req_redirect := Some "follow" |}.

(** [attempt(r)]: the validation of one response. *)
Definition attempt (r : response) : outcome json :=
  if negb (ok r) then Throw (error_message r)
  else
    obind (res_text r) (fun text =>
    if negb (is_json r) then
      Throw (or_default text "Non-JSON response received")
    else if is_empty text || is_empty (trim text) then
      Throw "Empty response from server"
    else JSON_parse text).

(** [fetchJson(url)]: the first [doFetch] is awaited outside the [try];
    a failed [attempt] is followed by one retry after 250 ms. *)
Definition fetchJson (url : string) : M json :=
  res <- doFetch url ;;
  try_catch
    (lift (attempt res))
    (fun _ =>
       emit (EvSleep 250) ;;
       res <- doFetch url ;;
       lift (attempt res)).

Definition search (k : kind) (field required loading : string) : M unit :=
  let v := trim field in
  if is_empty v then showError required
  else
    showLoading loading ;;
    try_catch
      (s <- read ;;
       let limit := search_limit (limitSelect_value s) in
       data <- fetchJson (search_url k v limit) ;;
       modify (set_lastSearch (Some {| type := k; value := v |})) ;;
       renderTable bullet data)
      (fun message => showError message).

Definition searchByLocation : M unit :=
  prewarmViaIframe ;;
  s <- read ;;
  search location (locationInput_value s)
    "Location required" "Searching location...".

Definition searchByMachine : M unit :=
  prewarmViaIframe ;;
  s <- read ;;
  search machine (machineInput_value s)
    "Machine ID required" "Searching machine...".

(** [boot()], with the page's elements present.  The flag starts unset;
    the pre-warm is started and not awaited, so the iframe is created
    at once and the flag is set only when the iframe has loaded (the
    piece [piece_prewarmed] below); then [showHint()]. *)
Definition boot : M unit :=
  modify (set_prewarmed false) ;;
  emit (EvIframe "/health") ;;
  showHint.

End Script.
End Boot.


(* ===================================================================== *)
(** ** Reading the markup back *)
(* ===================================================================== *)

(** What [escapeHtml] does to one character. *)
Definition escape_char (a : ascii) : string :=
  if Ascii.eqb a "&" then "&amp;"
  else if Ascii.eqb a "<" then "&lt;"
  else if Ascii.eqb a ">" then "&gt;"
  else String a "".

Fixpoint escape_text (s : string) : string :=
  match s with
  | EmptyString => EmptyString
  | String a s' => escape_char a ++ escape_text s'
  end.

(** Character data as an HTML parser reads it back: the three entities
    are decoded. *)
Fixpoint unescapeHtml (s : string) : string :=
  match s with
  | EmptyString => EmptyString
  | String a s' =>
      if Ascii.eqb a "&" then
        match s' with
        | String "a" (String "m" (String "p" (String ";" t))) =>
            String "&" (unescapeHtml t)
        | String "l" (String "t" (String ";" t)) => String "<" (unescapeHtml t)
        | String "g" (String "t" (String ";" t)) => String ">" (unescapeHtml t)
        | _ => String a (unescapeHtml s')
        end
      else String a (unescapeHtml s')
  end.

(** Text that holds no [<] and no [>], and [&] only at the head of one of
    the three entities: nothing in it is read as markup. *)
Fixpoint inert (s : string) : bool :=
  match s with
  | EmptyString => true
  | String a s' =>
      if Ascii.eqb a "<" || Ascii.eqb a ">" then false
      else if Ascii.eqb a "&" then
        (prefix "amp;" s' || prefix "lt;" s' || prefix "gt;" s') && inert s'
      else inert s'
  end.

(* ===================================================================== *)
(** ** A reference engine *)
(* ===================================================================== *)

(** An engine to run the script on concrete inputs.  Its error texts are
    those of V8.  Numbers are printed in decimal, which is what every
    engine prints for the integers below [2^53]; [JSON.parse] reads the
    JSON grammar with integer number literals. *)
Module Reference.

Definition print_number (n : number) : string :=
  match n with
  | NaN => "NaN"
  | Fin z => NilZero.string_of_int (Z.to_int z)
  | Inf false => "Infinity"
  | Inf true => "-Infinity"
  end.

(** *** [JSON.stringify] *)

Definition hex_lower (n : N) : ascii :=
  ascii_of_N (if (n <? 10)%N then 48 + n else 87 + n)%N.

Definition quote_char (a : ascii) : string :=
  let n := byte_of a in
  if (n =? 34)%N then "\" ++ dq
  else if (n =? 92)%N then "\\"
  else if (n =? 8)%N then "\b"
  else if (n =? 9)%N then "\t"
  else if (n =? 10)%N then "\n"
  else if (n =? 12)%N then "\f"
  else if (n =? 13)%N then "\r"
  else if (n <? 32)%N then
    "\u00" ++ String (hex_lower (n / 16)) (String (hex_lower (n mod 16)) "")
  else String a "".

Fixpoint quote_chars (s : string) : string :=
  match s with
  | EmptyString => EmptyString
  | String a s' => quote_char a ++ quote_chars s'
  end.

Definition quote (s : string) : string := dq ++ quote_chars s ++ dq.

Fixpoint spaces (n : nat) : string :=
  match n with
  | O => ""
  | S n' => String " " (spaces n')
  end.

(** [JSON.stringify(j, null, gap)]; [gap = 0] is the compact form.
    [ind] is the current indentation. *)
Fixpoint stringify (gap ind : nat) (j : json) : string :=
  let inner := (ind + gap)%nat in
  let sep := if Nat.eqb gap 0 then "," else "," ++ nl ++ spaces inner in
  let open_ := if Nat.eqb gap 0 then "" else nl ++ spaces inner in
  let close := if Nat.eqb gap 0 then "" else nl ++ spaces ind in
  let colon := if Nat.eqb gap 0 then ":" else ": " in
  match j with
  | JNull => "null"
  | JBool true => "true"
  | JBool false => "false"
  | JNum (Fin z) => print_number (Fin z)
  | JNum _ => "null"
  | JStr s => quote s
  | JArr [] => "[]"
  | JArr items =>
      "[" ++ open_
      ++ (fix join (l : list json) : string :=
            match l with
            | [] => ""
            | x :: rest =>
                stringify gap inner x
                ++ match rest with [] => "" | _ => sep ++ join rest end
            end) items
      ++ close ++ "]"
  | JObj [] => "{}"
  | JObj fields =>
      "{" ++ open_
      ++ (fix join (l : list (string * json)) : string :=
            match l with
            | [] => ""
            | (k, x) :: rest =>
                quote k ++ colon ++ stringify gap inner x
                ++ match rest with [] => "" | _ => sep ++ join rest end
            end) fields
      ++ close ++ "}"
  end.

(** *** [JSON.parse] *)

Fixpoint skip_ws (s : string) : string :=
  match s with
  | String a s' =>
      let n := byte_of a in
      if ((n =? 32) || (n =? 9) || (n =? 10) || (n =? 13))%N
      then skip_ws s' else s
  | EmptyString => s
  end.

Definition hex4 (a b c d : ascii) : option N :=
  match digit_value 16 a, digit_value 16 b, digit_value 16 c, digit_value 16 d with
  | Some x, Some y, Some z, Some w =>
      Some (Z.to_N (((x * 16 + y) * 16 + z) * 16 + w))
  | _, _, _, _ => None
  end.

(** The characters of a string literal after its opening quote, up to
    the closing quote; the rest of the input is returned with them. *)
Fixpoint parse_chars (s : string) : option (string * string) :=
  match s with
  | EmptyString => None
  | String a s1 =>
      let n := byte_of a in
      if (n =? 34)%N then Some ("", s1)
      else if (n <? 32)%N then None
      else if (n =? 92)%N then
        match s1 with
        | String e s2 =>
            let simple (c : N) :=
              match parse_chars s2 with
              | Some (t, r) => Some (String (ascii_of_N c) t, r)
              | None => None
              end in
            let m := byte_of e in
            if (m =? 34)%N then simple 34%N
            else if (m =? 92)%N then simple 92%N
            else if (m =? 47)%N then simple 47%N
            else if (m =? 98)%N then simple 8%N
            else if (m =? 102)%N then simple 12%N
            else if (m =? 110)%N then simple 10%N
            else if (m =? 114)%N then simple 13%N
            else if (m =? 116)%N then simple 9%N
            else if (m =? 117)%N then
              match s2 with
              | String h1 (String h2 (String h3 (String h4 s6))) =>
                  match hex4 h1 h2 h3 h4 with
                  | Some c =>
                      if ((55296 <=? c) && (c <? 57344))%N then None
                      else
                        match parse_chars s6 with
                        | Some (t, r) => Some (utf8 c ++ t, r)
                        | None => None
                        end
                  | None => None
                  end
              | _ => None
              end
            else None
        | EmptyString => None
        end
      else
        match parse_chars s1 with
        | Some (t, r) => Some (String a t, r)
        | None => None
        end
  end.

(** The digits at the head of the input and what follows them. *)
Fixpoint span_digits (s : string) : string * string :=
  match s with
  | String a s' =>
      match digit_value 10 a with
      | Some _ => let '(d, r) := span_digits s' in (String a d, r)
      | None => ("", s)
      end
  | EmptyString => ("", s)
  end.

Definition parse_number (neg : bool) (s : string) : option (json * string) :=
  let '(d, r) := span_digits s in
  match d with
  | EmptyString => None
  | String "0" (String _ _) => None          (* no leading zero *)
  | _ =>
      match r with
      | String "." _ | String "e" _ | String "E" _ => None
      | _ =>
          match read_digits 10 None d with
          | Some v => Some (JNum (number_of_Z neg v), r)
          | None => None
          end
      end
  end.

(** [o[k] = v] on an object under construction. *)
Fixpoint put (k : string) (v : json) (fields : list (string * json))
  : list (string * json) :=
  match fields with
  | [] => [(k, v)]
  | (k', v') :: rest =>
      if String.eqb k k' then (k, v) :: rest else (k', v') :: put k v rest
  end.

Fixpoint parse_value (fuel : nat) (s : string) : option (json * string) :=
  match fuel with
  | O => None
  | S fuel' =>
      match skip_ws s with
      | String "n" (String "u" (String "l" (String "l" r))) => Some (JNull, r)
      | String "t" (String "r" (String "u" (String "e" r))) =>
          Some (JBool true, r)
      | String "f" (String "a" (String "l" (String "s" (String "e" r)))) =>
          Some (JBool false, r)
      | String "[" r =>
          match skip_ws r with
          | String "]" r' => Some (JArr [], r')
          | _ =>
              match parse_items fuel' r with
              | Some (items, r') => Some (JArr items, r')
              | None => None
              end
          end
      | String "{" r =>
          match skip_ws r with
          | String "}" r' => Some (JObj [], r')
          | _ =>
              match parse_fields fuel' [] r with
              | Some (fields, r') => Some (JObj fields, r')
              | None => None
              end
          end
      | String "-" r => parse_number true r
      | String a r =>
          if (byte_of a =? 34)%N then
            match parse_chars r with
            | Some (t, r') => Some (JStr t, r')
            | None => None
            end
          else parse_number false (String a r)
      | EmptyString => None
      end
  end
with parse_items (fuel : nat) (s : string) : option (list json * string) :=
  match fuel with
  | O => None
  | S fuel' =>
      match parse_value fuel' s with
      | Some (x, r) =>
          match skip_ws r with
          | String "," r' =>
              match parse_items fuel' r' with
              | Some (rest, r'') => Some (x :: rest, r'')
              | None => None
              end
          | String "]" r' => Some ([x], r')
          | _ => None
          end
      | None => None
      end
  end
with parse_fields (fuel : nat) (acc : list (string * json)) (s : string)
  : option (list (string * json) * string) :=
  match fuel with
  | O => None
  | S fuel' =>
      match skip_ws s with
      | String q r =>
          if (byte_of q =? 34)%N then
            match parse_chars r with
            | Some (k, r1) =>
                match skip_ws r1 with
                | String ":" r2 =>
                    match parse_value fuel' r2 with
                    | Some (x, r3) =>
                        match skip_ws r3 with
                        | String "," r4 => parse_fields fuel' (put k x acc) r4
                        | String "}" r4 => Some (put k x acc, r4)
                        | _ => None
                        end
                    | None => None
                    end
                | _ => None
                end
            | None => None
            end
          else None
      | EmptyString => None
      end
  end.

Definition parse (s : string) : outcome json :=
  match parse_value (S (String.length s)) s with
  | Some (j, r) =>
      if is_empty (skip_ws r) then Ok j
      else Throw "Unexpected non-whitespace character after JSON"
  | None =>
      if is_empty (skip_ws s) then Throw "Unexpected end of JSON input"
      else Throw "Unexpected token in JSON"
  end.

(** *** Strings as objects *)

(** The characters of a text, each with its UTF-8 bytes: a byte
    [10xxxxxx] continues the character before it. *)
Fixpoint characters (s : string) : list string :=
  match s with
  | EmptyString => []
  | String a s' =>
      let n := byte_of a in
      match characters s' with
      | c :: rest =>
          match c with
          | String b _ =>
              if ((128 <=? byte_of b) && (byte_of b <? 192))%N
              then String a c :: rest
              else String a "" :: c :: rest
          | EmptyString => String a "" :: rest
          end
      | [] => [String a ""]
      end
  end.

(** UTF-16 code units of a character: two beyond the basic plane. *)
Definition units (c : string) : nat :=
  match c with
  | String a _ => if (240 <=? byte_of a)%N then 2 else 1
  | EmptyString => 0
  end.

Definition array_index (k : string) : option nat :=
  match k with
  | EmptyString => None
  | String "0" (String _ _) => None
  | _ =>
      let '(d, r) := span_digits k in
      if is_empty r then
        match read_digits 10 None d with
        | Some v => Some (Z.to_nat v)
        | None => None
        end
      else None
  end.

(** [s.length] and [s[i]]; a character beyond the basic plane has no
    representable halves and reads as [undefined] here. *)
Definition string_get (s k : string) : jsval :=
  let cs := characters s in
  if String.eqb k "length"
  then Some (JNum (Fin (Z.of_nat (list_sum (map units cs)))))
  else
    match array_index k with
    | Some i =>
        if forallb (fun c => Nat.eqb (units c) 1) cs
        then option_map JStr (nth_error cs i)
        else None
    | None => None
    end.

(** *** The members of the built-in prototypes *)

(** How a built-in function prints. *)
Definition native (name : string) : string :=
  "function " ++ name ++ "() { [native code] }".

Definition object_members : list string :=
  ["constructor"; "hasOwnProperty"; "isPrototypeOf"; "propertyIsEnumerable";
   "toLocaleString"; "toString"; "valueOf"; "__defineGetter__";
   "__defineSetter__"; "__lookupGetter__"; "__lookupSetter__"].

Definition array_members : list string :=
  ["at"; "concat"; "copyWithin"; "entries"; "every"; "fill"; "filter";
   "find"; "findIndex"; "findLast"; "findLastIndex"; "flat"; "flatMap";
   "forEach"; "includes"; "indexOf"; "join"; "keys"; "lastIndexOf"; "map";
   "pop"; "push"; "reduce"; "reduceRight"; "reverse"; "shift"; "slice";
   "some"; "sort"; "splice"; "toReversed"; "toSorted"; "toSpliced";
   "unshift"; "values"; "with"].

Definition string_members : list string :=
  ["anchor"; "at"; "big"; "blink"; "bold"; "charAt"; "charCodeAt";
   "codePointAt"; "concat"; "endsWith"; "fixed"; "fontcolor"; "fontsize";
   "includes"; "indexOf"; "isWellFormed"; "italics"; "lastIndexOf"; "link";
   "localeCompare"; "match"; "matchAll"; "normalize"; "padEnd"; "padStart";
   "repeat"; "replace"; "replaceAll"; "search"; "slice"; "small"; "split";
   "startsWith"; "strike"; "sub"; "substr"; "substring"; "sup";
   "toLocaleLowerCase"; "toLocaleUpperCase"; "toLowerCase"; "toUpperCase";
   "toWellFormed"; "trim"; "trimEnd"; "trimStart"].

Definition number_members : list string :=
  ["toExponential"; "toFixed"; "toPrecision"].

Definition mem (k : string) (l : list string) : bool :=
  existsb (String.eqb k) l.

(** The member [k] of the prototypes of [v], as [String] prints it. *)
Definition prototype_member (v : json) (k : string) : option string :=
  let class (name proto : string) (more : list string) :=
    if String.eqb k "constructor" then Some (native name)
    else if String.eqb k "__proto__" then Some proto
    else if String.eqb k "trimLeft" && mem "trimStart" more
    then Some (native "trimStart")
    else if String.eqb k "trimRight" && mem "trimEnd" more
    then Some (native "trimEnd")
    else if mem k more || mem k object_members then Some (native k)
    else None in
  match v with
  | JNull => None
  | JObj _ => class "Object" "[object Object]" []
  | JArr _ => class "Array" "" array_members
  | JStr _ => class "String" "" string_members
  | JNum _ => class "Number" "0" number_members
  | JBool _ => class "Boolean" "false" []
  end.

(** The key of a computed read, for the message of the engine. *)
Definition key_text (c : json) : string :=
  match c with
  | JStr k => k
  | JNum n => print_number n
  | JBool true => "true"
  | JBool false => "false"
  | JNull => "null"
  | JArr _ => ""
  | JObj _ => "[object Object]"
  end.

#[export] Instance engine : Engine := {
  JSON_parse := parse;
  JSON_stringify := stringify 0 0;
  JSON_stringify_pretty v :=
    match v with
    | Some j => stringify 2 0 j
    | None => "undefined"
    end;
  Number_toString := print_number;
  TypeError_null k := "Cannot read properties of null (reading '" ++ k ++ "')";
  TypeError_not_a_function := "cols.map is not a function";
  TypeError_not_iterable := "rows is not iterable";
  TypeError_not_primitive := "Cannot convert object to primitive value";
  TypeError_null_at c :=
    "Cannot read properties of null (reading '" ++ key_text c ++ "')";
  URIError_malformed := "URI malformed";
  String_get := string_get;
  String_iterate := characters;
  Array_index := array_index;
  Prototype_member := prototype_member;
  location_origin := "https://dashboard.example"
}.

End Reference.

(* ===================================================================== *)
(** ** The two [fetchJson] seen from the network *)
(* ===================================================================== *)

Section Views.
Context {E : Engine}.

(** What [fetchJson] of [static/script.js] makes of the response it received. *)
Definition static_outcome (r : response) : outcome json :=
  if negb (ok r) then Throw (error_message r)
  else if (status r =? 204)%N then Ok (JObj [])
  else if negb (is_json r) then
    obind (res_text r) (fun text =>
      Throw (or_default text "Non-JSON response received"))
  else res_json r.

(** The request [doFetch] issues in the [boot()] variant. *)
Definition boot_request (url : string) : request :=
  {| req_url := Boot.absolute url; req_credentials := Some "include";
     req_accept := Some "application/json"; req_cache := Some "no-store";
     req_redirect := Some "follow" |}.

(** The outcome of a [doFetch] followed by [attempt]. *)
Definition attempted (o : fetch_outcome) : outcome json :=
  match o with
  | Rejected m => Throw m
  | Resolved r => Boot.attempt r
  end.

End Views.

(* ===================================================================== *)
(** ** Concrete pages, responses and networks *)
(* ===================================================================== *)

Module Examples.
Import Reference.

(** A page before the script has run. *)
Definition blank : state :=
  {| machineInput_value := ""; locationInput_value := "";
     limitSelect_value := "50"; outputBox_innerHTML := "";
     matchedPill_textContent := ""; returnedPill_textContent := "";
     statusText_textContent := "";
     downloadBtn_disabled := false; copyJsonBtn_disabled := false;
     lastSearch := None; lastResult := None; prewarmed := false;
     trace := [] |}.

(** A backend that gives the same answer to every request. *)
Definition always (r : response) : network := fun _ _ => Resolved r.

(** HTTP 500 with body [{"detail":"db unavailable"}]. *)
Definition unavailable : response :=
  {| status := 500; content_type := Some "application/json";
     res_body := BodyText ("{" ++ dq ++ "detail" ++ dq ++ ":" ++ dq
                           ++ "db unavailable" ++ dq ++ "}") |}.


(** HTTP 200 with an empty body and no JSON content type. *)
Definition bare_200 : response :=
  {| status := 200; content_type := Some "text/html";
     res_body := BodyText "" |}.

(** HTTP 200, JSON content type, empty body. *)
Definition empty_json_200 : response :=
  {| status := 200; content_type := Some "application/json";
     res_body := BodyText "" |}.

(** HTTP 204, no content type, no body. *)
Definition no_content : response :=
  {| status := 204; content_type := None; res_body := BodyText "" |}.

Definition machine_url : string :=
  "/api/search/machine?machine_id=M-102&limit=50".

(** The page after the script has started and the user has typed a
    machine identifier, left the location blank and chosen a limit. *)
Definition typed (net : network) (limit : string) : state :=
  set_inputs "M-102" "  " limit (exec (Static.init net) blank).

(** [{columns:["id","site"], rows:[{"id":"M-102","site":"NY"}],
    matched_rows:1}]. *)
Definition one_row : list (string * json) :=
  [("columns", JArr [JStr "id"; JStr "site"]);
   ("rows", JArr [JObj [("id", JStr "M-102"); ("site", JStr "NY")]]);
   ("matched_rows", JNum (Fin 1))].

(** A payload whose cell holds markup, and lacks its second column. *)
Definition hostile : list (string * json) :=
  [("columns", JArr [JStr "name"; JStr "a<b"]);
   ("rows", JArr [JObj [("name", JStr "<script>x&y</script>")]])].

End Examples.

Section Messages.
Context {E : Engine}.

(** [!text || text.trim() === '']. *)
Definition blank_text (text : string) : bool :=
  is_empty text || is_empty (trim text).


End Messages.

Section Pieces.
Context {E : Engine}.

(** The tail of a search handler, from the moment [fetchJson] settles
    with [o]: [lastSearch = {...}; renderTable(data)] inside the [try],
    [showError(e.message)] in the [catch]. *)
Definition search_finish (bullet : string) (k : kind) (v : string)
  (o : outcome json) : M unit :=
  try_catch
    (data <- lift o ;;
     modify (set_lastSearch (Some {| type := k; value := v |})) ;;
     renderTable bullet data)
    (fun message => showError message).

(** How far a call of [renderTable] gets: it stops on [null] before it
    writes anything, after [lastResult = data] when the first counter
    cannot be printed, after the first counter when the second cannot,
    after the counters and the buttons when the markup cannot be built,
    or it completes. *)
Inductive progress : Type :=
  | Untouched
  | Stored
  | Matched (matched : string)
  | Counted (matched len : string)
  | Rendered (matched len html : string).

(** The state [renderTable] reaches before it builds the markup. *)
Definition counted (data : json) (matched len : string) (s : state) : state :=
  set_copyJsonBtn false
    (set_downloadBtn false
       (set_returnedPill ("Returned: " ++ len)
          (set_matchedPill ("Matched: " ++ matched)
             (set_lastResult (Some data) s)))).

(** The page after a call of [renderTable] on [data] that got as far as
    [p]. *)
Definition after (data : json) (p : progress) (s : state) : state :=
  match p with
  | Untouched => s
  | Stored => set_lastResult (Some data) s
  | Matched matched =>
      set_matchedPill ("Matched: " ++ matched) (set_lastResult (Some data) s)
  | Counted matched len => counted data matched len s
  | Rendered matched len html =>
      set_statusText "Loaded results."
        (set_outputBox html (counted data matched len s))
  end.

(** [data.columns || []] and [data.rows || []] as sequences: a missing or
    falsy field is the empty sequence, an array is its items. *)
Definition sequence (v : jsval) : option (list json) :=
  match v with
  | None => Some []
  | Some j =>
      if truthy j then
        match j with
        | JArr items => Some items
        | _ => None
        end
      else Some []
  end.

(** The results of [f] on the items of a list, up to the first that
    throws. *)
Fixpoint all {A B : Type} (f : A -> outcome B) (l : list A)
  : outcome (list B) :=
  match l with
  | [] => Ok []
  | x :: l' =>
      obind (f x) (fun y => obind (all f l') (fun ys => Ok (y :: ys)))
  end.

(** The text a header or a cell shows: [String(v ?? "")] for the column
    [c] and for what [r[c]] finds. *)
Definition header_text (c : json) : outcome string := String_nullish (Some c).

Definition cell_text (r c : json) : outcome string :=
  obind (Member r c) (fun m =>
  match m with
  | Own v => String_nullish (Some v)
  | Inherited text => Ok text
  | Absent => String_nullish None
  end).

Definition header_texts (cols : list json) : outcome (list string) :=
  all header_text cols.

Definition row_texts (cols : list json) (r : json) : outcome (list string) :=
  all (cell_text r) cols.

Definition table_texts (cols rows : list json)
  : outcome (list (list string)) :=
  all (row_texts cols) rows.

(** The markup of a table with the given header texts and rows of cell
    texts. *)
Definition row_markup (texts : list string) : string :=
  "<tr>"
  ++ String.concat ""
       (map (fun t => "<td>" ++ escape_text t ++ "</td>") texts)
  ++ "</tr>".

Definition table_markup (heads : list string) (cells : list (list string))
  : string :=
  table_open
  ++ String.concat ""
       (map (fun t => "<th>" ++ escape_text t ++ "</th>") heads)
  ++ "</tr></thead><tbody>"
  ++ String.concat "" (map row_markup cells)
  ++ "</tbody></table></div>".

(** What a conversion gave, the empty text if it threw. *)
Definition printed (o : outcome string) : string :=
  match o with
  | Ok text => text
  | Throw _ => ""
  end.

(** A count of the result line, as [escapeHtml] prints it. *)
Definition count_html (v : jsval) : string :=
  escape_text (printed (String_nullish v)).

(** The markup [renderTable] writes for a payload with the given
    [matched_rows], columns and row objects, when it writes one. *)
Definition table_html (bullet : string) (matched : jsval)
  (cols : list json) (rows : list (list (string * json))) : string :=
  result_meta bullet (printed (escapeHtml matched))
    (printed (escapeHtml (Some (JNum (Fin (Z.of_nat (length rows)))))))
  ++ table_open
  ++ printed (header_cells cols)
  ++ "</tr></thead><tbody>"
  ++ printed (table_rows cols (map JObj rows))
  ++ "</tbody></table></div>".

End Pieces.

Section Handlers.
Context {E : Engine}.

(** The search handler of [static/script.js] for a kind of search, and
    the field it reads. *)
Definition static_handler (net : network) (k : kind) : M unit :=
  match k with
  | machine => Static.searchByMachine net
  | location => Static.searchByLocation net
  end.

Definition field_of (k : kind) (s : state) : string :=
  match k with
  | machine => machineInput_value s
  | location => locationInput_value s
  end.

Definition required_message (k : kind) : string :=
  match k with
  | machine => "Machine ID required"
  | location => "Location required"
  end.

(** The request of a search of kind [k] from the page state [s]. *)
Definition search_request (k : kind) (s : state) : request :=
  Static.json_request
    (search_url k (trim (field_of k s)) (search_limit (limitSelect_value s))).

End Handlers.

(* ===================================================================== *)
(** ** The page as a state machine *)
(* ===================================================================== *)

Section Machine.
Context {E : Engine}.

(** A [ResultSet] is held when [lastResult] is not [null]. *)
Definition held (s : state) : bool :=
  match lastResult s with
  | Some _ => true
  | None => false
  end.

(** Export and copy are enabled exactly when a result is held. *)
Definition buttons_follow (s : state) : Prop :=
  downloadBtn_disabled s = negb (held s)
  /\ copyJsonBtn_disabled s = negb (held s).

(** Export and copy are enabled together, and only when a result is
    held. *)
Definition buttons_guarded (s : state) : Prop :=
  copyJsonBtn_disabled s = downloadBtn_disabled s
  /\ (downloadBtn_disabled s = false -> held s = true).

(** The pieces of the handlers between two [await]s.  While a handler
    waits, the pieces of the others may run; the answer it waits for, [o]
    below, is whatever the network gives. *)
Inductive piece (bullet : string) : state -> state -> Prop :=
  | piece_edit s m l sel :
      piece bullet s (set_inputs m l sel s)
  | piece_io s evs :                      (* requests, pauses, toasts, ... *)
      piece bullet s (set_trace (trace s ++ evs) s)
  | piece_prewarmed s :
      piece bullet s (set_prewarmed true s)
  | piece_showHint s :
      piece bullet s (exec showHint s)
  | piece_showError s message :
      piece bullet s (exec (showError message) s)
  | piece_showLoading s msg :
      piece bullet s (exec (showLoading msg) s)
  | piece_search_finish s k v o :
      piece bullet s (exec (search_finish bullet k v o) s).

Inductive pieces (bullet : string) : state -> state -> Prop :=
  | pieces_refl s : pieces bullet s s
  | pieces_step s1 s2 s3 :
      pieces bullet s1 s2 -> piece bullet s2 s3 -> pieces bullet s1 s3.

(** The states of the page of [static/script.js]: the script has run on
    some page, then handlers run, each to its end or piece by piece. *)
Inductive static_reachable : state -> Prop :=
  | static_init net s0 :
      static_reachable (exec (Static.init net) s0)
  | static_edit s m l sel :
      static_reachable s -> static_reachable (set_inputs m l sel s)
  | static_machine net s :
      static_reachable s ->
      static_reachable (exec (Static.searchByMachine net) s)
  | static_location net s :
      static_reachable s ->
      static_reachable (exec (Static.searchByLocation net) s)
  | static_clear s :
      static_reachable s -> static_reachable (exec showHint s)
  | static_download net s :
      static_reachable s ->
      static_reachable (exec (downloadAllMatched net) s)
  | static_copy clipboard s :
      static_reachable s -> static_reachable (exec (copyJson clipboard) s)
  | static_piece s s' :
      static_reachable s -> piece Static.bullet s s' -> static_reachable s'.

(** The same for the [boot()] variant. *)
Inductive boot_reachable : state -> Prop :=
  | boot_init s0 :
      boot_reachable (exec Boot.boot s0)
  | boot_edit s m l sel :
      boot_reachable s -> boot_reachable (set_inputs m l sel s)
  | boot_machine net s :
      boot_reachable s ->
      boot_reachable (exec (Boot.searchByMachine net) s)
  | boot_location net s :
      boot_reachable s ->
      boot_reachable (exec (Boot.searchByLocation net) s)
  | boot_clear s :
      boot_reachable s -> boot_reachable (exec showHint s)
  | boot_download net s :
      boot_reachable s ->
      boot_reachable (exec (downloadAllMatched net) s)
  | boot_copy clipboard s :
      boot_reachable s -> boot_reachable (exec (copyJson clipboard) s)
  | boot_piece s s' :
      boot_reachable s -> piece Boot.bullet s s' -> boot_reachable s'.

End Machine.

(* ===================================================================== *)
(** ** Reading the table back from its markup *)
(* ===================================================================== *)

(** [strip p s]: [s] without its prefix [p], if it starts with [p]. *)
Fixpoint strip (p s : string) : option string :=
  match p with
  | EmptyString => Some s
  | String a p' =>
      match s with
      | String b s' => if Ascii.eqb a b then strip p' s' else None
      | EmptyString => None
      end
  end.

(** The character data up to the next tag, and the input from that tag. *)
Fixpoint take_text (s : string) : string * string :=
  match s with
  | EmptyString => ("", "")
  | String a s' =>
      if Ascii.eqb a "<" then ("", s)
      else let '(t, r) := take_text s' in (String a t, r)
  end.

(** The texts of the cells [open text close] at the head of the input,
    entities decoded, and the input after the last of them. *)
Fixpoint read_cells (fuel : nat) (open close : string) (s : string)
  : option (list string * string) :=
  match fuel with
  | O => None
  | S fuel' =>
      match strip open s with
      | None => Some ([], s)
      | Some s1 =>
          let '(t, r) := take_text s1 in
          match strip close r with
          | None => None
          | Some s2 =>
              match read_cells fuel' open close s2 with
              | Some (l, rest) => Some (unescapeHtml t :: l, rest)
              | None => None
              end
          end
      end
  end.

(** The rows [<tr> cells </tr>] at the head of the input. *)
Fixpoint read_rows (fuel : nat) (s : string)
  : option (list (list string) * string) :=
  match fuel with
  | O => None
  | S fuel' =>
      match strip "<tr>" s with
      | None => Some ([], s)
      | Some s1 =>
          match read_cells (S (String.length s1)) "<td>" "</td>" s1 with
          | Some (cells, r) =>
              match strip "</tr>" r with
              | None => None
              | Some s2 =>
                  match read_rows fuel' s2 with
                  | Some (l, rest) => Some (cells :: l, rest)
                  | None => None
                  end
              end
          | None => None
          end
      end
  end.

(** The header texts and the rows of cell texts of a rendered table;
    [None] if the markup is not that of a table. *)
Definition read_table (html : string)
  : option (list string * list (list string)) :=
  match strip table_open html with
  | None => None
  | Some s1 =>
      match read_cells (S (String.length s1)) "<th>" "</th>" s1 with
      | Some (head, r1) =>
          match strip "</tr></thead><tbody>" r1 with
          | None => None
          | Some s2 =>
              match read_rows (S (String.length s2)) s2 with
              | Some (rows, r2) =>
                  match strip "</tbody></table></div>" r2 with
                  | Some EmptyString => Some (head, rows)
                  | _ => None
                  end
              | None => None
              end
          end
      | None => None
      end
  end.


(* ===================================================================== *)
(** ** Views of the page state *)
(* ===================================================================== *)

Section Observations.
Context {E : Engine}.

(** What the user sees: the output area, the two counters, the status
    line and whether export and copy are disabled. *)
Definition shown (s : state)
  : string * string * string * string * bool * bool :=
  (outputBox_innerHTML s, matchedPill_textContent s,
   returnedPill_textContent s, statusText_textContent s,
   downloadBtn_disabled s, copyJsonBtn_disabled s).

(** The counters and the two buttons. *)
Definition gauges (s : state) : string * string * bool * bool :=
  (matchedPill_textContent s, returnedPill_textContent s,
   downloadBtn_disabled s, copyJsonBtn_disabled s).

(** The two variables of the script. *)
Definition stored (s : state) : option search * jsval :=
  (lastSearch s, lastResult s).

(** The three form controls. *)
Definition form (s : state) : string * string * string :=
  (machineInput_value s, locationInput_value s, limitSelect_value s).

(** The search handlers of the [boot()] variant, and their request. *)
Definition boot_handler (net : network) (k : kind) : M unit :=
  match k with
  | machine => Boot.searchByMachine net
  | location => Boot.searchByLocation net
  end.

Definition boot_search_request (k : kind) (s : state) : request :=
  boot_request
    (search_url k (trim (field_of k s)) (search_limit (limitSelect_value s))).

End Observations.

Section Outcomes.
Context {E : Engine}.


(** What [copyJson] does to the world, given the result it finds. *)
Definition copy_events (clipboard : string -> outcome unit) (held : jsval)
  : list event :=
  match held with
  | None => []
  | Some data =>
      if truthy data then
        match Get data "rows" with
        | Ok rows =>
            match clipboard (JSON_stringify_pretty rows) with
            | Ok _ => [EvClipboard (JSON_stringify_pretty rows);
                       EvToast "success" "Copied JSON to clipboard"]
            | Throw _ => [EvToast "error" "Copy failed"]
            end
        | Throw _ => [EvToast "error" "Copy failed"]
        end
      else []
  end.

End Outcomes.

(* ===================================================================== *)
(** ** The first variant of the unnamed file *)
(* ===================================================================== *)

(** The plain variant: [fetch] without options, the body of an error
    response as the message, counts written unescaped into the result
    line.  Its [escapeHtml], [toast], [showError] and [copyJson] are those
    above; its [downloadAllMatched] navigates to the export URL and is
    not embedded. *)
Module Legacy.
Section Script.
Context {E : Engine}.
Variable net : network.

Definition bare_request (url : string) : request :=
  {| req_url := url; req_credentials := None; req_accept := None;
     req_cache := None; req_redirect := None |}.

(** [fetchJson(url)]: [if (!res.ok) throw new Error(await res.text());
    return res.json()]. *)
Definition fetchJson (url : string) : M json :=
  res <- fetch net (bare_request url) ;;
  if negb (ok res) then
    text <- lift (res_text res) ;;
    throw text
  else lift (res_json res).

Definition hint_html : string :=
  nl ++ "      <div class=" ++ dq ++ "hint" ++ dq ++ ">" ++ nl
  ++ "        Results will appear here.<br/>" ++ nl
  ++ "        This UI calls your backend and renders JSON." ++ nl
  ++ "      </div>" ++ nl
  ++ "    ".

Definition showHint : M unit :=
  modify (set_lastResult None) ;;
  modify (set_lastSearch None) ;;
  modify (set_downloadBtn true) ;;
  modify (set_copyJsonBtn true) ;;
  modify (set_outputBox hint_html) ;;
  modify (set_matchedPill "Matched: 0") ;;
  modify (set_returnedPill "Returned: 0") ;;
  modify (set_statusText "Ready.").

Definition showLoading (msg : string) : M unit :=
  escaped <- lift (escapeHtml (Some (JStr msg))) ;;
  modify (set_outputBox
            (nl ++ "      <div class=" ++ dq ++ "loading" ++ dq ++ ">" ++ nl
             ++ "        <div class=" ++ dq ++ "spinner" ++ dq ++ "></div>"
             ++ nl
             ++ "        <div>" ++ escaped ++ "</div>"
             ++ nl
             ++ "      </div>" ++ nl
             ++ "    ")) ;;
  modify (set_statusText msg).

(** The result line: the two counts go in as the template prints them. *)
Definition result_meta (matched len : string) : string :=
  "<div class=" ++ dq ++ "result-meta" ++ dq ++ ">" ++ nl
  ++ "      Matched: <b>" ++ matched ++ "</b> |" ++ nl
  ++ "      Returned: <b>" ++ len ++ "</b>" ++ nl
  ++ "    </div>".

Definition renderTable (data : json) : M unit :=
  cols_v <- lift (Get data "columns") ;;
  let cols := js_or cols_v (JArr []) in
  rows_v <- lift (Get data "rows") ;;
  let rows := js_or rows_v (JArr []) in
  modify (set_lastResult (Some data)) ;;
  matched <- lift (Get data "matched_rows") ;;
  matched_text <- lift (template matched) ;;
  modify (set_matchedPill ("Matched: " ++ matched_text)) ;;
  len <- lift (Get rows "length") ;;
  len_text <- lift (template len) ;;
  modify (set_returnedPill ("Returned: " ++ len_text)) ;;
  modify (set_downloadBtn false) ;;
  modify (set_copyJsonBtn false) ;;
  matched_again <- lift (template matched) ;;
  len_again <- lift (template len) ;;
  let html := result_meta matched_again len_again in
  let html := html ++ "<div class=" ++ dq ++ "result-table-wrap" ++ dq
                   ++ "><table class=" ++ dq ++ "result-table" ++ dq ++ ">" in
  match cols with
  | JArr cs =>
      head <- lift (header_cells cs) ;;
      let html := html ++ "<thead><tr>" ++ head ++ "</tr></thead>" in
      let html := html ++ "<tbody>" in
      rs <- lift (iterate rows) ;;
      body <- lift (table_rows cs rs) ;;
      modify (set_outputBox (html ++ body ++ "</tbody></table></div>")) ;;
      modify (set_statusText "Loaded results.")
  | _ => throw TypeError_not_a_function
  end.

Definition search (k : kind) (field required loading : string) : M unit :=
  let v := trim field in
  if is_empty v then showError required
  else
    showLoading loading ;;
    try_catch
      (s <- read ;;
       let limit := search_limit (limitSelect_value s) in
       data <- fetchJson (search_url k v limit) ;;
       modify (set_lastSearch (Some {| type := k; value := v |})) ;;
       renderTable data)
      (fun message => showError message).

Definition searchByMachine : M unit :=
  s <- read ;;
  search machine (machineInput_value s)
    "Machine ID required" "Searching machine...".

Definition searchByLocation : M unit :=
  s <- read ;;
  search location (locationInput_value s)
    "Location required" "Searching location...".

End Script.
End Legacy.

Section LegacyViews.
Context {E : Engine}.

Definition legacy_handler (net : network) (k : kind) : M unit :=
  match k with
  | machine => Legacy.searchByMachine net
  | location => Legacy.searchByLocation net
  end.

Definition legacy_request (k : kind) (s : state) : request :=
  Legacy.bare_request
    (search_url k (trim (field_of k s)) (search_limit (limitSelect_value s))).


End LegacyViews.

(* ===================================================================== *)
(** ** The search handlers on the text as typed *)
(* ===================================================================== *)

(** The value of an input field is a sequence of UTF-16 code units and
    need not be well-formed Unicode: it can hold a surrogate without its
    pair.  [trim] keeps such a text and [encodeURIComponent] throws a
    [URIError] on it.  Here are the two built-ins on code units and the
    search handlers for a field given by its code units. *)
Module Raw.

Definition text : Type := list N.

(** White space and line terminators, by code unit. *)
Definition white (u : N) : bool :=
  ((9 <=? u) && (u <=? 13) || (u =? 32) || (u =? 160) || (u =? 5760)
   || (8192 <=? u) && (u <=? 8202) || (u =? 8232) || (u =? 8233)
   || (u =? 8239) || (u =? 8287) || (u =? 12288) || (u =? 65279))%N.

Fixpoint trimStart (t : text) : text :=
  match t with
  | [] => []
  | u :: t' => if white u then trimStart t' else t
  end.

Definition trimEnd (t : text) : text := rev (trimStart (rev t)).

(** [String.prototype.trim]. *)
Definition trim (t : text) : text := trimEnd (trimStart t).

(** The two halves of a surrogate pair, and the code point of a pair. *)
Definition high (u : N) : bool := ((55296 <=? u) && (u <=? 56319))%N.
Definition low (u : N) : bool := ((56320 <=? u) && (u <=? 57343))%N.
Definition paired (h l : N) : N :=
  (65536 + (h - 55296) * 1024 + (l - 56320))%N.

(** [%XX] for each byte. *)
Fixpoint percent (bytes : string) : string :=
  match bytes with
  | EmptyString => EmptyString
  | String a rest => pct_encode a ++ percent rest
  end.

(** The text as a [string]: the UTF-8 bytes of its code points (a
    surrogate without its pair, which has none, is written like the code
    units around it). *)
Fixpoint to_string (t : text) : string :=
  match t with
  | [] => EmptyString
  | u :: t' =>
      if high u then
        match t' with
        | w :: t'' =>
            if low w then utf8 (paired u w) ++ to_string t''
            else utf8 u ++ to_string t'
        | [] => utf8 u
        end
      else utf8 u ++ to_string t'
  end.

(** A text without a surrogate that is not half of a pair. *)
Fixpoint well_formed (t : text) : bool :=
  match t with
  | [] => true
  | u :: t' =>
      if low u then false
      else if high u then
        match t' with
        | w :: t'' => low w && well_formed t''
        | [] => false
        end
      else well_formed t'
  end.

(** *** Well-formed text, by its code points

    A text without stray surrogates is a sequence of code points other
    than surrogates; it has its UTF-16 code units, which is what the
    field holds, and its UTF-8 bytes, which is the [string] of the
    model. *)
Definition scalar (c : N) : bool :=
  ((c <? 55296) || (57344 <=? c) && (c <? 1114112))%N.

Definition utf16 (c : N) : text :=
  if (c <? 65536)%N then [c]
  else [(55296 + (c - 65536) / 1024)%N; (56320 + (c - 65536) mod 1024)%N].

Definition units_of (points : list N) : text := flat_map utf16 points.

Fixpoint bytes_of (points : list N) : string :=
  match points with
  | [] => EmptyString
  | c :: points' => utf8 c ++ bytes_of points'
  end.

(** The bytes of the code points, last byte first. *)
Fixpoint bytes_back (points : list N) : string :=
  match points with
  | [] => EmptyString
  | c :: points' => string_rev (utf8 c) ++ bytes_back points'
  end.

(** White space is told from the bytes of a character as from its code
    point, for the characters of one, two and three bytes. *)
Definition white_by_bytes (c : N) : bool :=
  (if c <? 128 then Bool.eqb (ws1 c) (white c)
   else if c <? 2048 then
     Bool.eqb (ws2 (192 + c / 64) (128 + c mod 64)) (white c)
   else
     Bool.eqb (ws3 (224 + c / 4096) (128 + (c / 64) mod 64) (128 + c mod 64))
              (white c))%N.

(** [P] holds of the [n] numbers from [c] on. *)
Fixpoint all_from (P : N -> bool) (n : nat) (c : N) : bool :=
  match n with
  | O => true
  | S n' => P c && all_from P n' (N.succ c)
  end.

Section Script.
Context {E : Engine}.

(** [encodeURIComponent]: an unreserved ASCII character is copied; any
    other code point is written as the [%XX] of its UTF-8 bytes; a
    surrogate that is not half of a pair makes the call throw. *)
Fixpoint encodeURIComponent (t : text) : outcome string :=
  match t with
  | [] => Ok EmptyString
  | u :: t' =>
      if (u <? 128)%N && uri_unreserved (ascii_of_N u) then
        obind (encodeURIComponent t') (fun rest =>
        Ok (String (ascii_of_N u) rest))
      else if low u then Throw URIError_malformed
      else if high u then
        match t' with
        | w :: t'' =>
            if low w then
              obind (encodeURIComponent t'') (fun rest =>
              Ok (percent (utf8 (paired u w)) ++ rest))
            else Throw URIError_malformed
        | [] => Throw URIError_malformed
        end
      else
        obind (encodeURIComponent t') (fun rest =>
        Ok (percent (utf8 u) ++ rest))
  end.

(** The URL of a search, for the value as encoded. *)
Definition url_with (k : kind) (encoded : string) (limit : number) : string :=
  match k with
  | machine => "/api/search/machine?machine_id="
  | location => "/api/search/location?q="
  end ++ encoded ++ "&limit=" ++ Number_toString limit.

Section Handler.
(** What the three variants put in the same handler. *)
Variable fetchJson : string -> M json.
Variable render : json -> M unit.
Variable loading : string -> M unit.

(** A search handler, for the text [field] of its input: the URL is
    built inside the [try], so that a [URIError] ends in [showError]
    like any other failure; the stored value is the trimmed text, which
    is well-formed once it has been encoded. *)
Definition search (k : kind) (field : text) (required message : string)
  : M unit :=
  let v := trim field in
  match v with
  | [] => showError required
  | _ =>
      loading message ;;
      try_catch
        (s <- read ;;
         let limit := search_limit (limitSelect_value s) in
         encoded <- lift (encodeURIComponent v) ;;
         data <- fetchJson (url_with k encoded limit) ;;
         modify (set_lastSearch (Some {| type := k; value := to_string v |})) ;;
         render data)
        (fun message => showError message)
  end.

End Handler.

(** The handlers of [static/script.js]. *)
Definition searchByMachine (net : network) (typed : text) : M unit :=
  search (Static.fetchJson net) (renderTable Static.bullet) showLoading
    machine typed "Machine ID required" "Searching machine...".

Definition searchByLocation (net : network) (typed : text) : M unit :=
  search (Static.fetchJson net) (renderTable Static.bullet) showLoading
    location typed "Location required" "Searching location...".

End Script.
End Raw.

Section RawViews.
Context {E : Engine}.

Definition loading_message (k : kind) : string :=
  match k with
  | machine => "Searching machine..."
  | location => "Searching location..."
  end.

(** The handler of [static/script.js] for a kind of search and a typed
    text, and the request it issues for a value as encoded. *)
Definition raw_handler (net : network) (k : kind) (typed : Raw.text)
  : M unit :=
  match k with
  | machine => Raw.searchByMachine net typed
  | location => Raw.searchByLocation net typed
  end.

Definition raw_request (k : kind) (encoded : string) (s : state) : request :=
  Static.json_request
    (Raw.url_with k encoded (search_limit (limitSelect_value s))).

(** The handlers of the [boot()] variant and of the plain variant. *)
Definition raw_boot_handler (net : network) (k : kind) (typed : Raw.text)
  : M unit :=
  Boot.prewarmViaIframe ;;
  Raw.search (Boot.fetchJson net) (renderTable Boot.bullet) showLoading
    k typed (required_message k) (loading_message k).

Definition raw_legacy_handler (net : network) (k : kind) (typed : Raw.text)
  : M unit :=
  Raw.search (Legacy.fetchJson net) Legacy.renderTable Legacy.showLoading
    k typed (required_message k) (loading_message k).

End RawViews.

Module MoreExamples.
Import Reference.

(** A payload whose [columns] is a string. *)
Definition bad_columns : json := JObj [("columns", JStr "id")].

(** An object that has no string: [{"toString":null}]. *)
Definition unprintable : json := JObj [("toString", JNull)].

(** [{"matched_rows":{"toString":null}}], and the answer that carries
    it. *)
Definition uncountable : json := JObj [("matched_rows", unprintable)].

Definition uncountable_response : response :=
  {| status := 200; content_type := Some "application/json";
     res_body := BodyText (stringify 0 0 uncountable) |}.

(** [{"columns":["constructor"],"rows":[{}]}]: one column, one row
    that lacks it. *)
Definition lacking : json :=
  JObj [("columns", JArr [JStr "constructor"]); ("rows", JArr [JObj []])].


(** A well-formed text by its code points: a space, [U+00E9], [U+20AC],
    [U+1F600] and a no-break space; and a page whose machine field holds
    it. *)
Definition accented : list N := [32; 233; 8364; 128512; 160]%N.

Definition accented_page (net : network) : state :=
  set_inputs (Raw.bytes_of accented) "" "50"
    (exec (Static.init net) Examples.blank).

(** The body of the one-row answer, and the answer. *)
Definition one_row_body : string := stringify 0 0 (JObj Examples.one_row).

Definition one_row_response : response :=
  {| status := 200; content_type := Some "application/json";
     res_body := BodyText one_row_body |}.

(** The login page an intermediary serves until its cookie is set. *)
Definition login_page : response :=
  {| status := 200; content_type := Some "text/html";
     res_body := BodyText "<html>Sign in</html>" |}.

(** A network that serves the login page once, then the answer. *)
Definition warming : network :=
  fun history _ =>
    match history with
    | [] => Resolved login_page
    | _ => Resolved one_row_response
    end.

(** A network that is down. *)
Definition down : network := fun _ _ => Rejected "Failed to fetch".

(** A backend that answers searches but not exports. *)
Definition no_export : network :=
  fun _ r =>
    if prefix "/api/export/" (req_url r)
    then Resolved {| status := 404; content_type := Some "text/plain";
                     res_body := BodyText "no such machine" |}
    else Resolved one_row_response.

(** The page after a search for [M-102] on that backend. *)
Definition searched : state :=
  exec (Static.searchByMachine no_export) (Examples.typed no_export "50").

End MoreExamples.

(* ===================================================================== *)
(** ** Facts on strings *)
(* ===================================================================== *)

Lemma append_assoc (a b c : string) : (a ++ b) ++ c = a ++ (b ++ c).
Proof. induction a as [|x a IH]; simpl; [reflexivity | now rewrite IH]. Qed.

Lemma append_empty_r (a : string) : a ++ "" = a.
Proof. induction a as [|x a IH]; simpl; [reflexivity | now rewrite IH]. Qed.

Lemma chars_append (a b : string) :
  list_ascii_of_string (a ++ b)
  = (list_ascii_of_string a ++ list_ascii_of_string b)%list.
Proof. induction a as [|x a IH]; simpl; [reflexivity | now rewrite IH]. Qed.

Lemma or_default_nonempty (s d : string) : s <> "" -> or_default s d = s.
Proof. destruct s; simpl; congruence. Qed.

Lemma is_empty_true (s : string) : is_empty s = true <-> s = "".
Proof. destruct s; simpl; split; congruence. Qed.

Lemma is_empty_false (s : string) : is_empty s = false <-> s <> "".
Proof. destruct s; simpl; split; congruence. Qed.

(* ===================================================================== *)
(** ** Escaping *)
(* ===================================================================== *)

Lemma prefix_empty (s : string) : prefix "" s = true.
Proof. destruct s; reflexivity. Qed.

Lemma replaceAll_escape_text (s : string) :
  replaceAll ">" "&gt;" (replaceAll "<" "&lt;" (replaceAll "&" "&amp;" s))
  = escape_text s.
Proof.
  induction s as [|a s IH]; [reflexivity|].
  cbn [replaceAll escape_text]. unfold escape_char.
  destruct (Ascii.eqb a "&") eqn:Ha.
  - cbn. now rewrite IH.
  - cbn [replaceAll]. destruct (Ascii.eqb a "<") eqn:Hl.
    + cbn. now rewrite IH.
    + cbn [replaceAll]. destruct (Ascii.eqb a ">") eqn:Hg.
      * cbn. now rewrite IH.
      * cbn. now rewrite IH.
Qed.

Lemma inert_escape_text (s : string) : inert (escape_text s) = true.
Proof.
  induction s as [|a s IH]; [reflexivity|].
  cbn [escape_text]. unfold escape_char.
  destruct (Ascii.eqb a "&") eqn:Ha;
    [cbn; now rewrite prefix_empty, IH|].
  destruct (Ascii.eqb a "<") eqn:Hl;
    [cbn; now rewrite prefix_empty, IH|].
  destruct (Ascii.eqb a ">") eqn:Hg;
    [cbn; now rewrite prefix_empty, IH|].
  cbn [append inert]. now rewrite Hl, Hg, Ha.
Qed.

Lemma unescape_escape_text (s : string) : unescapeHtml (escape_text s) = s.
Proof.
  induction s as [|a s IH]; [reflexivity|].
  cbn [escape_text]. unfold escape_char.
  destruct (Ascii.eqb a "&") eqn:Ha.
  { apply Ascii.eqb_eq in Ha. subst a. cbn. now rewrite IH. }
  destruct (Ascii.eqb a "<") eqn:Hl.
  { apply Ascii.eqb_eq in Hl. subst a. cbn. now rewrite IH. }
  destruct (Ascii.eqb a ">") eqn:Hg.
  { apply Ascii.eqb_eq in Hg. subst a. cbn. now rewrite IH. }
  cbn [append unescapeHtml]. now rewrite Ha, IH.
Qed.

(** An inert text holds neither [<] nor [>]. *)
Lemma inert_no_angle (s : string) :
  inert s = true ->
  Forall (fun c => c <> "<"%char /\ c <> ">"%char) (list_ascii_of_string s).
Proof.
  induction s as [|a s IH]; cbn [inert list_ascii_of_string]; intros H.
  - constructor.
  - destruct (Ascii.eqb a "<") eqn:Hl; [discriminate|].
    destruct (Ascii.eqb a ">") eqn:Hg; [discriminate|].
    cbn [orb] in H.
    apply Ascii.eqb_neq in Hl, Hg.
    constructor; [now split|].
    apply IH. destruct (Ascii.eqb a "&"); [|exact H].
    now apply andb_true_iff in H.
Qed.

(* ===================================================================== *)
(** ** Running the handlers *)
(* ===================================================================== *)

Lemma skipn_length_app {A} (l x : list A) : skipn (length l) (l ++ x) = x.
Proof. induction l as [|a l IH]; simpl; [reflexivity | exact IH]. Qed.

Lemma requests_app (t u : list event) :
  requests (t ++ u) = (requests t ++ requests u)%list.
Proof.
  induction t as [|e t IH]; simpl; [reflexivity|].
  destruct e; simpl; now rewrite IH.
Qed.

Section Runs.
Context {E : Engine}.
Variable net : network.

Lemma fetch_run (req : request) (s : state) :
  fetch net req s
  = (match net (requests (trace s)) req with
     | Rejected m => Throw m
     | Resolved r => Ok r
     end,
     set_trace (trace s ++ [EvFetch req]) s).
Proof. unfold fetch. now destruct (net _ req). Qed.

(** *** [fetchJson] of [static/script.js] *)

Lemma static_fetchJson_run (url : string) (s : state) :
  Static.fetchJson net url s
  = (match net (requests (trace s)) (Static.json_request url) with
     | Rejected m => Throw m
     | Resolved r => static_outcome r
     end,
     set_trace (trace s ++ [EvFetch (Static.json_request url)]) s).
Proof.
  unfold Static.fetchJson, bind. rewrite fetch_run.
  destruct (net _ _) as [m|r]; [reflexivity|].
  unfold static_outcome.
  destruct (negb (ok r)); [reflexivity|].
  destruct (status r =? 204)%N; [reflexivity|].
  destruct (negb (is_json r)); [|reflexivity].
  unfold lift, throw, res_text. now destruct (res_body r).
Qed.

(** *** [fetchJson] of the [boot()] variant *)

Lemma boot_fetchJson_run (url : string) (s : state) :
  let req := boot_request url in
  let hist := requests (trace s) in
  Boot.fetchJson net url s
  = match net hist req with
    | Rejected m => (Throw m, set_trace (trace s ++ [EvFetch req]) s)
    | Resolved r1 =>
        match Boot.attempt r1 with
        | Ok j => (Ok j, set_trace (trace s ++ [EvFetch req]) s)
        | Throw _ =>
            (attempted (net (hist ++ [req])%list req),
             set_trace (trace s ++ [EvFetch req; EvSleep 250; EvFetch req]) s)
        end
    end.
Proof.
  intros req hist.
  unfold Boot.fetchJson, Boot.doFetch, bind, try_catch.
  fold (boot_request url). fold req. rewrite fetch_run. fold hist.
  destruct (net hist req) as [m|r1]; [reflexivity|].
  unfold lift at 1.
  destruct (Boot.attempt r1) as [j|m1]; [reflexivity|].
  unfold emit, modify. rewrite fetch_run. cbn [trace set_trace].
  rewrite !requests_app. cbn [requests]. rewrite !app_nil_r.
  rewrite <- !app_assoc. cbn [app].
  unfold lift, attempted. subst hist.
  destruct (net (requests (trace s) ++ [req])%list req); reflexivity.
Qed.

End Runs.

(* ===================================================================== *)
(** ** The fetch operation: attempts and messages *)
(* ===================================================================== *)

Section Fetching.
Context {E : Engine}.

Lemma emitted_set_trace {A} (c : M A) (s : state) (evs : list event) :
  exec c s = set_trace (trace s ++ evs) s -> emitted c s = evs.
Proof.
  unfold emitted. intros ->. cbn [trace set_trace]. apply skipn_length_app.
Qed.

Lemma static_fetchJson_emitted (net : network) (url : string) (s : state) :
  emitted (Static.fetchJson net url) s = [EvFetch (Static.json_request url)].
Proof.
  apply emitted_set_trace. unfold exec. now rewrite static_fetchJson_run.
Qed.

Lemma static_fetchJson_result (net : network) (url : string) (s : state) :
  result (Static.fetchJson net url) s
  = match net (requests (trace s)) (Static.json_request url) with
    | Rejected m => Throw m
    | Resolved r => static_outcome r
    end.
Proof. unfold result. now rewrite static_fetchJson_run. Qed.

(** The [boot()] variant never issues more than two requests. *)
Lemma boot_fetchJson_at_most_two (net : network) (url : string) (s : state) :
  (length (requests (emitted (Boot.fetchJson net url) s)) <= 2)%nat.
Proof.
  pose proof (boot_fetchJson_run net url s) as H. cbv zeta in H.
  unfold emitted, exec. rewrite H.
  destruct (net (requests (trace s)) (boot_request url)) as [m|r1].
  - cbn [snd trace set_trace]. rewrite skipn_length_app. simpl. lia.
  - destruct (Boot.attempt r1); cbn [snd trace set_trace];
      rewrite skipn_length_app; simpl; lia.
Qed.

(** C1 (amended).  In the [boot()] variant, when the first [fetch] gives a
    response and validating it fails, the request is issued once more,
    unchanged, after a pause of 250 ms, and the outcome of that second
    round, value or failure, is the outcome of [fetchJson]; no run issues
    more than two requests.  The [fetchJson] of [static/script.js] issues
    its request once, whatever the answer. *)
Theorem fetchJson_one_retry
  (net : network) (url : string) (s : state) (r1 : response) (m1 : string) :
  net (requests (trace s)) (boot_request url) = Resolved r1 ->
  Boot.attempt r1 = Throw m1 ->
  emitted (Boot.fetchJson net url) s
  = [EvFetch (boot_request url); EvSleep 250; EvFetch (boot_request url)]
  /\ result (Boot.fetchJson net url) s
     = attempted (net (requests (trace s) ++ [boot_request url])%list
                      (boot_request url))
  /\ (forall net' url' s',
        (length (requests (emitted (Boot.fetchJson net' url') s')) <= 2)%nat)
  /\ (forall net' url' s',
        emitted (Static.fetchJson net' url') s'
        = [EvFetch (Static.json_request url')]).
Proof.
  intros H1 Ha.
  pose proof (boot_fetchJson_run net url s) as H. cbv zeta in H.
  rewrite H1, Ha in H.
  repeat split.
  - apply emitted_set_trace. unfold exec. now rewrite H.
  - unfold result. now rewrite H.
  - apply boot_fetchJson_at_most_two.
  - apply static_fetchJson_emitted.
Qed.

(** C2 (amended).  For a response with a success status whose body reads
    as [text]: the [boot()] variant fails with [text] as the message, or
    with "Non-JSON response received" when [text] is empty, if the content
    type does not include [application/json]; otherwise it fails with
    "Empty response from server" if [text] is empty or white space only;
    otherwise it gives what [JSON.parse] makes of [text].  The variant of
    [static/script.js] answers status 204 by the empty object, treats a
    non-JSON content type alike and else gives what [JSON.parse] makes of
    [text].  These are the outcomes of [fetchJson] (in the [boot()]
    variant, when the retry is answered like the first request). *)
Theorem success_response_validation (r : response) (text : string) :
  ok r = true ->
  res_body r = BodyText text ->
  Boot.attempt r
  = (if negb (is_json r)
     then Throw (or_default text "Non-JSON response received")
     else if blank_text text then Throw "Empty response from server"
     else JSON_parse text)
  /\ static_outcome r
     = (if (status r =? 204)%N then Ok (JObj [])
        else if negb (is_json r)
        then Throw (or_default text "Non-JSON response received")
        else JSON_parse text)
  /\ (forall net url s,
        net (requests (trace s)) (Static.json_request url) = Resolved r ->
        result (Static.fetchJson net url) s = static_outcome r)
  /\ (forall net url s,
        net (requests (trace s)) (boot_request url) = Resolved r ->
        net (requests (trace s) ++ [boot_request url])%list (boot_request url)
        = Resolved r ->
        result (Boot.fetchJson net url) s = Boot.attempt r).
Proof.
  intros Hok Hbody. repeat split.
  - unfold Boot.attempt, res_text. rewrite Hok, Hbody. cbn [negb obind].
    reflexivity.
  - unfold static_outcome, res_json, res_text. rewrite Hok, Hbody.
    cbn [negb obind]. reflexivity.
  - intros net url s H. rewrite static_fetchJson_result. now rewrite H.
  - intros net url s H1 H2.
    pose proof (boot_fetchJson_run net url s) as H. cbv zeta in H.
    unfold result. rewrite H, H1.
    destruct (Boot.attempt r) eqn:Ha; [reflexivity|].
    cbn [fst]. rewrite H2. exact Ha.
Qed.






End Fetching.


(* ===================================================================== *)
(** ** [renderTable] *)
(* ===================================================================== *)

Lemma concat_cons (x : string) (xs : list string) :
  String.concat "" (x :: xs) = x ++ String.concat "" xs.
Proof.
  destruct xs as [|y ys]; cbn [String.concat]; [now rewrite append_empty_r|].
  reflexivity.
Qed.

Section Rendering.
Context {E : Engine}.

Lemma json_eq_null (j : json) : j = JNull \/ j <> JNull.
Proof. destruct j; [now left | right; discriminate ..]. Qed.

Lemma js_or_truthy (v : jsval) (d : json) :
  truthy d = true -> truthy (js_or v d) = true.
Proof.
  intros Hd. destruct v as [j|]; cbn [js_or]; [|exact Hd].
  destruct (truthy j) eqn:Hj; [exact Hj | exact Hd].
Qed.

Lemma Get_truthy (v : json) (k : string) :
  truthy v = true -> Get v k = Ok (own v k).
Proof. destruct v; cbn [truthy Get]; intros H; try discriminate; reflexivity. Qed.

Lemma Get_not_null (v : json) (k : string) :
  v <> JNull -> Get v k = Ok (own v k).
Proof. destruct v; cbn [Get]; intros H; try congruence; reflexivity. Qed.

(** *** Conversions *)

(** What [escapeHtml] prints is the text of [String(v ?? "")], escaped
    character by character. *)
Lemma escapeHtml_text (v : jsval) :
  escapeHtml v = obind (String_nullish v) (fun t => Ok (escape_text t)).
Proof.
  unfold escapeHtml. destruct (String_nullish v) as [t|m]; cbn [obind];
    [|reflexivity].
  unfold escapeHtml_replace. now rewrite replaceAll_escape_text.
Qed.

(** A value that a template can print can be printed by [escapeHtml]. *)
Lemma template_String_nullish (v : jsval) (t : string) :
  template v = Ok t -> String_nullish v = Ok (printed (String_nullish v)).
Proof.
  destruct v as [j|]; [|reflexivity].
  destruct j; cbn [template String_nullish]; intros H; try reflexivity;
    now rewrite H.
Qed.

Lemma String_nullish_template (v : jsval) (t : string) :
  String_nullish v = Ok t -> exists u, template v = Ok u.
Proof.
  destruct v as [j|]; [|now eexists].
  destruct j; try (now eexists); cbn [template String_nullish]; eauto.
Qed.

(** *** The markup and the texts *)

Lemma header_cells_texts (cols : list json) :
  header_cells cols
  = obind (header_texts cols) (fun texts =>
    Ok (String.concat ""
          (map (fun t => "<th>" ++ escape_text t ++ "</th>") texts))).
Proof.
  induction cols as [|c cols IH]; [reflexivity|].
  cbn [header_cells]. unfold header_texts. cbn [all].
  fold (header_texts cols).
  change (header_text c) with (String_nullish (Some c)).
  rewrite escapeHtml_text.
  destruct (String_nullish (Some c)) as [t|m]; cbn [obind]; [|reflexivity].
  rewrite IH.
  destruct (header_texts cols) as [ts|m]; cbn [obind]; [|reflexivity].
  cbn [map]. now rewrite concat_cons, !append_assoc.
Qed.

Lemma cell_cell_text (r c : json) :
  cell r c = obind (cell_text r c) (fun t => Ok (escape_text t)).
Proof.
  unfold cell, cell_text.
  destruct (Member r c) as [[v|text|]|m]; cbn [obind]; try reflexivity.
  - apply escapeHtml_text.
  - unfold escapeHtml_replace. now rewrite replaceAll_escape_text.
Qed.

Lemma row_cells_texts (r : json) (cols : list json) :
  row_cells r cols
  = obind (row_texts cols r) (fun texts =>
    Ok (String.concat ""
          (map (fun t => "<td>" ++ escape_text t ++ "</td>") texts))).
Proof.
  induction cols as [|c cols IH]; [reflexivity|].
  cbn [row_cells]. unfold row_texts. cbn [all]. fold (row_texts cols r).
  rewrite cell_cell_text.
  destruct (cell_text r c) as [t|m]; cbn [obind]; [|reflexivity].
  rewrite IH.
  destruct (row_texts cols r) as [ts|m]; cbn [obind]; [|reflexivity].
  cbn [map]. now rewrite concat_cons, !append_assoc.
Qed.

Lemma table_rows_texts (cols rows : list json) :
  table_rows cols rows
  = obind (table_texts cols rows) (fun cells =>
    Ok (String.concat "" (map row_markup cells))).
Proof.
  induction rows as [|r rows IH]; [reflexivity|].
  cbn [table_rows]. unfold table_texts. cbn [all].
  fold (table_texts cols rows). rewrite row_cells_texts.
  destruct (row_texts cols r) as [ts|m]; cbn [obind]; [|reflexivity].
  rewrite IH.
  destruct (table_texts cols rows) as [cells|m]; cbn [obind]; [|reflexivity].
  cbn [map]. rewrite concat_cons. unfold row_markup at 2.
  now rewrite !append_assoc.
Qed.

(** *** [renderTable] step by step *)

(** It throws before touching the page only on [null]. *)
Lemma renderTable_null (bullet : string) (s : state) :
  renderTable bullet JNull s = (Throw (TypeError_null "columns"), s).
Proof. reflexivity. Qed.

Lemma renderTable_run (bullet : string) (data : json) (s : state) :
  data <> JNull ->
  let rows := js_or (own data "rows") (JArr []) in
  let matched := own data "matched_rows" in
  let len := own rows "length" in
  renderTable bullet data s
  = match template matched with
    | Throw m => (Throw m, after data Stored s)
    | Ok tm =>
        match template len with
        | Throw m => (Throw m, after data (Matched tm) s)
        | Ok tl =>
            match js_or (own data "columns") (JArr []) with
            | JArr cs =>
                match header_texts cs with
                | Throw m => (Throw m, after data (Counted tm tl) s)
                | Ok heads =>
                    match iterate rows with
                    | Throw m => (Throw m, after data (Counted tm tl) s)
                    | Ok rs =>
                        match table_texts cs rs with
                        | Throw m => (Throw m, after data (Counted tm tl) s)
                        | Ok cells =>
                            (Ok tt,
                             after data
                               (Rendered tm tl
                                  (result_meta bullet (count_html matched)
                                     (count_html len)
                                   ++ table_markup heads cells)) s)
                        end
                    end
                end
            | _ => (Throw TypeError_not_a_function,
                    after data (Counted tm tl) s)
            end
        end
    end.
Proof.
  intros Hn rows matched len.
  assert (Hl : Get rows "length" = Ok len)
    by (apply Get_truthy, js_or_truthy; reflexivity).
  unfold renderTable, bind, lift, modify, throw.
  rewrite !(Get_not_null data _ Hn). fold rows. rewrite Hl. fold matched.
  destruct (template matched) as [tm|m] eqn:Htm; [|reflexivity].
  destruct (template len) as [tl|m] eqn:Htl; [|reflexivity].
  rewrite !escapeHtml_text.
  rewrite (template_String_nullish _ _ Htm), (template_String_nullish _ _ Htl).
  cbn [obind]. fold (count_html matched) (count_html len).
  cbv zeta. fold (counted data tm tl s).
  destruct (js_or (own data "columns") (JArr [])); try reflexivity.
  rewrite header_cells_texts.
  destruct (header_texts items) as [heads|m]; cbn [obind]; [|reflexivity].
  destruct (iterate rows) as [rs|m]; [|reflexivity].
  rewrite table_rows_texts.
  destruct (table_texts items rs) as [cells|m]; cbn [obind]; [|reflexivity].
  unfold after, table_markup. now rewrite !append_assoc.
Qed.

(** Whatever the payload, the outcome of [renderTable] and how far it
    gets depend on the payload alone; it completes exactly when it does
    not throw. *)
Lemma renderTable_progress (bullet : string) (data : json) :
  exists o p,
    (forall s, renderTable bullet data s = (o, after data p s))
    /\ match p with
       | Rendered _ _ _ => o = Ok tt
       | Untouched => data = JNull /\ exists m, o = Throw m
       | _ => data <> JNull /\ exists m, o = Throw m
       end.
Proof.
  destruct (json_eq_null data) as [->|Hn].
  { exists (Throw (TypeError_null "columns")), Untouched.
    split; [intros s; apply renderTable_null | split; eauto]. }
  pose proof (fun s => renderTable_run bullet data s Hn) as H.
  cbv zeta in H.
  destruct (template (own data "matched_rows")) as [tm|m];
    [|do 2 eexists; split; [exact H | split; eauto]].
  destruct (template _) as [tl|m];
    [|do 2 eexists; split; [exact H | split; eauto]].
  destruct (js_or (own data "columns") (JArr [])) as [| | | |cs|];
    try (do 2 eexists; split; [exact H | split; eauto]).
  destruct (header_texts cs) as [heads|m];
    [|do 2 eexists; split; [exact H | split; eauto]].
  destruct (iterate _) as [rs|m];
    [|do 2 eexists; split; [exact H | split; eauto]].
  destruct (table_texts cs rs) as [cells|m];
    [|do 2 eexists; split; [exact H | split; eauto]].
  do 2 eexists. split; [exact H | reflexivity].
Qed.

Lemma after_twice (data : json) (p : progress) (s : state) :
  after data p (after data p s) = after data p s.
Proof. destruct p; reflexivity. Qed.

Lemma after_trace (data : json) (p : progress) (s : state) :
  trace (after data p s) = trace s.
Proof. destruct p; reflexivity. Qed.


Lemma after_form (data : json) (p : progress) (s : state) :
  form (after data p s) = form s.
Proof. destruct p; reflexivity. Qed.

Lemma renderTable_trace (bullet : string) (data : json) (s : state) :
  trace (exec (renderTable bullet data) s) = trace s.
Proof.
  destruct (renderTable_progress bullet data) as (o & p & H & _).
  unfold exec. rewrite H. apply after_trace.
Qed.


(** X1.  Rendering a payload twice is rendering it once: same outcome, same
    page. *)
Theorem renderTable_idempotent (bullet : string) (data : json) (s : state) :
  renderTable bullet data (exec (renderTable bullet data) s)
  = renderTable bullet data s.
Proof.
  destruct (renderTable_progress bullet data) as (o & p & H & _).
  unfold exec. rewrite !H. cbn [snd]. now rewrite after_twice.
Qed.

(** X3.  A render that succeeds replaces all that is shown: the output area,
    the counters, the status and the state of the buttons depend on the
    payload alone, not on the page before.  Whether it succeeds depends
    on the payload alone as well. *)
Theorem render_replaces_wholesale
  (bullet : string) (data : json) (s1 s2 : state) :
  result (renderTable bullet data) s1 = result (renderTable bullet data) s2
  /\ (result (renderTable bullet data) s1 = Ok tt ->
      shown (exec (renderTable bullet data) s1)
      = shown (exec (renderTable bullet data) s2)
      /\ lastResult (exec (renderTable bullet data) s1)
         = lastResult (exec (renderTable bullet data) s2)).
Proof.
  destruct (renderTable_progress bullet data) as (o & p & H & Hp).
  unfold exec, result. rewrite !H. cbn [fst snd].
  split; [reflexivity|]. intros ->.
  destruct p as [| |m|m l|m l html];
    [destruct Hp as (_ & m' & Hm); discriminate .. | split; reflexivity].
Qed.

End Rendering.

(* ===================================================================== *)
(** ** The search handlers of [static/script.js] *)
(* ===================================================================== *)

Section Searching.
Context {E : Engine}.
Variable net : network.

Lemma showError_run (message : string) (s : state) :
  showError message s
  = (Ok tt,
     set_trace (trace s ++ [EvToast "error" message])
       (set_statusText "Error!" (set_outputBox (error_html message) s))).
Proof. reflexivity. Qed.

(** After [fetchJson] has settled, a search handler issues no request; it
    adds at most the toast of [showError]. *)
Lemma search_finish_trace (bullet : string) (k : kind) (v : string)
  (o : outcome json) (s : state) :
  exists evs, trace (exec (search_finish bullet k v o) s) = (trace s ++ evs)%list
              /\ requests evs = [].
Proof.
  unfold search_finish, exec, try_catch, bind, lift, modify.
  destruct o as [data|m].
  - pose proof (renderTable_trace bullet data
                  (set_lastSearch (Some {| type := k; value := v |}) s)) as Ht.
    unfold exec in Ht.
    destruct (renderTable bullet data _) as [[[]|m] s'] eqn:Hr; cbn [snd] in *.
    + exists []. now rewrite Ht, app_nil_r.
    + rewrite showError_run. cbn [snd trace set_trace set_statusText
                                    set_outputBox].
      rewrite Ht. eexists. split; reflexivity.
  - rewrite showError_run. eexists. split; reflexivity.
Qed.

Lemma showLoading_run (msg : string) (s : state) :
  showLoading msg s = (Ok tt, exec (showLoading msg) s)
  /\ trace (exec (showLoading msg) s) = trace s
  /\ limitSelect_value (exec (showLoading msg) s) = limitSelect_value s.
Proof. repeat split. Qed.

Lemma static_search_run (k : kind) (field required loading : string)
  (s : state) :
  Static.search net k field required loading s
  = if is_empty (trim field) then showError required s
    else
      let req := Static.json_request
                   (search_url k (trim field)
                      (search_limit (limitSelect_value s))) in
      search_finish Static.bullet k (trim field)
        (match net (requests (trace s)) req with
         | Rejected m => Throw m
         | Resolved r => static_outcome r
         end)
        (set_trace (trace s ++ [EvFetch req]) (exec (showLoading loading) s)).
Proof.
  unfold Static.search.
  destruct (is_empty (trim field)); [reflexivity|].
  cbv zeta.
  unfold bind at 1. rewrite (proj1 (showLoading_run loading s)).
  unfold search_finish, try_catch.
  unfold bind at 1, read at 1.
  unfold bind at 1. rewrite static_fetchJson_run.
  change (trace (exec (showLoading loading) s)) with (trace s).
  change (limitSelect_value (exec (showLoading loading) s))
    with (limitSelect_value s).
  unfold bind at 3, lift at 1.
  destruct (net _ _) as [m|r]; [reflexivity|].
  destruct (static_outcome r); reflexivity.
Qed.

(** The requests of a search on [static/script.js]: none for a blank
    field, else the one search request. *)
Lemma static_search_requests (k : kind) (field required loading : string)
  (s : state) :
  requests (emitted (Static.search net k field required loading) s)
  = if is_empty (trim field) then []
    else [Static.json_request
            (search_url k (trim field) (search_limit (limitSelect_value s)))].
Proof.
  unfold emitted, exec. rewrite static_search_run.
  destruct (is_empty (trim field)).
  - rewrite showError_run. cbn [snd trace set_trace].
    now rewrite skipn_length_app.
  - cbv zeta.
    match goal with
    | |- context [search_finish ?b ?k ?v ?o ?s1] =>
        destruct (search_finish_trace b k v o s1) as (evs & Ht & Hn)
    end.
    unfold exec in *. rewrite Ht. cbn [trace set_trace].
    rewrite <- app_assoc, skipn_length_app.
    cbn [app requests]. now rewrite Hn.
Qed.

End Searching.

(* ===================================================================== *)
(** ** Percent-encoding *)
(* ===================================================================== *)

Lemma pct_encode_decode (a : ascii) (rest : string) :
  decodeURIComponent (pct_encode a ++ rest)
  = String a (decodeURIComponent rest).
Proof.
  destruct a as [[] [] [] [] [] [] [] []]; reflexivity.
Qed.

Lemma pct_encode_safe (a : ascii) :
  Forall (fun c => uri_unreserved c = true \/ c = "%"%char)
         (list_ascii_of_string (pct_encode a)).
Proof.
  assert (H : forallb (fun c => uri_unreserved c || Ascii.eqb c "%")
                      (list_ascii_of_string (pct_encode a)) = true)
    by (destruct a as [[] [] [] [] [] [] [] []]; vm_compute; reflexivity).
  rewrite forallb_forall in H. apply Forall_forall. intros c Hc.
  specialize (H c Hc). apply orb_true_iff in H.
  destruct H as [H|H]; [now left | right; now apply Ascii.eqb_eq].
Qed.

Lemma unreserved_not_percent (a : ascii) :
  uri_unreserved a = true -> Ascii.eqb a "%" = false.
Proof.
  destruct (Ascii.eqb a "%") eqn:H; [|reflexivity].
  apply Ascii.eqb_eq in H. subst a. discriminate.
Qed.

Lemma decode_encode (v : string) :
  decodeURIComponent (encodeURIComponent v) = v.
Proof.
  induction v as [|a v IH]; [reflexivity|].
  cbn [encodeURIComponent].
  destruct (uri_unreserved a) eqn:Ha.
  - cbn [decodeURIComponent]. rewrite (unreserved_not_percent a Ha).
    now rewrite IH.
  - rewrite pct_encode_decode. now rewrite IH.
Qed.

Lemma encode_safe (v : string) :
  Forall (fun c => uri_unreserved c = true \/ c = "%"%char)
         (list_ascii_of_string (encodeURIComponent v)).
Proof.
  induction v as [|a v IH]; [constructor|].
  cbn [encodeURIComponent].
  destruct (uri_unreserved a) eqn:Ha.
  - cbn [list_ascii_of_string]. constructor; [now left | exact IH].
  - rewrite chars_append. apply Forall_app. split; [|exact IH].
    apply pct_encode_safe.
Qed.

(** No [&] survives the encoding. *)
Lemma encode_no_ampersand (v : string) :
  ~ In "&"%char (list_ascii_of_string (encodeURIComponent v)).
Proof.
  intros H. pose proof (encode_safe v) as Hs.
  rewrite Forall_forall in Hs. destruct (Hs _ H); discriminate.
Qed.

(* ===================================================================== *)
(** ** Validation, limit, URLs and export *)
(* ===================================================================== *)

Section Requests.
Context {E : Engine}.
Variable net : network.

Lemma static_handler_search (k : kind) (s : state) :
  static_handler net k s
  = Static.search net k (field_of k s) (required_message k)
      (match k with
       | machine => "Searching machine..."
       | location => "Searching location..."
       end) s.
Proof. destruct k; reflexivity. Qed.

(** The requests of a search handler of [static/script.js]. *)
Lemma static_handler_requests (k : kind) (s : state) :
  requests (emitted (static_handler net k) s)
  = if is_empty (trim (field_of k s)) then [] else [search_request k s].
Proof.
  unfold emitted, exec. rewrite static_handler_search.
  apply static_search_requests.
Qed.

(** C3 (amended).  The limit of a search request is 50 when the selected
    value does not start with an integer (it is absent or not numeric) or
    parses to zero; otherwise it is the parsed number, negative ones
    included. *)
Theorem search_limit_default (selected : string) :
  search_limit selected
  = match parseInt selected with
    | NaN => Fin 50
    | Fin z => if z =? 0 then Fin 50 else Fin z
    | Inf negative => Inf negative
    end
  /\ search_limit "" = Fin 50
  /\ (forall k s,
        Forall (fun r => req_url r
                         = search_url k (trim (field_of k s))
                             (search_limit (limitSelect_value s)))
               (requests (emitted (static_handler net k) s))).
Proof.
  repeat split.
  - unfold search_limit, number_or.
    destruct (parseInt selected) as [|z|b]; cbn [number_truthy];
      try reflexivity.
    now destruct (z =? 0).
  - intros k s. rewrite static_handler_requests.
    destruct (is_empty (trim (field_of k s))); repeat constructor.
Qed.



(** The runs of [downloadAllMatched] after a search. *)
Lemma downloadAllMatched_run (s : state) (ls : search) :
  lastSearch s = Some ls ->
  let req := export_request (export_url ls) in
  let s2 := set_trace (trace s ++ [EvToast "success" "Preparing full CSV...";
                                   EvFetch req]) s in
  downloadAllMatched net s
  = match net (requests (trace s)) req with
    | Rejected m => showError m s2
    | Resolved r =>
        match res_body r with
        | BodyError m => showError m s2
        | BodyText b =>
            if ok r
            then (Ok tt, set_trace (trace s2 ++ [EvDownload "results.csv" b]) s2)
            else showError (or_default b (http_status r)) s2
        end
    end.
Proof.
  intros Hls req s2.
  unfold downloadAllMatched, bind at 1, read. rewrite Hls.
  unfold try_catch, bind at 1, toast at 1, emit at 1, modify at 1.
  unfold bind at 1. rewrite fetch_run. cbn [trace set_trace].
  rewrite requests_app, app_nil_r, <- app_assoc. cbn [app].
  fold req. change (set_trace _ (set_trace _ s)) with s2.
  destruct (net (requests (trace s)) req) as [m|r]; [reflexivity|].
  unfold res_blob, res_text, bind, lift, throw, emit, modify.
  destruct (ok r), (res_body r); reflexivity.
Qed.




(** C10.  On [static/script.js], when the search request is answered with
    status 204, whatever the body and the content type, [fetchJson] gives
    the empty object and the search ends well: an empty table is shown,
    the result and the search are stored, export and copy are enabled, no
    error is raised. *)
Theorem no_content_success (k : kind) (s : state) (r : response) :
  is_empty (trim (field_of k s)) = false ->
  net (requests (trace s)) (search_request k s) = Resolved r ->
  status r = 204%N ->
  let s' := exec (static_handler net k) s in
  result (Static.fetchJson net (req_url (search_request k s))) s
  = Ok (JObj [])
  /\ result (static_handler net k) s = Ok tt
  /\ emitted (static_handler net k) s = [EvFetch (search_request k s)]
  /\ outputBox_innerHTML s' = table_html Static.bullet None [] []
  /\ statusText_textContent s' = "Loaded results."
  /\ lastResult s' = Some (JObj [])
  /\ lastSearch s' = Some {| type := k; value := trim (field_of k s) |}
  /\ downloadBtn_disabled s' = false
  /\ copyJsonBtn_disabled s' = false.
Proof.
  intros Hv Hr H204 s'.
  assert (Ho : static_outcome r = Ok (JObj [])).
  { unfold static_outcome, ok. now rewrite H204. }
  assert (Hrun : static_handler net k s
                 = search_finish Static.bullet k (trim (field_of k s))
                     (Ok (JObj []))
                     (set_trace (trace s ++ [EvFetch (search_request k s)])
                        (exec (showLoading
                                 match k with
                                 | machine => "Searching machine..."
                                 | location => "Searching location..."
                                 end) s))).
  { rewrite static_handler_search, static_search_run, Hv. cbv zeta.
    fold (search_request k s). now rewrite Hr, Ho. }
  split.
  { rewrite static_fetchJson_result.
    change (Static.json_request (req_url (search_request k s)))
      with (search_request k s).
    now rewrite Hr. }
  assert (Hhtml : result_meta Static.bullet (count_html None)
                     (count_html (Some (JNum (Fin 0))))
                   ++ table_markup [] []
                   = table_html Static.bullet None [] []).
  { unfold table_html, count_html, escapeHtml, escapeHtml_replace.
    cbn [String_nullish ToString obind printed length Z.of_nat].
    now rewrite !replaceAll_escape_text. }
  subst s'. unfold result, emitted, exec. rewrite Hrun.
  unfold search_finish, try_catch, bind, lift, modify.
  rewrite (renderTable_run Static.bullet (JObj []) _ ltac:(discriminate)).
  cbv zeta.
  cbn [own assoc js_or truthy template ToString length Z.of_nat
       header_texts iterate table_texts all String.eqb Ascii.eqb Bool.eqb].
  rewrite Hhtml.
  cbn [fst snd after counted trace set_trace set_statusText set_outputBox
       set_copyJsonBtn set_downloadBtn set_returnedPill set_matchedPill
       set_lastResult set_lastSearch outputBox_innerHTML
       statusText_textContent lastResult lastSearch downloadBtn_disabled
       copyJsonBtn_disabled].
  change (trace (exec (showLoading _) s)) with (trace s).
  rewrite skipn_length_app. repeat split.
Qed.

End Requests.


(* ===================================================================== *)
(** ** The required field, on the text as typed *)
(* ===================================================================== *)

(** *** [trim] on code units *)



Lemma forallb_of_rev {A} (f : A -> bool) (l : list A) :
  forallb f (rev l) = forallb f l.
Proof.
  induction l as [|x l IH]; [reflexivity|].
  cbn [rev forallb]. rewrite forallb_app, IH. cbn [forallb].
  rewrite andb_true_r. apply andb_comm.
Qed.


(** *** [encodeURIComponent] on code units *)

Section RawEncoding.
Context {E : Engine}.

Lemma ascii_not_surrogate (u : N) :
  (u <? 128)%N = true -> Raw.low u = false /\ Raw.high u = false.
Proof.
  intros H. apply N.ltb_lt in H. unfold Raw.low, Raw.high.
  split; apply andb_false_iff; left; apply N.leb_gt; lia.
Qed.

(** It throws exactly on the texts that hold a surrogate without its
    pair. *)
Lemma raw_encode_well_formed (t : Raw.text) :
  if Raw.well_formed t
  then exists encoded, Raw.encodeURIComponent t = Ok encoded
  else Raw.encodeURIComponent t = Throw URIError_malformed.
Proof.
  assert (H : forall n t, (length t <= n)%nat ->
              if Raw.well_formed t
              then exists encoded, Raw.encodeURIComponent t = Ok encoded
              else Raw.encodeURIComponent t = Throw URIError_malformed).
  { clear t. induction n as [|n IH]; intros [|u t] Hn;
      try (cbn [Raw.well_formed]; now eexists);
      cbn [length] in Hn; [lia|].
    cbn [Raw.well_formed Raw.encodeURIComponent].
    destruct ((u <? 128)%N && uri_unreserved (ascii_of_N u)) eqn:Hu.
    - apply andb_true_iff in Hu. destruct Hu as [Hu _].
      destruct (ascii_not_surrogate u Hu) as [-> ->].
      specialize (IH t ltac:(lia)).
      destruct (Raw.well_formed t).
      + destruct IH as [e ->]. now eexists.
      + now rewrite IH.
    - destruct (Raw.low u); [reflexivity|].
      destruct (Raw.high u).
      + destruct t as [|w t]; [reflexivity|].
        destruct (Raw.low w); cbn [andb]; [|reflexivity].
        cbn [length] in Hn. specialize (IH t ltac:(lia)).
        destruct (Raw.well_formed t).
        * destruct IH as [e ->]. now eexists.
        * now rewrite IH.
      + specialize (IH t ltac:(lia)).
        destruct (Raw.well_formed t).
        * destruct IH as [e ->]. now eexists.
        * now rewrite IH. }
  apply (H (length t)). lia.
Qed.

End RawEncoding.

(** *** The handler *)

Section RawSearch.
Context {E : Engine}.
Variable fetchJson : string -> M json.
Variable render : json -> M unit.
Variable loading : string -> M unit.
Hypothesis loading_ok :
  forall msg s, loading msg s = (Ok tt, exec (loading msg) s).
Hypothesis loading_limit :
  forall msg s,
    limitSelect_value (exec (loading msg) s) = limitSelect_value s.

Lemma raw_search_run (k : kind) (field : Raw.text)
  (required message : string) (s : state) :
  Raw.search fetchJson render loading k field required message s
  = match Raw.trim field with
    | [] => showError required s
    | _ :: _ =>
        let v := Raw.trim field in
        let s1 := exec (loading message) s in
        match Raw.encodeURIComponent v with
        | Throw m => showError m s1
        | Ok encoded =>
            try_catch
              (data <- fetchJson
                         (Raw.url_with k encoded
                            (search_limit (limitSelect_value s))) ;;
               modify (set_lastSearch
                         (Some {| type := k; value := Raw.to_string v |})) ;;
               render data)
              (fun m => showError m) s1
        end
    end.
Proof.
  unfold Raw.search. cbv zeta.
  destruct (Raw.trim field) as [|u v]; [reflexivity|].
  unfold bind at 1. rewrite loading_ok.
  unfold try_catch. unfold bind at 1, read at 1. rewrite loading_limit.
  unfold bind at 1, lift at 1.
  destruct (Raw.encodeURIComponent (u :: v)); reflexivity.
Qed.

End RawSearch.

Section RawStatic.
Context {E : Engine}.
Variable net : network.

Lemma raw_handler_search (k : kind) (typed : Raw.text) (s : state) :
  raw_handler net k typed s
  = Raw.search (Static.fetchJson net) (renderTable Static.bullet) showLoading
      k typed (required_message k) (loading_message k) s.
Proof. destruct k; reflexivity. Qed.

Lemma raw_handler_run (k : kind) (typed : Raw.text) (s : state) :
  raw_handler net k typed s
  = match Raw.trim typed with
    | [] => showError (required_message k) s
    | _ :: _ =>
        let v := Raw.trim typed in
        let s1 := exec (showLoading (loading_message k)) s in
        match Raw.encodeURIComponent v with
        | Throw m => showError m s1
        | Ok encoded =>
            search_finish Static.bullet k (Raw.to_string v)
              (match net (requests (trace s)) (raw_request k encoded s) with
               | Rejected m => Throw m
               | Resolved r => static_outcome r
               end)
              (set_trace (trace s ++ [EvFetch (raw_request k encoded s)]) s1)
        end
    end.
Proof.
  rewrite raw_handler_search, raw_search_run; [|intros; reflexivity ..].
  destruct (Raw.trim typed) as [|u v]; [reflexivity|]. cbv zeta.
  destruct (Raw.encodeURIComponent (u :: v)) as [encoded|m]; [|reflexivity].
  unfold search_finish, try_catch. unfold bind at 1.
  rewrite static_fetchJson_run.
  change (trace (exec (showLoading (loading_message k)) s)) with (trace s).
  unfold raw_request. unfold bind at 2, lift at 1.
  destruct (net _ _) as [m|r]; [reflexivity|].
  destruct (static_outcome r); reflexivity.
Qed.


End RawStatic.

(* ===================================================================== *)
(** ** The buttons and the held result *)
(* ===================================================================== *)

Section Buttons.
Context {E : Engine}.

Lemma set_trace_same (s : state) : set_trace (trace s ++ []) s = s.
Proof. rewrite app_nil_r. now destruct s. Qed.

Lemma after_guarded (data : json) (p : progress) (s : state) :
  buttons_guarded s -> buttons_guarded (after data p s).
Proof. intros [H1 H2]. destruct p; split; try reflexivity; assumption. Qed.

Lemma renderTable_guarded (bullet : string) (data : json) (s : state) :
  buttons_guarded s -> buttons_guarded (exec (renderTable bullet data) s).
Proof.
  intros Hs. destruct (renderTable_progress bullet data) as (o & p & H & _).
  unfold exec. rewrite H. now apply after_guarded.
Qed.

Lemma showError_guarded (message : string) (s : state) :
  buttons_guarded s -> buttons_guarded (exec (showError message) s).
Proof. intros [H1 H2]. now split. Qed.

Lemma search_finish_guarded (bullet : string) (k : kind) (v : string)
  (o : outcome json) (s : state) :
  buttons_guarded s -> buttons_guarded (exec (search_finish bullet k v o) s).
Proof.
  intros Hs. unfold search_finish, exec, try_catch, bind, lift, modify.
  destruct o as [data|m]; [|now apply showError_guarded].
  assert (H0 : buttons_guarded
                 (set_lastSearch (Some {| type := k; value := v |}) s))
    by (destruct Hs; now split).
  pose proof (renderTable_guarded bullet data _ H0) as H. unfold exec in H.
  destruct (renderTable bullet data _) as [[[]|m] s']; cbn [snd] in *;
    [exact H | now apply showError_guarded].
Qed.

Lemma piece_guarded (bullet : string) (s s' : state) :
  piece bullet s s' -> buttons_guarded s -> buttons_guarded s'.
Proof.
  intros Hp Hs. destruct Hp;
    try (destruct Hs; now split).
  - now apply search_finish_guarded.
Qed.

Lemma pieces_guarded (bullet : string) (s s' : state) :
  pieces bullet s s' -> buttons_guarded s -> buttons_guarded s'.
Proof.
  induction 1 as [s|sa sb sc Hab IH Hbc]; intros Hs; [exact Hs|].
  apply (piece_guarded bullet sb sc Hbc), IH, Hs.
Qed.

Lemma pieces_trans (bullet : string) (s1 s2 s3 : state) :
  pieces bullet s1 s2 -> pieces bullet s2 s3 -> pieces bullet s1 s3.
Proof.
  intros H12 H23. induction H23 as [s|sa sb sc Hab IH Hbc]; [exact H12|].
  apply (pieces_step bullet s1 sb sc); [apply IH, H12 | exact Hbc].
Qed.

Lemma pieces_one (bullet : string) (s s' : state) :
  piece bullet s s' -> pieces bullet s s'.
Proof. intros H. eapply pieces_step; [apply pieces_refl | exact H]. Qed.

(** Each handler of [static/script.js] runs as a sequence of pieces. *)
Lemma static_search_pieces (net : network) (k : kind)
  (field required loading : string) (s : state) :
  pieces Static.bullet s (exec (Static.search net k field required loading) s).
Proof.
  unfold exec. rewrite static_search_run.
  destruct (is_empty (trim field)).
  - apply pieces_one. apply piece_showError.
  - cbv zeta. eapply pieces_step; [|apply piece_search_finish].
    eapply pieces_step;
      [|apply (piece_io _ (exec (showLoading loading) s) [EvFetch _])].
    apply pieces_one. apply piece_showLoading.
Qed.

(** So does the handler for a text as typed. *)
Lemma raw_handler_pieces (net : network) (k : kind) (typed : Raw.text)
  (s : state) :
  pieces Static.bullet s (exec (raw_handler net k typed) s).
Proof.
  unfold exec. rewrite raw_handler_run.
  destruct (Raw.trim typed) as [|u v].
  - apply pieces_one. apply piece_showError.
  - cbv zeta. destruct (Raw.encodeURIComponent (u :: v)) as [encoded|m].
    + eapply pieces_step; [|apply piece_search_finish].
      eapply pieces_step;
        [|apply (piece_io _ (exec (showLoading (loading_message k)) s)
                   [EvFetch _])].
      apply pieces_one. apply piece_showLoading.
    + eapply pieces_step; [|apply piece_showError].
      apply pieces_one. apply piece_showLoading.
Qed.

Lemma downloadAllMatched_pieces (bullet : string) (net : network) (s : state) :
  pieces bullet s (exec (downloadAllMatched net) s).
Proof.
  destruct (lastSearch s) as [ls|] eqn:Hls.
  - unfold exec. rewrite (downloadAllMatched_run net s ls Hls). cbv zeta.
    assert (H2 : pieces bullet s
                   (set_trace
                      (trace s ++ [EvToast "success" "Preparing full CSV...";
                                   EvFetch (export_request (export_url ls))])
                      s))
      by (apply pieces_one, piece_io).
    destruct (net _ _) as [m|r].
    + eapply pieces_step; [exact H2 | apply piece_showError].
    + destruct (res_body r) as [b|m].
      * destruct (ok r).
        -- eapply pieces_step; [exact H2 | apply piece_io].
        -- eapply pieces_step; [exact H2 | apply piece_showError].
      * eapply pieces_step; [exact H2 | apply piece_showError].
  - unfold exec, downloadAllMatched, bind, read. rewrite Hls.
    apply pieces_one. apply piece_showError.
Qed.

Lemma copyJson_pieces (bullet : string) (clipboard : string -> outcome unit)
  (s : state) :
  pieces bullet s (exec (copyJson clipboard) s).
Proof.
  unfold exec, copyJson, bind at 1, read.
  destruct (lastResult s) as [data|]; [|apply pieces_refl].
  destruct (truthy data) eqn:Ht; cbn [negb]; [|apply pieces_refl].
  unfold try_catch, bind, lift, emit, toast, emit, modify.
  rewrite (Get_truthy data "rows" Ht).
  destruct (clipboard _); cbn [snd].
  - eapply pieces_step; [|apply piece_io]. apply pieces_one, piece_io.
  - apply pieces_one, piece_io.
Qed.

Lemma showHint_guarded (s : state) : buttons_guarded (exec showHint s).
Proof. split; [reflexivity | discriminate]. Qed.

Lemma static_reachable_guarded (s : state) :
  static_reachable s -> buttons_guarded s.
Proof.
  induction 1 as [net s0 | s m l sel _ IH | net s _ IH | net s _ IH
                  | s _ IH | net s _ IH | clipboard s _ IH | s s' _ IH Hp].
  - unfold exec, Static.init, bind, try_catch.
    destruct (showHint s0) as [[[]|m] s1] eqn:Hh; [|discriminate].
    assert (Hs1 : buttons_guarded s1).
    { replace s1 with (exec showHint s0) by (unfold exec; now rewrite Hh).
      apply showHint_guarded. }
    rewrite fetch_run. destruct (net _ _); cbn [snd];
      destruct Hs1; now split.
  - destruct IH. now split.
  - apply (pieces_guarded Static.bullet s); [|exact IH].
    apply (static_search_pieces net machine (machineInput_value s)
             "Machine ID required" "Searching machine...").
  - apply (pieces_guarded Static.bullet s); [|exact IH].
    apply (static_search_pieces net location (locationInput_value s)
             "Location required" "Searching location...").
  - apply showHint_guarded.
  - apply (pieces_guarded Static.bullet s); [|exact IH].
    apply downloadAllMatched_pieces.
  - apply (pieces_guarded Static.bullet s); [|exact IH].
    apply copyJson_pieces.
  - apply (piece_guarded Static.bullet s s' Hp IH).
Qed.

End Buttons.

(* ===================================================================== *)
(** ** The table read back *)
(* ===================================================================== *)

Lemma strip_app (p x : string) : strip p (p ++ x) = Some x.
Proof.
  induction p as [|a p IH]; [reflexivity|].
  cbn [append strip]. now rewrite Ascii.eqb_refl.
Qed.

Lemma length_append (a b : string) :
  String.length (a ++ b) = (String.length a + String.length b)%nat.
Proof. induction a as [|x a IH]; simpl; [reflexivity | now rewrite IH]. Qed.

Lemma take_text_escape (t rest : string) :
  take_text (escape_text t ++ String "<" rest)
  = (escape_text t, String "<" rest).
Proof.
  induction t as [|a t IH]; [reflexivity|].
  cbn [escape_text]. unfold escape_char.
  destruct (Ascii.eqb a "&") eqn:Ha; [cbn; now rewrite IH|].
  destruct (Ascii.eqb a "<") eqn:Hl; [cbn; now rewrite IH|].
  destruct (Ascii.eqb a ">") eqn:Hg; [cbn; now rewrite IH|].
  cbn [append take_text]. now rewrite Hl, IH.
Qed.

(** A run of cells, each an escaped text between [open] and a closing
    tag, reads back as the texts. *)
Lemma read_cells_escaped (open close' rest : string) (texts : list string) :
  strip open rest = None ->
  forall fuel, (length texts < fuel)%nat ->
  read_cells fuel open (String "<" close')
    (String.concat ""
       (map (fun t => open ++ escape_text t ++ String "<" close') texts)
     ++ rest)
  = Some (texts, rest).
Proof.
  intros Hrest. induction texts as [|t texts IH]; intros fuel Hf.
  - destruct fuel; [lia|]. cbn [map String.concat append read_cells].
    now rewrite Hrest.
  - destruct fuel; [simpl in Hf; lia|].
    cbn [map]. rewrite concat_cons, !append_assoc.
    cbn [read_cells]. rewrite strip_app.
    change (String "<" close' ++ ?x) with (String "<" (close' ++ x)).
    rewrite take_text_escape.
    change (String "<" (close' ++ ?x)) with (String "<" close' ++ x).
    rewrite strip_app, IH by (simpl in Hf; lia).
    now rewrite unescape_escape_text.
Qed.

Lemma concat_length_le {A} (f : A -> string) (l : list A) (rest : string) :
  (forall x, 1 <= String.length (f x))%nat ->
  (length l <= String.length (String.concat "" (map f l) ++ rest))%nat.
Proof.
  intros Hf. induction l as [|x l IH]; [simpl; lia|].
  cbn [map]. rewrite concat_cons, append_assoc, length_append.
  specialize (Hf x). simpl. lia.
Qed.

(** Rows of cells read back as their texts. *)
Lemma read_rows_markup (cells : list (list string)) (rest : string) :
  strip "<tr>" rest = None ->
  forall fuel, (length cells < fuel)%nat ->
  read_rows fuel (String.concat "" (map row_markup cells) ++ rest)
  = Some (cells, rest).
Proof.
  intros Hrest. induction cells as [|row cells IH]; intros fuel Hf.
  - destruct fuel; [lia|]. cbn [map String.concat append read_rows].
    now rewrite Hrest.
  - destruct fuel; [simpl in Hf; lia|].
    cbn [map]. rewrite concat_cons. unfold row_markup at 1.
    rewrite !append_assoc.
    cbn [read_rows]. rewrite strip_app.
    rewrite (read_cells_escaped "<td>" "/td>").
    + rewrite strip_app, IH by (simpl in Hf; lia). reflexivity.
    + reflexivity.
    + apply Nat.lt_succ_r, concat_length_le. intros x. simpl. lia.
Qed.

(** The markup of a table reads back as its header texts and its rows
    of cell texts, whatever characters these hold. *)
Lemma read_table_markup (heads : list string) (cells : list (list string)) :
  read_table (table_markup heads cells) = Some (heads, cells).
Proof.
  unfold read_table, table_markup. rewrite strip_app.
  rewrite (read_cells_escaped "<th>" "/th>").
  - rewrite strip_app, read_rows_markup.
    + reflexivity.
    + reflexivity.
    + apply Nat.lt_succ_r, concat_length_le.
      intros x. unfold row_markup. simpl. lia.
  - reflexivity.
  - apply Nat.lt_succ_r, concat_length_le. intros x. simpl. lia.
Qed.

(* ===================================================================== *)
(** ** Escaping in the rendered table *)
(* ===================================================================== *)

Lemma all_length {A B : Type} (f : A -> outcome B) (l : list A)
  (ys : list B) :
  all f l = Ok ys -> length ys = length l.
Proof.
  revert ys. induction l as [|x l IH]; intros ys; cbn [all].
  - intros H. injection H as <-. reflexivity.
  - destruct (f x) as [y|m]; cbn [obind]; [|discriminate].
    destruct (all f l) as [ys'|m]; cbn [obind]; [|discriminate].
    intros H. injection H as <-. cbn [length]. now rewrite (IH ys').
Qed.

Lemma all_Forall2 {A B : Type} (f : A -> outcome B) (l : list A)
  (ys : list B) :
  all f l = Ok ys -> Forall2 (fun x y => f x = Ok y) l ys.
Proof.
  revert ys. induction l as [|x l IH]; intros ys; cbn [all].
  - intros H. injection H as <-. constructor.
  - destruct (f x) as [y|m] eqn:Hx; cbn [obind]; [|discriminate].
    destruct (all f l) as [ys'|m]; cbn [obind]; [|discriminate].
    intros H. injection H as <-. constructor; [exact Hx | now apply IH].
Qed.

Section Escaped.
Context {E : Engine}.

(** A render that completes has written the result line and the table
    of the texts of the payload. *)
Lemma renderTable_completed (bullet : string) (data : json) (s : state) :
  result (renderTable bullet data) s = Ok tt ->
  exists cols rows heads cells tm tl,
    data <> JNull
    /\ js_or (own data "columns") (JArr []) = JArr cols
    /\ iterate (js_or (own data "rows") (JArr [])) = Ok rows
    /\ header_texts cols = Ok heads
    /\ table_texts cols rows = Ok cells
    /\ template (own data "matched_rows") = Ok tm
    /\ template (own (js_or (own data "rows") (JArr [])) "length") = Ok tl
    /\ exec (renderTable bullet data) s
       = after data
           (Rendered tm tl
              (result_meta bullet (count_html (own data "matched_rows"))
                 (count_html (own (js_or (own data "rows") (JArr []))
                                  "length"))
               ++ table_markup heads cells)) s.
Proof.
  unfold result, exec.
  destruct (json_eq_null data) as [->|Hn];
    [rewrite renderTable_null; discriminate|].
  rewrite (renderTable_run bullet data s Hn). cbv zeta.
  destruct (template (own data "matched_rows")) as [tm|m] eqn:Htm;
    [|discriminate].
  destruct (template (own _ "length")) as [tl|m] eqn:Htl; [|discriminate].
  destruct (js_or (own data "columns") (JArr [])) as [| | | |cs|] eqn:Hc;
    try discriminate.
  destruct (header_texts cs) as [heads|m] eqn:Hh; [|discriminate].
  destruct (iterate _) as [rs|m] eqn:Hr; [|discriminate].
  destruct (table_texts cs rs) as [cells|m] eqn:Ht; [|discriminate].
  intros _. exists cs, rs, heads, cells, tm, tl.
  split; [exact Hn|]. repeat (split; [reflexivity || assumption|]).
  reflexivity.
Qed.

Lemma table_texts_Forall2 (cols rows : list json)
  (cells : list (list string)) :
  table_texts cols rows = Ok cells ->
  Forall2 (fun r texts =>
             Forall2 (fun c text => cell_text r c = Ok text) cols texts)
          rows cells.
Proof.
  intros H. apply all_Forall2 in H.
  induction H as [|r texts rows' cells' Hrow _ IH]; [constructor|].
  constructor; [now apply all_Forall2 | exact IH].
Qed.

(** C7.  [escapeHtml] turns every [&] into [&amp;], every [<] into [&lt;]
    and every [>] into [&gt;] and keeps all other characters; what it
    gives holds no [<], no [>] and no [&] but at the head of one of these
    entities, and decodes back to the text.  Whenever a table is
    rendered, whatever the payload, every header, every cell (of a row
    that is an object, an array or a string, own or inherited) and the
    two counts have gone through it: read back from the markup, the
    table is the texts of the columns and, row by row, the texts of what
    the row holds for each column; the text of a string is the string
    itself. *)
Theorem table_text_escaped (bullet : string) (data : json) (s : state) :
  result (renderTable bullet data) s = Ok tt ->
  (forall v text,
     String_nullish v = Ok text ->
     escapeHtml v = Ok (escape_text text)
     /\ inert (escape_text text) = true
     /\ Forall (fun c => c <> "<"%char /\ c <> ">"%char)
               (list_ascii_of_string (escape_text text))
     /\ unescapeHtml (escape_text text) = text)
  /\ (escape_char "&" = "&amp;" /\ escape_char "<" = "&lt;"
      /\ escape_char ">" = "&gt;"
      /\ forall c, c <> "&"%char -> c <> "<"%char -> c <> ">"%char ->
                   escape_char c = String c "")
  /\ (exists cols rows heads cells matched len table,
        js_or (own data "columns") (JArr []) = JArr cols
        /\ iterate (js_or (own data "rows") (JArr [])) = Ok rows
        /\ Forall2 (fun c text => header_text c = Ok text) cols heads
        /\ Forall2 (fun r texts =>
                      Forall2 (fun c text => cell_text r c = Ok text)
                              cols texts) rows cells
        /\ outputBox_innerHTML (exec (renderTable bullet data) s)
           = result_meta bullet matched len ++ table
        /\ inert matched = true /\ inert len = true
        /\ read_table table = Some (heads, cells))
  /\ (forall text, header_text (JStr text) = Ok text)
  /\ (forall fields k text,
        assoc k fields = Some (JStr text) ->
        cell_text (JObj fields) (JStr k) = Ok text).
Proof.
  intros Hok. split; [|split; [|split; [|split]]].
  - intros v text Hv. rewrite escapeHtml_text, Hv. cbn [obind].
    repeat split.
    + apply inert_escape_text.
    + apply inert_no_angle, inert_escape_text.
    + apply unescape_escape_text.
  - repeat split. intros c Ha Hl Hg. unfold escape_char.
    apply Ascii.eqb_neq in Ha, Hl, Hg. now rewrite Ha, Hl, Hg.
  - destruct (renderTable_completed bullet data s Hok)
      as (cols & rows & heads & cells & tm & tl
          & Hn & Hc & Hr & Hh & Ht & _ & _ & Hrun).
    exists cols, rows, heads, cells.
    do 2 eexists. exists (table_markup heads cells).
    split; [exact Hc|]. split; [exact Hr|].
    split; [now apply all_Forall2|].
    split.
    { now apply table_texts_Forall2. }
    split; [rewrite Hrun; reflexivity|].
    split; [apply inert_escape_text|].
    split; [apply inert_escape_text|].
    apply read_table_markup.
  - reflexivity.
  - intros fields k text Hk. unfold cell_text, Member.
    cbn [ToString obind own]. now rewrite Hk.
Qed.

End Escaped.

(* ===================================================================== *)
(** ** The invariant of the page *)
(* ===================================================================== *)

Section Reachable.
Context {E : Engine}.

Lemma boot_fetchJson_io (net : network) (url : string) (s : state) :
  exists o evs, Boot.fetchJson net url s = (o, set_trace (trace s ++ evs) s).
Proof.
  pose proof (boot_fetchJson_run net url s) as H. cbv zeta in H. rewrite H.
  destruct (net _ _) as [m|r1]; [eauto|].
  destruct (Boot.attempt r1); eauto.
Qed.

Lemma boot_search_pieces (net : network) (k : kind)
  (field required loading : string) (s : state) :
  pieces Boot.bullet s (exec (Boot.search net k field required loading) s).
Proof.
  unfold exec, Boot.search.
  destruct (is_empty (trim field)).
  { apply pieces_one. apply piece_showError. }
  unfold bind at 1. rewrite (proj1 (showLoading_run loading s)).
  set (s1 := exec (showLoading loading) s).
  assert (H1 : pieces Boot.bullet s s1)
    by (apply pieces_one, piece_showLoading).
  unfold try_catch, bind at 1, read. unfold bind at 1.
  destruct (boot_fetchJson_io net
              (search_url k (trim field) (search_limit (limitSelect_value s1)))
              s1) as (o & evs & Hf).
  rewrite Hf.
  assert (H2 : pieces Boot.bullet s (set_trace (trace s1 ++ evs) s1))
    by (eapply pieces_step; [exact H1 | apply piece_io]).
  eapply pieces_trans; [exact H2|].
  apply pieces_one.
  replace (snd _) with
    (exec (search_finish Boot.bullet k (trim field) o)
          (set_trace (trace s1 ++ evs) s1)); [apply piece_search_finish|].
  unfold exec, search_finish, try_catch, bind, lift.
  destruct o; reflexivity.
Qed.

Lemma prewarm_pieces (s : state) :
  pieces Boot.bullet s (exec Boot.prewarmViaIframe s).
Proof.
  unfold exec, Boot.prewarmViaIframe, bind, read.
  destruct (prewarmed s); [apply pieces_refl|].
  unfold emit, modify. cbn [snd].
  eapply pieces_step; [apply pieces_one, piece_io | apply piece_prewarmed].
Qed.

Lemma boot_handler_pieces (net : network) (k : kind) (s : state) :
  pieces Boot.bullet s
    (exec (match k with
           | machine => Boot.searchByMachine net
           | location => Boot.searchByLocation net
           end) s).
Proof.
  pose proof (prewarm_pieces s) as Hp.
  unfold exec in *.
  destruct k; unfold Boot.searchByMachine, Boot.searchByLocation;
    unfold bind at 1;
    destruct (Boot.prewarmViaIframe s) as [[[]|m] s1] eqn:Hw;
    cbn [snd] in *;
    try (eapply pieces_trans; [exact Hp|]; apply boot_search_pieces);
    exact Hp.
Qed.

Lemma boot_run (s0 : state) :
  Boot.boot s0
  = (Ok tt,
     exec showHint
       (set_trace (trace s0 ++ [EvIframe "/health"])
          (set_prewarmed false s0))).
Proof. reflexivity. Qed.

Lemma boot_reachable_guarded (s : state) :
  boot_reachable s -> buttons_guarded s.
Proof.
  induction 1 as [s0 | s m l sel _ IH | net s _ IH | net s _ IH
                  | s _ IH | net s _ IH | clipboard s _ IH | s s' _ IH Hp].
  - unfold exec. rewrite boot_run. apply showHint_guarded.
  - destruct IH. now split.
  - apply (pieces_guarded Boot.bullet s); [|exact IH].
    apply (boot_handler_pieces net machine).
  - apply (pieces_guarded Boot.bullet s); [|exact IH].
    apply (boot_handler_pieces net location).
  - apply showHint_guarded.
  - apply (pieces_guarded Boot.bullet s); [|exact IH].
    apply downloadAllMatched_pieces.
  - apply (pieces_guarded Boot.bullet s); [|exact IH].
    apply copyJson_pieces.
  - apply (piece_guarded Boot.bullet s s' Hp IH).
Qed.

(** X23.  In every state the page can reach, in both variants, export and
    copy are enabled together and only while a result is held: they are
    disabled, and no result is held, once the script has started and
    after every reset, and a render that completes leaves the result
    held and both enabled.  The handlers for a text as typed stay within
    these states. *)
Theorem buttons_enabled_only_with_result :
  (forall s,
     static_reachable s \/ boot_reachable s ->
     copyJsonBtn_disabled s = downloadBtn_disabled s
     /\ (downloadBtn_disabled s = false -> lastResult s <> None))
  /\ (forall net s0,
        let s := exec (Static.init net) s0 in
        lastResult s = None
        /\ downloadBtn_disabled s = true /\ copyJsonBtn_disabled s = true)
  /\ (forall s0,
        let s := exec showHint s0 in
        lastResult s = None /\ lastSearch s = None
        /\ downloadBtn_disabled s = true /\ copyJsonBtn_disabled s = true)
  /\ (forall bullet data s,
        result (renderTable bullet data) s = Ok tt ->
        let s' := exec (renderTable bullet data) s in
        lastResult s' = Some data
        /\ downloadBtn_disabled s' = false /\ copyJsonBtn_disabled s' = false)
  /\ (forall net k typed s,
        static_reachable s ->
        static_reachable (exec (raw_handler net k typed) s)).
Proof.
  split; [|split; [|split; [|split]]].
  - intros s Hs.
    assert (H : buttons_guarded s)
      by (destruct Hs; [now apply static_reachable_guarded
                       | now apply boot_reachable_guarded]).
    destruct H as [H1 H2]. split; [exact H1|].
    intros Hd. specialize (H2 Hd). unfold held in H2.
    destruct (lastResult s); [discriminate | discriminate].
  - intros net s0 s. subst s. unfold exec, Static.init, bind, try_catch.
    destruct (showHint s0) as [[[]|m] s1] eqn:Hh; [|discriminate].
    replace s1 with (exec showHint s0) by (unfold exec; now rewrite Hh).
    rewrite fetch_run. destruct (net _ _); repeat split.
  - intros s0 s. repeat split.
  - intros bullet data s Hok s'. subst s'.
    destruct (renderTable_completed bullet data s Hok)
      as (cols & rows & heads & cells & tm & tl & _ & _ & _ & _ & _ & _ & _
          & Hrun).
    rewrite Hrun. repeat split.
  - intros net k typed s Hs.
    pose proof (raw_handler_pieces net k typed s) as Hp.
    induction Hp as [s1|s1 s2 s3 _ IH Hstep]; [exact Hs|].
    apply (static_piece s2 s3); [apply IH, Hs | exact Hstep].
Qed.

End Reachable.

(* ===================================================================== *)
(** ** More on [renderTable] *)
(* ===================================================================== *)

Section RenderMore.
Context {E : Engine}.

(** X2.  When [renderTable] throws, the output area, the status line and
    the stored search are not touched.  On [null] nothing is; on any
    other payload the payload is nevertheless stored, and what else has
    been written depends on where it stopped: nothing when
    [matched_rows] could not be printed, the first counter when the
    number of rows could not, and both counters with export and copy
    enabled when the markup could not be built. *)
Theorem renderTable_failure
  (bullet : string) (data : json) (s : state) (m : string) :
  result (renderTable bullet data) s = Throw m ->
  let s' := exec (renderTable bullet data) s in
  outputBox_innerHTML s' = outputBox_innerHTML s
  /\ statusText_textContent s' = statusText_textContent s
  /\ lastSearch s' = lastSearch s
  /\ match data with
     | JNull => s' = s
     | _ =>
         lastResult s' = Some data
         /\ match template (own data "matched_rows") with
            | Throw _ => gauges s' = gauges s
            | Ok matched =>
                matchedPill_textContent s' = "Matched: " ++ matched
                /\ match template (own (js_or (own data "rows") (JArr []))
                                       "length") with
                   | Throw _ =>
                       returnedPill_textContent s'
                       = returnedPill_textContent s
                       /\ downloadBtn_disabled s' = downloadBtn_disabled s
                       /\ copyJsonBtn_disabled s' = copyJsonBtn_disabled s
                   | Ok len =>
                       returnedPill_textContent s' = "Returned: " ++ len
                       /\ downloadBtn_disabled s' = false
                       /\ copyJsonBtn_disabled s' = false
                   end
            end
     end.
Proof.
  intros Hm s'. subst s'.
  destruct (json_eq_null data) as [->|Hn].
  { unfold exec. rewrite renderTable_null. repeat split. }
  assert (Hgoal :
    let s' := exec (renderTable bullet data) s in
    outputBox_innerHTML s' = outputBox_innerHTML s
    /\ statusText_textContent s' = statusText_textContent s
    /\ lastSearch s' = lastSearch s
    /\ lastResult s' = Some data
    /\ match template (own data "matched_rows") with
       | Throw _ => gauges s' = gauges s
       | Ok matched =>
           matchedPill_textContent s' = "Matched: " ++ matched
           /\ match template (own (js_or (own data "rows") (JArr []))
                                  "length") with
              | Throw _ =>
                  returnedPill_textContent s' = returnedPill_textContent s
                  /\ downloadBtn_disabled s' = downloadBtn_disabled s
                  /\ copyJsonBtn_disabled s' = copyJsonBtn_disabled s
              | Ok len =>
                  returnedPill_textContent s' = "Returned: " ++ len
                  /\ downloadBtn_disabled s' = false
                  /\ copyJsonBtn_disabled s' = false
              end
       end).
  { cbv zeta. unfold exec, result in *.
    rewrite (renderTable_run bullet data s Hn) in *. cbv zeta in *.
    destruct (template (own data "matched_rows")) as [tm|e];
      [|repeat split].
    destruct (template (own _ "length")) as [tl|e]; [|repeat split].
    destruct (js_or (own data "columns") (JArr [])) as [| | | |cs|];
      try solve [repeat split].
    destruct (header_texts cs) as [heads|e]; [|repeat split].
    destruct (iterate _) as [rs|e]; [|repeat split].
    destruct (table_texts cs rs) as [cells|e]; [discriminate|repeat split]. }
  cbv zeta in Hgoal. destruct Hgoal as (H1 & H2 & H3 & H4 & H5).
  split; [exact H1|]. split; [exact H2|]. split; [exact H3|].
  destruct data; try (split; [exact H4 | exact H5]). congruence.
Qed.

End RenderMore.

(* ===================================================================== *)
(** ** Searches that get no payload, export and copy *)
(* ===================================================================== *)

Section Handling.
Context {E : Engine}.
Variable net : network.

(** X5.  A search of [static/script.js] that gets no payload, because its
    field is blank or because [fetchJson] fails, shows its error and
    leaves the stored search, the stored result, the counters, the two
    buttons and the form as they were. *)
Theorem search_without_payload (k : kind) (s : state) (msg : string) :
  (if is_empty (trim (field_of k s)) then msg = required_message k
   else result (Static.fetchJson net (req_url (search_request k s))) s
        = Throw msg) ->
  let s' := exec (static_handler net k) s in
  stored s' = stored s
  /\ gauges s' = gauges s
  /\ form s' = form s
  /\ outputBox_innerHTML s' = error_html msg
  /\ statusText_textContent s' = "Error!"
  /\ exists evs, emitted (static_handler net k) s
                 = (evs ++ [EvToast "error" msg])%list
                 /\ (evs = [] \/ evs = [EvFetch (search_request k s)]).
Proof.
  intros H s'. subst s'. unfold emitted, exec.
  rewrite static_handler_search, static_search_run.
  destruct (is_empty (trim (field_of k s))).
  - subst msg. rewrite showError_run. cbn [snd trace set_trace].
    rewrite skipn_length_app. repeat split.
    exists []. split; [reflexivity | now left].
  - cbv zeta. rewrite static_fetchJson_result in H.
    change (Static.json_request (req_url (search_request k s)))
      with (search_request k s) in H.
    fold (search_request k s). rewrite H.
    unfold search_finish, try_catch, bind, lift. rewrite showError_run.
    cbn [snd trace set_trace]. rewrite <- app_assoc, skipn_length_app.
    repeat split.
    exists [EvFetch (search_request k s)]. split; [reflexivity | now right].
Qed.

(** X7.  Without a stored search the export shows "Search first before
    exporting." and requests nothing; this is so when the script has just
    started and after every reset. *)
Theorem export_needs_search (s : state) :
  lastSearch s = None ->
  emitted (downloadAllMatched net) s
  = [EvToast "error" "Search first before exporting."]
  /\ outputBox_innerHTML (exec (downloadAllMatched net) s)
     = error_html "Search first before exporting."
  /\ (forall s0, lastSearch (exec showHint s0) = None)
  /\ (forall net0 s0, lastSearch (exec (Static.init net0) s0) = None).
Proof.
  intros Hls.
  assert (Hrun : downloadAllMatched net s
                 = showError "Search first before exporting." s)
    by (unfold downloadAllMatched, bind, read; now rewrite Hls).
  unfold emitted, exec. rewrite Hrun, showError_run.
  cbn [snd trace set_trace]. rewrite skipn_length_app.
  split; [reflexivity|]. split; [reflexivity|]. split; [reflexivity|].
  intros net0 s0. unfold exec, Static.init, bind, try_catch.
  destruct (showHint s0) as [[[]|m] s1] eqn:Hh; [|discriminate].
  replace s1 with (exec showHint s0) by (unfold exec; now rewrite Hh).
  rewrite fetch_run. now destruct (net0 _ _).
Qed.


(** X9.  The export works from the stored search alone: what the user has
    typed or selected since does not change what it does. *)
Theorem export_ignores_form (s : state) (m l sel : string) :
  emitted (downloadAllMatched net) (set_inputs m l sel s)
  = emitted (downloadAllMatched net) s
  /\ result (downloadAllMatched net) (set_inputs m l sel s)
     = result (downloadAllMatched net) s
  /\ shown (exec (downloadAllMatched net) (set_inputs m l sel s))
     = shown (exec (downloadAllMatched net) s).
Proof.
  unfold emitted, result, exec.
  destruct (lastSearch s) as [ls|] eqn:Hls.
  - rewrite (downloadAllMatched_run net s ls Hls).
    rewrite (downloadAllMatched_run net (set_inputs m l sel s) ls Hls).
    cbv zeta. cbn [trace set_inputs].
    destruct (net _ _) as [e|r];
      [rewrite !showError_run; repeat split|].
    destruct (res_body r) as [b|e];
      [|rewrite !showError_run; repeat split].
    destruct (ok r); [|rewrite !showError_run]; repeat split.
  - unfold downloadAllMatched, bind, read. cbn [lastSearch set_inputs].
    rewrite Hls. rewrite !showError_run. repeat split.
Qed.

(** X10.  [copyJson] does nothing without a (truthy) result; with one it puts
    the pretty-printed [rows] on the clipboard and says so, or says "Copy
    failed" when the clipboard refuses.  It never issues a request and
    changes nothing on the page. *)
Theorem copyJson_events (clipboard : string -> outcome unit) (s : state) :
  exec (copyJson clipboard) s
  = set_trace (trace s ++ copy_events clipboard (lastResult s)) s
  /\ emitted (copyJson clipboard) s = copy_events clipboard (lastResult s)
  /\ requests (copy_events clipboard (lastResult s)) = []
  /\ result (copyJson clipboard) s = Ok tt.
Proof.
  assert (H : copyJson clipboard s
              = (Ok tt,
                 set_trace (trace s ++ copy_events clipboard (lastResult s))
                           s)).
  { unfold copyJson, copy_events, bind at 1, read.
    destruct (lastResult s) as [data|]; [|now rewrite set_trace_same].
    destruct (truthy data); cbn [negb]; [|now rewrite set_trace_same].
    unfold try_catch, bind, lift, emit, toast, emit, modify.
    destruct (Get data "rows") as [rows|m]; [|reflexivity].
    destruct (clipboard _) as [[]|m]; [|reflexivity].
    cbn [trace set_trace]. now rewrite <- app_assoc. }
  unfold emitted, exec, result. rewrite H. cbn [fst snd trace set_trace].
  rewrite skipn_length_app. repeat split.
  unfold copy_events. destruct (lastResult s) as [data|]; [|reflexivity].
  destruct (truthy data); [|reflexivity].
  destruct (Get data "rows"); [|reflexivity].
  now destruct (clipboard _).
Qed.

End Handling.

(* ===================================================================== *)
(** ** More on the [fetchJson] of the [boot()] variant *)
(* ===================================================================== *)

Section BootFetch.
Context {E : Engine}.
Variable net : network.

(** X11.  A first [fetch] that rejects is not retried: the first [doFetch] is
    awaited outside the [try], so the rejection goes to the caller after
    a single request. *)
Theorem rejected_fetch_not_retried (url : string) (s : state) (m : string) :
  net (requests (trace s)) (boot_request url) = Rejected m ->
  result (Boot.fetchJson net url) s = Throw m
  /\ emitted (Boot.fetchJson net url) s = [EvFetch (boot_request url)].
Proof.
  intros H1.
  pose proof (boot_fetchJson_run net url s) as H. cbv zeta in H.
  rewrite H1 in H. split.
  - unfold result. now rewrite H.
  - apply emitted_set_trace. unfold exec. now rewrite H.
Qed.

(** X12.  A first response that passes validation is the answer: one request,
    no pause. *)
Theorem valid_first_response (url : string) (s : state)
  (r1 : response) (j : json) :
  net (requests (trace s)) (boot_request url) = Resolved r1 ->
  Boot.attempt r1 = Ok j ->
  result (Boot.fetchJson net url) s = Ok j
  /\ emitted (Boot.fetchJson net url) s = [EvFetch (boot_request url)].
Proof.
  intros H1 Ha.
  pose proof (boot_fetchJson_run net url s) as H. cbv zeta in H.
  rewrite H1, Ha in H. split.
  - unfold result. now rewrite H.
  - apply emitted_set_trace. unfold exec. now rewrite H.
Qed.

(** X13.  The retry absorbs a first failure: when the first response fails
    validation and the second passes, [fetchJson] gives the second
    payload and the first failure is never seen by the caller. *)
Theorem retry_recovers (url : string) (s : state)
  (r1 r2 : response) (m1 : string) (j : json) :
  net (requests (trace s)) (boot_request url) = Resolved r1 ->
  Boot.attempt r1 = Throw m1 ->
  net (requests (trace s) ++ [boot_request url])%list (boot_request url)
  = Resolved r2 ->
  Boot.attempt r2 = Ok j ->
  result (Boot.fetchJson net url) s = Ok j.
Proof.
  intros H1 Ha H2 Hb.
  pose proof (boot_fetchJson_run net url s) as H. cbv zeta in H.
  rewrite H1, Ha, H2 in H. unfold result. rewrite H. exact Hb.
Qed.

(** [fetchJson] leaves the page alone, in both variants: only its
    requests (and its pause) are added to the world. *)
Theorem fetchJson_page_untouched (url : string) (s : state) :
  (exists evs, exec (Boot.fetchJson net url) s = set_trace (trace s ++ evs) s)
  /\ exec (Static.fetchJson net url) s
     = set_trace (trace s ++ [EvFetch (Static.json_request url)]) s.
Proof.
  split.
  - destruct (boot_fetchJson_io net url s) as (o & evs & H).
    exists evs. unfold exec. now rewrite H.
  - unfold exec. now rewrite static_fetchJson_run.
Qed.

(** The absolute URL is the origin followed by a path that starts with a
    slash: the URL itself if it has one, else the URL after a slash. *)
Theorem absolute_url (url : string) :
  exists path,
    Boot.absolute url = location_origin ++ path
    /\ startsWith path "/" = true
    /\ (startsWith url "/" = true -> path = url)
    /\ (startsWith url "/" = false -> path = "/" ++ url).
Proof.
  unfold Boot.absolute.
  destruct (startsWith url "/") eqn:Hs.
  - exists url. repeat split; congruence.
  - exists ("/" ++ url). repeat split; try congruence.
    unfold startsWith. cbn. now rewrite prefix_empty.
Qed.

End BootFetch.


(* ===================================================================== *)
(** ** Whole searches, reset and pre-warm *)
(* ===================================================================== *)

Section Whole.
Context {E : Engine}.
Variable net : network.

Lemma search_finish_form (bullet : string) (k : kind) (v : string)
  (o : outcome json) (s : state) :
  form (exec (search_finish bullet k v o) s) = form s.
Proof.
  unfold search_finish, exec, try_catch, bind, lift, modify.
  destruct o as [data|m]; [|reflexivity].
  destruct (renderTable_progress bullet data) as (o & p & H & _).
  rewrite H. destruct o as [[]|m]; cbn [snd].
  - now rewrite after_form.
  - rewrite showError_run. cbn [snd]. 
    change (form (after data p
                    (set_lastSearch (Some {| type := k; value := v |}) s))
            = form s).
    now rewrite after_form.
Qed.

(** X4.  A search of [static/script.js] whose [fetchJson] gives a payload
    that [renderTable] can render ends well: one request, no error, on
    the page what [renderTable] makes of the payload with "Loaded
    results." as status, the payload and the search stored, export and
    copy enabled, the form as it was. *)
Theorem search_success (k : kind) (s : state) (data : json) :
  is_empty (trim (field_of k s)) = false ->
  result (Static.fetchJson net (req_url (search_request k s))) s = Ok data ->
  result (renderTable Static.bullet data) s = Ok tt ->
  let s' := exec (static_handler net k) s in
  result (static_handler net k) s = Ok tt
  /\ emitted (static_handler net k) s = [EvFetch (search_request k s)]
  /\ shown s' = shown (exec (renderTable Static.bullet data) s)
  /\ statusText_textContent s' = "Loaded results."
  /\ stored s' = (Some {| type := k; value := trim (field_of k s) |},
                  Some data)
  /\ downloadBtn_disabled s' = false /\ copyJsonBtn_disabled s' = false
  /\ form s' = form s.
Proof.
  intros Hv Hf Hok s'. subst s'.
  rewrite static_fetchJson_result in Hf.
  change (Static.json_request (req_url (search_request k s)))
    with (search_request k s) in Hf.
  destruct (renderTable_progress Static.bullet data) as (o & p & H & Hp).
  unfold result in Hok. rewrite H in Hok. cbn [fst] in Hok. subst o.
  destruct p as [| |m|m l|m l html];
    [destruct Hp as (_ & m' & Hm); discriminate .. |].
  unfold result, emitted, exec.
  rewrite static_handler_search, static_search_run, Hv. cbv zeta.
  fold (search_request k s). rewrite Hf.
  unfold search_finish, try_catch, bind, lift, modify.
  rewrite !H.
  cbn [fst snd after counted trace set_trace set_statusText set_outputBox
       set_copyJsonBtn set_downloadBtn set_returnedPill set_matchedPill
       set_lastResult set_lastSearch].
  change (trace (exec (showLoading _) s)) with (trace s).
  rewrite skipn_length_app. repeat split.
Qed.

(** X6.  A search never writes to the form: the typed values and the selected
    limit are still there when it ends, however it ends. *)
Theorem search_keeps_form (k : kind) (s : state) :
  form (exec (static_handler net k) s) = form s.
Proof.
  unfold exec. rewrite static_handler_search, static_search_run.
  destruct (is_empty (trim (field_of k s))); [reflexivity|].
  cbv zeta.
  match goal with
  | |- form (snd (search_finish ?b ?k0 ?v ?o ?s1)) = _ =>
      change (form (exec (search_finish b k0 v o) s1) = form s);
      rewrite search_finish_form
  end.
  reflexivity.
Qed.

(** X16.  Reset puts the page in the state in which the script starts: what is
    shown and what is stored after [showHint] is the same whatever came
    before, and the same as after the start of either variant.  Resetting
    twice is resetting once; the form is not cleared. *)
Theorem reset_is_initial (s s0 : state) :
  shown (exec showHint s) = shown (exec (Static.init net) s0)
  /\ stored (exec showHint s) = stored (exec (Static.init net) s0)
  /\ shown (exec showHint s) = shown (exec Boot.boot s0)
  /\ stored (exec showHint s) = stored (exec Boot.boot s0)
  /\ stored (exec showHint s) = (None, None)
  /\ exec showHint (exec showHint s) = exec showHint s
  /\ form (exec showHint s) = form s
  /\ emitted showHint s = [].
Proof.
  assert (Hi : exists evs, exec (Static.init net) s0
                           = set_trace evs (exec showHint s0)).
  { unfold exec, Static.init, bind, try_catch.
    destruct (showHint s0) as [[[]|m] s1] eqn:Hh; [|discriminate].
    replace s1 with (exec showHint s0) by (unfold exec; now rewrite Hh).
    rewrite fetch_run. destruct (net _ _); eexists; reflexivity. }
  destruct Hi as [evs Hi]. rewrite Hi.
  assert (Hb : exists s1, exec Boot.boot s0 = exec showHint s1).
  { eexists. unfold exec. rewrite boot_run. reflexivity. }
  destruct Hb as [s1 Hb]. rewrite Hb.
  repeat split.
  unfold emitted, exec, showHint, bind, modify. cbn [snd trace set_statusText
    set_returnedPill set_matchedPill set_outputBox set_copyJsonBtn
    set_downloadBtn set_lastSearch set_lastResult].
  rewrite <- (app_nil_r (trace s)) at 2. apply skipn_length_app.
Qed.

(** X15.  [prewarmViaIframe] creates its hidden iframe only while the flag is
    not set, and leaves the flag set: called again it does nothing.  It
    issues no [fetch] and changes nothing that is shown or stored. *)
Theorem prewarm_once (s : state) :
  let s1 := exec Boot.prewarmViaIframe s in
  emitted Boot.prewarmViaIframe s
  = (if prewarmed s then [] else [EvIframe "/health"])
  /\ prewarmed s1 = true
  /\ exec Boot.prewarmViaIframe s1 = s1
  /\ shown s1 = shown s /\ stored s1 = stored s /\ form s1 = form s.
Proof.
  unfold emitted, exec, Boot.prewarmViaIframe, bind, read.
  destruct (prewarmed s) eqn:Hp; cbn [snd].
  - unfold ret. cbn [snd]. rewrite Hp.
    rewrite <- (app_nil_r (trace s)) at 2. rewrite skipn_length_app.
    repeat split.
  - unfold emit, modify. cbn [snd trace set_trace set_prewarmed prewarmed].
    rewrite skipn_length_app. repeat split.
Qed.

End Whole.


(* ===================================================================== *)
(** ** The searches of the [boot()] variant *)
(* ===================================================================== *)

Section BootSearch.
Context {E : Engine}.
Variable net : network.

Lemma boot_fetchJson_trace (url : string) (s : state) :
  exists evs o,
    Boot.fetchJson net url s = (o, set_trace (trace s ++ evs) s)
    /\ (requests evs = [boot_request url]
        \/ requests evs = [boot_request url; boot_request url]).
Proof.
  pose proof (boot_fetchJson_run net url s) as H. cbv zeta in H. rewrite H.
  destruct (net _ _) as [m|r1].
  - do 2 eexists. split; [reflexivity | now left].
  - destruct (Boot.attempt r1).
    + do 2 eexists. split; [reflexivity | now left].
    + do 2 eexists. split; [reflexivity | now right].
Qed.

(** The requests of the search proper, after the pre-warm. *)
Lemma raw_boot_search_trace (k : kind) (typed : Raw.text)
  (required message : string) (s : state) :
  exists evs,
    trace (exec (Raw.search (Boot.fetchJson net) (renderTable Boot.bullet)
                   showLoading k typed required message) s)
    = (trace s ++ evs)%list
    /\ match Raw.trim typed with
       | [] => requests evs = []
       | _ :: _ =>
           match Raw.encodeURIComponent (Raw.trim typed) with
           | Throw _ => requests evs = []
           | Ok encoded =>
               let r := boot_request
                          (Raw.url_with k encoded
                             (search_limit (limitSelect_value s))) in
               requests evs = [r] \/ requests evs = [r; r]
           end
       end.
Proof.
  unfold exec. rewrite raw_search_run; [|intros; reflexivity ..].
  destruct (Raw.trim typed) as [|u v].
  { rewrite showError_run. cbn [snd trace set_trace].
    eexists. split; reflexivity. }
  cbv zeta. destruct (Raw.encodeURIComponent (u :: v)) as [encoded|m].
  - set (s1 := exec (showLoading message) s).
    unfold try_catch, bind at 1.
    destruct (boot_fetchJson_trace
                (Raw.url_with k encoded (search_limit (limitSelect_value s)))
                s1) as (evs & o & Hf & Hreq).
    rewrite Hf.
    destruct (search_finish_trace Boot.bullet k (Raw.to_string (u :: v)) o
                (set_trace (trace s1 ++ evs) s1)) as (evs' & Ht & Hn).
    exists (evs ++ evs')%list. split.
    + replace (snd _) with
        (exec (search_finish Boot.bullet k (Raw.to_string (u :: v)) o)
              (set_trace (trace s1 ++ evs) s1)).
      * rewrite Ht. cbn [trace set_trace].
        change (trace s1) with (trace s). now rewrite app_assoc.
      * unfold exec, search_finish, try_catch, bind, lift.
        destruct o; reflexivity.
    + rewrite requests_app, Hn, app_nil_r. exact Hreq.
  - rewrite showError_run. cbn [snd trace set_trace].
    change (trace (exec (showLoading message) s)) with (trace s).
    eexists. split; reflexivity.
Qed.

(** X14.  A search of the [boot()] variant with a blank field issues no
    request.  Any other search issues its request once or, when it
    retries, twice, unchanged, to the search endpoint on the page's own
    origin, with the trimmed text percent-encoded, provided that text is
    well-formed; for a text that holds a surrogate without its pair it
    issues none. *)
Theorem boot_search_requests (k : kind) (typed : Raw.text) (s : state) :
  let sent := requests (emitted (raw_boot_handler net k typed) s) in
  match Raw.trim typed with
  | [] => sent = []
  | _ :: _ =>
      if Raw.well_formed (Raw.trim typed) then
        exists encoded,
          Raw.encodeURIComponent (Raw.trim typed) = Ok encoded
          /\ let r := boot_request
                        (Raw.url_with k encoded
                           (search_limit (limitSelect_value s))) in
             (sent = [r] \/ sent = [r; r])
             /\ req_url r
                = location_origin
                  ++ Raw.url_with k encoded
                       (search_limit (limitSelect_value s))
      else sent = []
  end.
Proof.
  intros sent.
  assert (H : exists s0 pre,
               exec (raw_boot_handler net k typed) s
               = exec (Raw.search (Boot.fetchJson net)
                         (renderTable Boot.bullet) showLoading k typed
                         (required_message k) (loading_message k)) s0
               /\ trace s0 = (trace s ++ pre)%list /\ requests pre = []
               /\ limitSelect_value s0 = limitSelect_value s).
  { destruct (prewarmed s) eqn:Hp.
    - exists s, []. rewrite app_nil_r.
      split; [|split; [|split]]; try reflexivity.
      unfold exec, raw_boot_handler, bind, Boot.prewarmViaIframe, bind, read.
      now rewrite Hp.
    - exists (set_prewarmed true
                (set_trace (trace s ++ [EvIframe "/health"]) s)),
             [EvIframe "/health"].
      split; [|split; [|split]]; try reflexivity.
      unfold exec, raw_boot_handler, bind, Boot.prewarmViaIframe, bind, read.
      now rewrite Hp. }
  destruct H as (s0 & pre & He & Ht0 & Hp & Hl0).
  destruct (raw_boot_search_trace k typed (required_message k)
              (loading_message k) s0) as (evs & Ht & Hreq).
  assert (Hsent : sent = requests evs).
  { subst sent. unfold emitted.
    rewrite He, Ht, Ht0, <- app_assoc, skipn_length_app.
    rewrite requests_app, Hp. reflexivity. }
  rewrite Hl0 in Hreq.
  destruct (Raw.trim typed) as [|u v]; [now rewrite Hsent|].
  pose proof (raw_encode_well_formed (u :: v)) as Hw.
  destruct (Raw.well_formed (u :: v)).
  - destruct Hw as [encoded Hw]. rewrite Hw in Hreq. cbv zeta in Hreq.
    exists encoded. split; [exact Hw|]. cbv zeta. split.
    + now rewrite Hsent.
    + unfold boot_request, Boot.absolute. cbn [req_url].
      destruct k; reflexivity.
  - rewrite Hw in Hreq. now rewrite Hsent.
Qed.

End BootSearch.

(* ===================================================================== *)
(** ** What a URL says about the search *)
(* ===================================================================== *)

Lemma append_cancel (a x y : string) : a ++ x = a ++ y -> x = y.
Proof.
  induction a as [|c a IH]; cbn [append]; [trivial|].
  intros H. injection H as H. now apply IH.
Qed.

(** Two texts without [&], each followed by [&] and more: equal wholes
    have equal parts. *)
Lemma split_at_ampersand (e1 e2 r1 r2 : string) :
  ~ In "&"%char (list_ascii_of_string e1) ->
  ~ In "&"%char (list_ascii_of_string e2) ->
  e1 ++ String "&" r1 = e2 ++ String "&" r2 ->
  e1 = e2 /\ r1 = r2.
Proof.
  revert e2. induction e1 as [|a e1 IH]; intros [|b e2] H1 H2 H;
    cbn [append list_ascii_of_string] in *.
  - injection H as H. now split.
  - injection H as Hb _. subst b. exfalso. apply H2. now left.
  - injection H as Ha _. subst a. exfalso. apply H1. now left.
  - injection H as Hab H. subst b.
    destruct (IH e2) as [He Hr]; try exact H.
    + intros Hin. apply H1. now right.
    + intros Hin. apply H2. now right.
    + subst. now split.
Qed.

Section Urls.
Context {E : Engine}.

(** X18.  The URL of a search request determines the value searched for and
    the printed limit: different values never share a URL, and nothing in
    a value can pass for the limit parameter.  The URL of an export
    determines the stored search, kind and value. *)
Theorem urls_determine_search :
  (forall k v1 v2 n1 n2,
     search_url k v1 n1 = search_url k v2 n2 ->
     v1 = v2 /\ Number_toString n1 = Number_toString n2)
  /\ (forall ls1 ls2, export_url ls1 = export_url ls2 -> ls1 = ls2)
  /\ (forall v n, search_url machine v n <> search_url location v n).
Proof.
  split; [|split].
  - intros k v1 v2 n1 n2 H. unfold search_url in H.
    apply append_cancel in H.
    change ("&limit=" ++ ?x) with (String "&" ("limit=" ++ x)) in H.
    apply split_at_ampersand in H; try apply encode_no_ampersand.
    destruct H as [He Hn]. apply append_cancel in Hn. split; [|exact Hn].
    rewrite <- (decode_encode v1), <- (decode_encode v2). now rewrite He.
  - intros [t1 v1] [t2 v2] H. unfold export_url in H. cbn [type value] in H.
    destruct t1, t2; try (cbn in H; discriminate);
      apply append_cancel in H;
      rewrite <- (decode_encode v1), <- (decode_encode v2); now rewrite H.
  - intros v n H. cbn in H. discriminate.
Qed.

(** X19.  The limit of a request is never [NaN] and never zero. *)
Theorem search_limit_truthy (selected : string) :
  number_truthy (search_limit selected) = true
  /\ search_limit selected <> NaN
  /\ search_limit selected <> Fin 0.
Proof.
  assert (H : number_truthy (search_limit selected) = true).
  { unfold search_limit, number_or.
    destruct (number_truthy (parseInt selected)) eqn:Hp; [exact Hp|].
    reflexivity. }
  split; [exact H|].
  split; intros Heq; rewrite Heq in H; discriminate.
Qed.

End Urls.

(* ===================================================================== *)
(** ** Further facts on messages, rendering and the start *)
(* ===================================================================== *)

Section Further.
Context {E : Engine}.


(** X17.  The start of the script never fails: the outcome of the warm-up ping
    of [static/script.js] is ignored, whatever it is, and the ping is the
    only request of the start. *)
Theorem start_never_fails (net : network) (s0 : state) :
  result (Static.init net) s0 = Ok tt
  /\ emitted (Static.init net) s0 = [EvFetch (export_request "/api/ping")]
  /\ result Boot.boot s0 = Ok tt
  /\ requests (emitted Boot.boot s0) = [].
Proof.
  split; [|split; [|split]].
  - unfold result, Static.init, bind, try_catch.
    destruct (showHint s0) as [[[]|m] s1] eqn:Hh; [|discriminate].
    rewrite fetch_run. now destruct (net _ _).
  - unfold emitted, exec, Static.init, bind, try_catch.
    destruct (showHint s0) as [[[]|m] s1] eqn:Hh; [|discriminate].
    assert (Ht : trace s1 = trace s0).
    { replace s1 with (exec showHint s0) by (unfold exec; now rewrite Hh).
      reflexivity. }
    rewrite fetch_run.
    destruct (net _ _); unfold ret; cbn [snd trace set_trace];
      rewrite Ht, skipn_length_app; reflexivity.
  - unfold result. now rewrite boot_run.
  - unfold emitted, exec. rewrite boot_run.
    change (requests (skipn (length (trace s0))
                        (trace s0 ++ [EvIframe "/health"])) = []).
    now rewrite skipn_length_app.
Qed.

End Further.


(* ===================================================================== *)
(** ** The plain variant *)
(* ===================================================================== *)

Section Plain.
Context {E : Engine}.
Variable net : network.


Lemma legacy_renderTable_run (data : json) (s : state) :
  data <> JNull ->
  let rows := js_or (own data "rows") (JArr []) in
  let matched := own data "matched_rows" in
  let len := own rows "length" in
  Legacy.renderTable data s
  = match template matched with
    | Throw m => (Throw m, after data Stored s)
    | Ok tm =>
        match template len with
        | Throw m => (Throw m, after data (Matched tm) s)
        | Ok tl =>
            match js_or (own data "columns") (JArr []) with
            | JArr cs =>
                match header_texts cs with
                | Throw m => (Throw m, after data (Counted tm tl) s)
                | Ok heads =>
                    match iterate rows with
                    | Throw m => (Throw m, after data (Counted tm tl) s)
                    | Ok rs =>
                        match table_texts cs rs with
                        | Throw m => (Throw m, after data (Counted tm tl) s)
                        | Ok cells =>
                            (Ok tt,
                             after data
                               (Rendered tm tl
                                  (Legacy.result_meta tm tl
                                   ++ table_markup heads cells)) s)
                        end
                    end
                end
            | _ => (Throw TypeError_not_a_function,
                    after data (Counted tm tl) s)
            end
        end
    end.
Proof.
  intros Hn rows matched len.
  assert (Hl : Get rows "length" = Ok len)
    by (apply Get_truthy, js_or_truthy; reflexivity).
  unfold Legacy.renderTable, bind, lift, modify, throw.
  rewrite !(Get_not_null data _ Hn). fold rows. rewrite Hl. fold matched.
  destruct (template matched) as [tm|m] eqn:Htm; [|reflexivity].
  destruct (template len) as [tl|m] eqn:Htl; [|reflexivity].
  cbv zeta. fold (counted data tm tl s).
  destruct (js_or (own data "columns") (JArr [])); try reflexivity.
  rewrite header_cells_texts.
  destruct (header_texts items) as [heads|m]; cbn [obind]; [|reflexivity].
  destruct (iterate rows) as [rs|m]; [|reflexivity].
  rewrite table_rows_texts.
  destruct (table_texts items rs) as [cells|m]; cbn [obind]; [|reflexivity].
  unfold after, table_markup, table_open. now rewrite !append_assoc.
Qed.


(** X21.  In the plain variant a render that completes writes the same
    table as the others, escaped, which reads back as the texts of the
    columns and of the cells; but the two counts of the result line go
    in as the template prints them, unescaped, a missing [matched_rows]
    as "undefined".  The payload is stored and both buttons are
    enabled. *)
Theorem legacy_table (data : json) (s : state) :
  result (Legacy.renderTable data) s = Ok tt ->
  let s' := exec (Legacy.renderTable data) s in
  (exists cols rows heads cells matched len,
     js_or (own data "columns") (JArr []) = JArr cols
     /\ iterate (js_or (own data "rows") (JArr [])) = Ok rows
     /\ Forall2 (fun c text => header_text c = Ok text) cols heads
     /\ Forall2 (fun r texts =>
                   Forall2 (fun c text => cell_text r c = Ok text)
                           cols texts) rows cells
     /\ template (own data "matched_rows") = Ok matched
     /\ template (own (js_or (own data "rows") (JArr [])) "length") = Ok len
     /\ outputBox_innerHTML s'
        = "<div class=" ++ dq ++ "result-meta" ++ dq ++ ">" ++ nl
          ++ "      Matched: <b>" ++ matched ++ "</b> |" ++ nl
          ++ "      Returned: <b>" ++ len ++ "</b>" ++ nl
          ++ "    </div>" ++ table_markup heads cells
     /\ read_table (table_markup heads cells) = Some (heads, cells)
     /\ matchedPill_textContent s' = "Matched: " ++ matched
     /\ returnedPill_textContent s' = "Returned: " ++ len)
  /\ template None = Ok "undefined"
  /\ lastResult s' = Some data
  /\ downloadBtn_disabled s' = false /\ copyJsonBtn_disabled s' = false.
Proof.
  intros Hok s'. subst s'. unfold result, exec in *.
  destruct (json_eq_null data) as [->|Hn]; [discriminate|].
  rewrite (legacy_renderTable_run data s Hn) in *. cbv zeta in *.
  destruct (template (own data "matched_rows")) as [tm|m] eqn:Htm;
    [|discriminate].
  destruct (template (own _ "length")) as [tl|m] eqn:Htl; [|discriminate].
  destruct (js_or (own data "columns") (JArr [])) as [| | | |cs|] eqn:Hc;
    try discriminate.
  destruct (header_texts cs) as [heads|m] eqn:Hh; [|discriminate].
  destruct (iterate _) as [rs|m] eqn:Hr; [|discriminate].
  destruct (table_texts cs rs) as [cells|m] eqn:Ht; [|discriminate].
  split; [|repeat split].
  exists cs, rs, heads, cells, tm, tl.
  split; [first [reflexivity | assumption]|].
  split; [first [reflexivity | assumption]|].
  split; [now apply all_Forall2|].
  split; [now apply table_texts_Forall2|].
  split; [first [reflexivity | assumption]|].
  split; [first [reflexivity | assumption]|].
  split.
  { cbn [snd after outputBox_innerHTML set_statusText set_outputBox].
    unfold Legacy.result_meta. now rewrite !append_assoc. }
  split; [apply read_table_markup|]. split; reflexivity.
Qed.



End Plain.

(* ===================================================================== *)
(** ** The table of a payload *)
(* ===================================================================== *)

Section Contents.
Context {E : Engine}.

Lemma js_or_sequence (v : jsval) (items : list json) :
  js_or v (JArr []) = JArr items <-> sequence v = Some items.
Proof.
  destruct v as [j|]; cbn [sequence js_or].
  - destruct (truthy j) eqn:Hj.
    + destruct j; split; intros H; try discriminate; congruence.
    + split; congruence.
  - split; congruence.
Qed.

(** What a cell shows, by what the row holds for the column. *)
Lemma cell_text_cases (r c : json) (k : string) :
  r <> JNull ->
  ToString c = Ok k ->
  cell_text r c
  = match own r k with
    | Some v => String_nullish (Some v)
    | None =>
        match Prototype_member r k with
        | Some text => Ok text
        | None => Ok ""
        end
    end.
Proof.
  intros Hn Hk. unfold cell_text, Member. rewrite Hk. cbn [obind].
  destruct r; try congruence;
    destruct (own _ k); try reflexivity;
    destruct (Prototype_member _ k); reflexivity.
Qed.

(** X24.  Whenever [renderTable] completes: the header row is the texts of
    the columns in their order and each body row holds, in that order,
    the text of what the row holds for each column; a missing [columns]
    or [rows] counts as the empty sequence; the two counters show the
    payload's [matched_rows] and the number of rows; the payload is
    stored.  A cell shows the value of the row's own key; for a key the
    row lacks it is empty, unless a prototype of the row has a member of
    that name, which is then what the cell shows. *)
Theorem renderTable_table (bullet : string) (data : json) (s : state) :
  result (renderTable bullet data) s = Ok tt ->
  let s' := exec (renderTable bullet data) s in
  (exists cols rows heads cells matched table,
     sequence (own data "columns") = Some cols
     /\ iterate (js_or (own data "rows") (JArr [])) = Ok rows
     /\ (forall items, sequence (own data "rows") = Some items -> rows = items)
     /\ header_texts cols = Ok heads
     /\ table_texts cols rows = Ok cells
     /\ length heads = length cols
     /\ length cells = length rows
     /\ Forall (fun texts => length texts = length cols) cells
     /\ template (own data "matched_rows") = Ok matched
     /\ matchedPill_textContent s' = "Matched: " ++ matched
     /\ (forall items,
           sequence (own data "rows") = Some items ->
           returnedPill_textContent s'
           = "Returned: " ++ Number_toString (Fin (Z.of_nat (length items))))
     /\ outputBox_innerHTML s'
        = result_meta bullet (count_html (own data "matched_rows"))
            (count_html (own (js_or (own data "rows") (JArr [])) "length"))
          ++ table
     /\ read_table table = Some (heads, cells))
  /\ statusText_textContent s' = "Loaded results."
  /\ lastResult s' = Some data
  /\ sequence None = Some []
  /\ (forall r c k,
        r <> JNull -> ToString c = Ok k ->
        cell_text r c
        = match own r k with
          | Some v => String_nullish (Some v)
          | None =>
              match Prototype_member r k with
              | Some text => Ok text
              | None => Ok ""
              end
          end)
  /\ (forall fields k, own (JObj fields) k = assoc k fields)
  /\ (forall text, String_nullish (Some (JStr text)) = Ok text)
  /\ (forall n, String_nullish (Some (JNum n)) = Ok (Number_toString n))
  /\ String_nullish (Some JNull) = Ok "".
Proof.
  intros Hok s'. subst s'.
  destruct (renderTable_completed bullet data s Hok)
    as (cols & rows & heads & cells & tm & tl
        & Hn & Hc & Hr & Hh & Ht & Htm & Htl & Hrun).
  rewrite Hrun.
  split; [|split; [reflexivity|split; [reflexivity|split; [reflexivity|]]]].
  - exists cols, rows, heads, cells, tm, (table_markup heads cells).
    split; [now apply js_or_sequence|]. split; [exact Hr|].
    split.
    { intros items Hi. apply js_or_sequence in Hi. rewrite Hi in Hr.
      cbn [iterate] in Hr. congruence. }
    split; [exact Hh|]. split; [exact Ht|].
    split; [apply (all_length _ _ _ Hh)|].
    split; [apply (all_length _ _ _ Ht)|].
    split.
    { apply all_Forall2 in Ht. clear - Ht.
      induction Ht as [|r texts rows' cells' Hrow _ IH]; constructor;
        [apply (all_length _ _ _ Hrow) | exact IH]. }
    split; [exact Htm|]. split; [reflexivity|].
    split.
    { intros items Hi. apply js_or_sequence in Hi. rewrite Hi in Htl.
      cbn [own String.eqb Ascii.eqb Bool.eqb template ToString] in Htl.
      injection Htl as <-. reflexivity. }
    split; [reflexivity | apply read_table_markup].
  - split; [|repeat split]. intros r c k. apply cell_text_cases.
Qed.

End Contents.

(* ===================================================================== *)
(** ** Well-formed text: code units and bytes agree *)
(* ===================================================================== *)

Lemma all_from_spec (P : N -> bool) (n : nat) (b c : N) :
  Raw.all_from P n b = true ->
  (b <= c)%N -> (c < b + N.of_nat n)%N -> P c = true.
Proof.
  revert b. induction n as [|n IH]; intros b H Hb Hc; [lia|].
  cbn [Raw.all_from] in H. apply andb_true_iff in H. destruct H as [H0 H].
  destruct (N.eq_dec b c) as [->|Hne]; [exact H0|].
  apply (IH (N.succ b)); [exact H | lia | lia].
Qed.

Lemma white_by_bytes_plane :
  Raw.all_from Raw.white_by_bytes (N.to_nat 65536) 0 = true.
Proof. vm_compute. reflexivity. Qed.

Lemma white_by_bytes_below (c : N) :
  (c < 65536)%N -> Raw.white_by_bytes c = true.
Proof.
  intros H. apply (all_from_spec _ _ 0 c white_by_bytes_plane); lia.
Qed.

Lemma byte_of_N (n : N) : (n < 256)%N -> byte_of (ascii_of_N n) = n.
Proof. apply N_ascii_embedding. Qed.

Lemma white_beyond (c : N) : (65536 <= c)%N -> Raw.white c = false.
Proof.
  intros H. unfold Raw.white.
  repeat (apply orb_false_iff; split);
    try (apply andb_false_iff; right; apply N.leb_gt; lia);
    try (apply N.eqb_neq; lia).
Qed.

(** The bytes of a code point: bounds. *)
Lemma utf8_cases (c : N) :
  (c < 1114112)%N ->
  ((c < 128)%N /\ utf8 c = String (ascii_of_N c) "")
  \/ (exists a b,
        (128 <= c < 2048)%N /\ (192 <= a < 224)%N /\ (128 <= b < 192)%N
        /\ a = (192 + c / 64)%N /\ b = (128 + c mod 64)%N
        /\ utf8 c = String (ascii_of_N a) (String (ascii_of_N b) ""))
  \/ (exists a b d,
        (2048 <= c < 65536)%N /\ (224 <= a < 240)%N /\ (128 <= b < 192)%N
        /\ (128 <= d < 192)%N
        /\ a = (224 + c / 4096)%N /\ b = (128 + (c / 64) mod 64)%N
        /\ d = (128 + c mod 64)%N
        /\ utf8 c = String (ascii_of_N a)
                      (String (ascii_of_N b) (String (ascii_of_N d) "")))
  \/ (exists a b d e,
        (65536 <= c)%N /\ (240 <= a < 248)%N /\ (128 <= b < 192)%N
        /\ (128 <= d < 192)%N /\ (128 <= e < 192)%N
        /\ utf8 c = String (ascii_of_N a)
                      (String (ascii_of_N b)
                         (String (ascii_of_N d) (String (ascii_of_N e) "")))).
Proof.
  intros Hc. unfold utf8.
  pose proof (N.le_0_l (c / 64)). pose proof (N.le_0_l (c mod 64)).
  pose proof (N.le_0_l (c / 4096)). pose proof (N.le_0_l ((c / 64) mod 64)).
  pose proof (N.le_0_l (c / 262144)).
  pose proof (N.le_0_l ((c / 4096) mod 64)).
  pose proof (N.mod_lt (c / 4096) 64 ltac:(lia)).
  pose proof (N.mod_lt (c / 64) 64 ltac:(lia)).
  pose proof (N.mod_lt c 64 ltac:(lia)).
  destruct (c <? 128)%N eqn:C1;
    [left; split; [now apply N.ltb_lt | reflexivity]|].
  apply N.ltb_ge in C1. right.
  destruct (c <? 2048)%N eqn:C2.
  { apply N.ltb_lt in C2. left.
    exists (192 + c / 64)%N, (128 + c mod 64)%N.
    pose proof (N.Div0.div_lt_upper_bound c 64 32 ltac:(lia)).
    repeat split; try reflexivity; lia. }
  apply N.ltb_ge in C2. right.
  destruct (c <? 65536)%N eqn:C3.
  { apply N.ltb_lt in C3. left.
    exists (224 + c / 4096)%N, (128 + (c / 64) mod 64)%N, (128 + c mod 64)%N.
    pose proof (N.Div0.div_lt_upper_bound c 4096 16 ltac:(lia)).
    repeat split; try reflexivity; lia. }
  apply N.ltb_ge in C3. right.
  exists (240 + c / 262144)%N, (128 + (c / 4096) mod 64)%N,
    (128 + (c / 64) mod 64)%N, (128 + c mod 64)%N.
  pose proof (N.Div0.div_lt_upper_bound c 262144 8 ltac:(lia)).
  repeat split; try reflexivity; lia.
Qed.

Lemma ws1_false (a : N) : (32 < a)%N -> ws1 a = false.
Proof.
  intros H. unfold ws1. apply orb_false_iff. split.
  - apply andb_false_iff. right. apply N.leb_gt. lia.
  - apply N.eqb_neq. lia.
Qed.

Lemma ws2_false_l (a b : N) : a <> 194%N -> ws2 a b = false.
Proof.
  intros H. unfold ws2. apply andb_false_iff. left. now apply N.eqb_neq.
Qed.

Lemma ws2_false_r (a b : N) : b <> 160%N -> ws2 a b = false.
Proof.
  intros H. unfold ws2. apply andb_false_iff. right. now apply N.eqb_neq.
Qed.

Lemma ws3_false_l (a b d : N) :
  (a < 225 \/ 239 < a \/ 227 < a < 239)%N -> ws3 a b d = false.
Proof.
  intros H. unfold ws3.
  assert (E1 : (a =? 225)%N = false) by (apply N.eqb_neq; lia).
  assert (E2 : (a =? 226)%N = false) by (apply N.eqb_neq; lia).
  assert (E3 : (a =? 227)%N = false) by (apply N.eqb_neq; lia).
  assert (E4 : (a =? 239)%N = false) by (apply N.eqb_neq; lia).
  now rewrite E1, E2, E3, E4.
Qed.

Lemma ws3_false_m (a b d : N) : (191 < b)%N -> ws3 a b d = false.
Proof.
  intros H. unfold ws3.
  assert (E1 : (b =? 154)%N = false) by (apply N.eqb_neq; lia).
  assert (E2 : (b =? 128)%N = false) by (apply N.eqb_neq; lia).
  assert (E3 : (b =? 129)%N = false) by (apply N.eqb_neq; lia).
  assert (E4 : (b =? 187)%N = false) by (apply N.eqb_neq; lia).
  rewrite E1, E2, E3, E4. now rewrite !andb_false_r.
Qed.

Lemma ws3_false_r (a b d : N) : (d < 128)%N -> ws3 a b d = false.
Proof.
  intros H. unfold ws3.
  assert (E1 : (d =? 128)%N = false) by (apply N.eqb_neq; lia).
  assert (E2 : (128 <=? d)%N = false) by (apply N.leb_gt; lia).
  assert (E3 : (d =? 168)%N = false) by (apply N.eqb_neq; lia).
  assert (E4 : (d =? 169)%N = false) by (apply N.eqb_neq; lia).
  assert (E5 : (d =? 175)%N = false) by (apply N.eqb_neq; lia).
  assert (E6 : (d =? 159)%N = false) by (apply N.eqb_neq; lia).
  assert (E7 : (d =? 191)%N = false) by (apply N.eqb_neq; lia).
  rewrite E1, E2, E3, E4, E5, E6, E7. cbn [andb orb].
  now rewrite !andb_false_r.
Qed.

(** White space by the bytes of the character, for each length. *)
Lemma white_one (c : N) : (c < 128)%N -> ws1 c = Raw.white c.
Proof.
  intros H. pose proof (white_by_bytes_below c ltac:(lia)) as Hw.
  unfold Raw.white_by_bytes in Hw.
  rewrite (proj2 (N.ltb_lt c 128) H) in Hw. now apply eqb_prop.
Qed.

Lemma white_two (c : N) :
  (128 <= c < 2048)%N ->
  ws2 (192 + c / 64) (128 + c mod 64) = Raw.white c.
Proof.
  intros H. pose proof (white_by_bytes_below c ltac:(lia)) as Hw.
  unfold Raw.white_by_bytes in Hw.
  rewrite (proj2 (N.ltb_ge c 128)) in Hw by lia.
  rewrite (proj2 (N.ltb_lt c 2048)) in Hw by lia. now apply eqb_prop.
Qed.

Lemma white_three (c : N) :
  (2048 <= c < 65536)%N ->
  ws3 (224 + c / 4096) (128 + (c / 64) mod 64) (128 + c mod 64)
  = Raw.white c.
Proof.
  intros H. pose proof (white_by_bytes_below c ltac:(lia)) as Hw.
  unfold Raw.white_by_bytes in Hw.
  rewrite (proj2 (N.ltb_ge c 128)) in Hw by lia.
  rewrite (proj2 (N.ltb_ge c 2048)) in Hw by lia. now apply eqb_prop.
Qed.

(** [trimStart] on the bytes of a text, one character at a time. *)
Lemma dropWs_utf8 (c : N) (rest : string) :
  (c < 1114112)%N ->
  dropWs true (utf8 c ++ rest)
  = if Raw.white c then dropWs true rest else utf8 c ++ rest.
Proof.
  intros Hc.
  destruct (utf8_cases c Hc)
    as [[H1 ->]
       | [(a & b & Hr & Ha & Hb & Ea & Eb & ->)
         | [(a & b & d & Hr & Ha & Hb & Hd & Ea & Eb & Ed & ->)
           | (a & b & d & e & Hr & Ha & Hb & Hd & He & ->)]]];
    cbn [append dropWs]; rewrite ?byte_of_N by lia.
  - rewrite (white_one c H1). destruct (Raw.white c); [reflexivity|].
    destruct rest as [|x [|y r]]; try reflexivity.
    + now rewrite ws2_false_l by lia.
    + rewrite ws2_false_l by lia. now rewrite ws3_false_l by lia.
  - rewrite ws1_false by lia. subst a b. rewrite (white_two c Hr).
    destruct (Raw.white c); [reflexivity|].
    destruct rest as [|x r]; [reflexivity|].
    now rewrite ws3_false_l by lia.
  - rewrite ws1_false by lia. rewrite ws2_false_l by lia.
    subst a b d. rewrite (white_three c Hr).
    now destruct (Raw.white c).
  - rewrite ws1_false by lia. rewrite ws2_false_l by lia.
    rewrite ws3_false_l by lia. now rewrite white_beyond by lia.
Qed.

(** The same from the end, on the bytes read backwards. *)
Lemma dropWs_utf8_back (c : N) (rest : string) :
  (c < 1114112)%N ->
  dropWs false (string_rev (utf8 c) ++ rest)
  = if Raw.white c then dropWs false rest else string_rev (utf8 c) ++ rest.
Proof.
  intros Hc.
  destruct (utf8_cases c Hc)
    as [[H1 ->]
       | [(a & b & Hr & Ha & Hb & Ea & Eb & ->)
         | [(a & b & d & Hr & Ha & Hb & Hd & Ea & Eb & Ed & ->)
           | (a & b & d & e & Hr & Ha & Hb & Hd & He & ->)]]];
    unfold string_rev;
    cbn [list_ascii_of_string rev app string_of_list_ascii append dropWs];
    rewrite ?byte_of_N by lia.
  - rewrite (white_one c H1). destruct (Raw.white c); [reflexivity|].
    destruct rest as [|x [|y r]]; try reflexivity.
    + now rewrite ws2_false_r by lia.
    + rewrite ws2_false_r by lia. now rewrite ws3_false_r by lia.
  - rewrite ws1_false by lia. subst a b. rewrite (white_two c Hr).
    destruct (Raw.white c); [reflexivity|].
    destruct rest as [|x r]; [reflexivity|].
    now rewrite ws3_false_m by lia.
  - rewrite ws1_false by lia. rewrite ws2_false_l by lia.
    subst a b d. rewrite (white_three c Hr).
    now destruct (Raw.white c).
  - rewrite ws1_false by lia. rewrite ws2_false_l by lia.
    rewrite ws3_false_l by lia. now rewrite white_beyond by lia.
Qed.

(** *** Reversal of strings *)

Lemma list_of_append (a b : string) :
  list_ascii_of_string (a ++ b)
  = (list_ascii_of_string a ++ list_ascii_of_string b)%list.
Proof.
  induction a as [|x a IH]; [reflexivity|].
  cbn [append list_ascii_of_string app]. now rewrite IH.
Qed.

Lemma string_of_app (l1 l2 : list ascii) :
  string_of_list_ascii (l1 ++ l2)
  = string_of_list_ascii l1 ++ string_of_list_ascii l2.
Proof.
  induction l1 as [|x l1 IH]; [reflexivity|].
  cbn [app string_of_list_ascii append]. now rewrite IH.
Qed.

Lemma string_rev_app (a b : string) :
  string_rev (a ++ b) = string_rev b ++ string_rev a.
Proof.
  unfold string_rev. now rewrite list_of_append, rev_app_distr, string_of_app.
Qed.

Lemma string_rev_involutive (a : string) : string_rev (string_rev a) = a.
Proof.
  unfold string_rev.
  now rewrite list_ascii_of_string_of_list_ascii, rev_involutive,
    string_of_list_ascii_of_string.
Qed.

(** *** The bytes of a list of code points *)

Lemma bytes_of_app (l1 l2 : list N) :
  Raw.bytes_of (l1 ++ l2) = Raw.bytes_of l1 ++ Raw.bytes_of l2.
Proof.
  induction l1 as [|c l1 IH]; [reflexivity|].
  cbn [app Raw.bytes_of]. now rewrite IH, append_assoc.
Qed.

Lemma bytes_back_app (l1 l2 : list N) :
  Raw.bytes_back (l1 ++ l2) = Raw.bytes_back l1 ++ Raw.bytes_back l2.
Proof.
  induction l1 as [|c l1 IH]; [reflexivity|].
  cbn [app Raw.bytes_back]. now rewrite IH, append_assoc.
Qed.

Lemma bytes_of_reversed (l : list N) :
  string_rev (Raw.bytes_of l) = Raw.bytes_back (rev l).
Proof.
  induction l as [|c l IH]; [reflexivity|].
  cbn [Raw.bytes_of rev]. rewrite string_rev_app, IH, bytes_back_app.
  cbn [Raw.bytes_back]. now rewrite append_empty_r.
Qed.

Lemma bytes_back_reversed (l : list N) :
  string_rev (Raw.bytes_back l) = Raw.bytes_of (rev l).
Proof.
  induction l as [|c l IH]; [reflexivity|].
  cbn [Raw.bytes_back rev].
  rewrite string_rev_app, IH, bytes_of_app, string_rev_involutive.
  cbn [Raw.bytes_of]. now rewrite append_empty_r.
Qed.

Lemma scalar_bound (c : N) : Raw.scalar c = true -> (c < 1114112)%N.
Proof.
  unfold Raw.scalar. intros H. apply orb_true_iff in H.
  destruct H as [H|H].
  - apply N.ltb_lt in H. lia.
  - apply andb_true_iff in H. destruct H as [_ H]. now apply N.ltb_lt.
Qed.

Lemma scalar_not_surrogate (c : N) :
  Raw.scalar c = true -> Raw.high c = false /\ Raw.low c = false.
Proof.
  unfold Raw.scalar, Raw.high, Raw.low. intros H.
  apply orb_true_iff in H. destruct H as [H|H].
  - apply N.ltb_lt in H.
    split; apply andb_false_iff; left; apply N.leb_gt; lia.
  - apply andb_true_iff in H. destruct H as [H _]. apply N.leb_le in H.
    split; apply andb_false_iff; right; apply N.leb_gt; lia.
Qed.

Lemma trimStart_kept (P : N -> bool) (l : list N) :
  forallb P l = true -> forallb P (Raw.trimStart l) = true.
Proof.
  induction l as [|c l IH]; [reflexivity|].
  cbn [Raw.trimStart]. intros H.
  destruct (Raw.white c); [|exact H].
  cbn [forallb] in H. apply andb_true_iff in H. now apply IH.
Qed.

Lemma trim_kept (P : N -> bool) (l : list N) :
  forallb P l = true -> forallb P (Raw.trim l) = true.
Proof.
  intros H. unfold Raw.trim, Raw.trimEnd.
  rewrite forallb_of_rev. apply trimStart_kept.
  rewrite forallb_of_rev. now apply trimStart_kept.
Qed.

(** *** [trim] on the bytes *)

Lemma trimStart_bytes (l : list N) :
  forallb Raw.scalar l = true ->
  dropWs true (Raw.bytes_of l) = Raw.bytes_of (Raw.trimStart l).
Proof.
  induction l as [|c l IH]; [reflexivity|].
  cbn [forallb]. intros H. apply andb_true_iff in H. destruct H as [Hc Hl].
  cbn [Raw.bytes_of Raw.trimStart].
  rewrite (dropWs_utf8 c _ (scalar_bound c Hc)).
  destruct (Raw.white c); [now apply IH | reflexivity].
Qed.

Lemma trimStart_bytes_back (l : list N) :
  forallb Raw.scalar l = true ->
  dropWs false (Raw.bytes_back l) = Raw.bytes_back (Raw.trimStart l).
Proof.
  induction l as [|c l IH]; [reflexivity|].
  cbn [forallb]. intros H. apply andb_true_iff in H. destruct H as [Hc Hl].
  cbn [Raw.bytes_back Raw.trimStart].
  rewrite (dropWs_utf8_back c _ (scalar_bound c Hc)).
  destruct (Raw.white c); [now apply IH | reflexivity].
Qed.

(** [trim] on the bytes of a text is [trim] on its code points. *)
Lemma trim_bytes (l : list N) :
  forallb Raw.scalar l = true ->
  trim (Raw.bytes_of l) = Raw.bytes_of (Raw.trim l).
Proof.
  intros H. unfold trim, trimStart, trimEnd, Raw.trim, Raw.trimEnd.
  rewrite (trimStart_bytes l H), bytes_of_reversed.
  rewrite trimStart_bytes_back
    by (rewrite forallb_of_rev; now apply trimStart_kept).
  apply bytes_back_reversed.
Qed.

(** *** The code units of a list of code points *)

Lemma units_of_app (l1 l2 : list N) :
  Raw.units_of (l1 ++ l2) = (Raw.units_of l1 ++ Raw.units_of l2)%list.
Proof. apply flat_map_app. Qed.

Lemma units_of_cons (c : N) (l : list N) :
  Raw.units_of (c :: l) = (Raw.utf16 c ++ Raw.units_of l)%list.
Proof. reflexivity. Qed.

(** A code point is one code unit, itself, or a surrogate pair of which
    it is the code point. *)
Lemma utf16_cases (c : N) :
  Raw.scalar c = true ->
  ((c < 65536)%N /\ Raw.utf16 c = [c])
  \/ (exists h l,
        (65536 <= c)%N /\ Raw.utf16 c = [h; l]
        /\ Raw.high h = true /\ Raw.low l = true
        /\ Raw.low h = false /\ (128 <= h)%N
        /\ Raw.white h = false /\ Raw.white l = false
        /\ Raw.paired h l = c).
Proof.
  intros Hs. pose proof (scalar_bound c Hs) as Hb. unfold Raw.utf16.
  destruct (c <? 65536)%N eqn:Hc.
  - left. split; [now apply N.ltb_lt | reflexivity].
  - right. apply N.ltb_ge in Hc.
    pose proof (N.le_0_l ((c - 65536) / 1024)) as H0.
    assert (H1 : ((c - 65536) / 1024 < 1024)%N)
      by (apply N.Div0.div_lt_upper_bound; lia).
    pose proof (N.mod_upper_bound (c - 65536) 1024 ltac:(lia)) as H2.
    pose proof (N.Div0.div_mod (c - 65536) 1024) as H3.
    set (q := ((c - 65536) / 1024)%N) in *.
    set (r := ((c - 65536) mod 1024)%N) in *.
    exists (55296 + q)%N, (56320 + r)%N.
    split; [exact Hc|]. split; [reflexivity|].
    assert (Hh : Raw.high (55296 + q) = true).
    { unfold Raw.high. apply andb_true_iff.
      split; apply N.leb_le; lia. }
    assert (Hl : Raw.low (56320 + r) = true).
    { unfold Raw.low. apply andb_true_iff.
      split; apply N.leb_le; lia. }
    split; [exact Hh|]. split; [exact Hl|].
    split.
    { unfold Raw.low. apply andb_false_iff. left. apply N.leb_gt. lia. }
    split; [lia|].
    assert (Hw : forall u, (55296 <= u < 57344)%N -> Raw.white u = false).
    { intros u Hu. unfold Raw.white.
      repeat (apply orb_false_iff; split);
        try (apply andb_false_iff; right; apply N.leb_gt; lia);
        try (apply N.eqb_neq; lia). }
    split; [apply Hw; lia|]. split; [apply Hw; lia|].
    unfold Raw.paired. lia.
Qed.

Lemma trimStart_units (l : list N) :
  forallb Raw.scalar l = true ->
  Raw.trimStart (Raw.units_of l) = Raw.units_of (Raw.trimStart l).
Proof.
  induction l as [|c l IH]; [reflexivity|].
  cbn [forallb]. intros H. apply andb_true_iff in H. destruct H as [Hc Hl].
  rewrite units_of_cons. cbn [Raw.trimStart].
  destruct (utf16_cases c Hc)
    as [[Hlt Hu] | (h & w & Hge & Hu & _ & _ & _ & _ & Hh & _ & _)];
    rewrite Hu; cbn [app Raw.trimStart].
  - destruct (Raw.white c); [now apply IH|].
    now rewrite units_of_cons, Hu.
  - rewrite Hh, (white_beyond c Hge). now rewrite units_of_cons, Hu.
Qed.

Lemma trimEnd_units (l : list N) :
  forallb Raw.scalar l = true ->
  Raw.trimEnd (Raw.units_of l) = Raw.units_of (Raw.trimEnd l).
Proof.
  unfold Raw.trimEnd.
  induction l as [|c l IH] using rev_ind; [reflexivity|].
  rewrite forallb_app. cbn [forallb]. rewrite andb_true_r.
  intros H. apply andb_true_iff in H. destruct H as [Hl Hc].
  rewrite units_of_app, !rev_app_distr. cbn [rev app Raw.trimStart].
  change (Raw.units_of [c]) with (Raw.utf16 c ++ [])%list.
  rewrite app_nil_r.
  destruct (utf16_cases c Hc)
    as [[Hlt Hu] | (h & w & Hge & Hu & _ & _ & _ & _ & _ & Hw & _)];
    rewrite Hu; cbn [rev app Raw.trimStart].
  - destruct (Raw.white c); [now apply IH|].
    cbn [rev]. rewrite !rev_involutive, units_of_app.
    change (Raw.units_of [c]) with (Raw.utf16 c ++ [])%list.
    now rewrite app_nil_r, Hu.
  - rewrite Hw, (white_beyond c Hge).
    cbn [rev]. rewrite !rev_involutive, units_of_app.
    change (Raw.units_of [c]) with (Raw.utf16 c ++ [])%list.
    rewrite app_nil_r, Hu. now rewrite <- !app_assoc.
Qed.

(** [trim] on the code units of a text is [trim] on its code points. *)
Lemma trim_units (l : list N) :
  forallb Raw.scalar l = true ->
  Raw.trim (Raw.units_of l) = Raw.units_of (Raw.trim l).
Proof.
  intros H. unfold Raw.trim.
  rewrite (trimStart_units l H).
  apply trimEnd_units. now apply trimStart_kept.
Qed.

(** The [string] of the code units is the bytes of the code points. *)
Lemma to_string_units (l : list N) :
  forallb Raw.scalar l = true ->
  Raw.to_string (Raw.units_of l) = Raw.bytes_of l.
Proof.
  induction l as [|c l IH]; [reflexivity|].
  cbn [forallb]. intros H. apply andb_true_iff in H. destruct H as [Hc Hl].
  rewrite units_of_cons. cbn [Raw.bytes_of].
  destruct (utf16_cases c Hc)
    as [[Hlt Hu] | (h & w & Hge & Hu & Hh & Hw & _ & _ & _ & _ & Hp)];
    rewrite Hu; cbn [app Raw.to_string].
  - destruct (scalar_not_surrogate c Hc) as [-> _]. now rewrite IH.
  - now rewrite Hh, Hw, Hp, IH.
Qed.

(** *** [encodeURIComponent] on the bytes *)

Lemma unreserved_beyond (a : N) :
  (128 <= a < 256)%N -> uri_unreserved (ascii_of_N a) = false.
Proof.
  intros H. unfold uri_unreserved. cbv zeta. rewrite byte_of_N by lia.
  repeat (apply orb_false_iff; split);
    try (apply andb_false_iff; right; apply N.leb_gt; lia);
    try (apply N.eqb_neq; lia).
Qed.

Lemma encode_utf8 (c : N) (rest : string) :
  (128 <= c < 1114112)%N ->
  encodeURIComponent (utf8 c ++ rest)
  = Raw.percent (utf8 c) ++ encodeURIComponent rest.
Proof.
  intros [Hlo Hc].
  destruct (utf8_cases c Hc)
    as [[H1 _]
       | [(a & b & Hr & Ha & Hb & _ & _ & ->)
         | [(a & b & d & Hr & Ha & Hb & Hd & _ & _ & _ & ->)
           | (a & b & d & e & Hr & Ha & Hb & Hd & He & ->)]]];
    [lia | ..];
    cbn [append encodeURIComponent Raw.percent];
    rewrite !unreserved_beyond by lia;
    unfold pct_encode; reflexivity.
Qed.

Section Encoded.
Context {E : Engine}.

(** On the code units of a text, [encodeURIComponent] returns, and gives
    what the encoding of the bytes gives. *)
Lemma encode_units (l : list N) :
  forallb Raw.scalar l = true ->
  Raw.encodeURIComponent (Raw.units_of l)
  = Ok (encodeURIComponent (Raw.bytes_of l)).
Proof.
  induction l as [|c l IH]; [reflexivity|].
  cbn [forallb]. intros H. apply andb_true_iff in H. destruct H as [Hc Hl].
  rewrite units_of_cons. cbn [Raw.bytes_of]. specialize (IH Hl).
  destruct (utf16_cases c Hc)
    as [[Hlt Hu] | (h & w & Hge & Hu & Hh & Hw & Hlh & H128 & _ & _ & Hp)];
    rewrite Hu; cbn [app Raw.encodeURIComponent].
  - destruct (scalar_not_surrogate c Hc) as [Hhi Hlow].
    rewrite IH, Hhi, Hlow. cbn [obind].
    destruct (c <? 128)%N eqn:H7; cbn [andb].
    + apply N.ltb_lt in H7. unfold utf8.
      rewrite (proj2 (N.ltb_lt c 128) H7).
      cbn [append encodeURIComponent Raw.percent].
      destruct (uri_unreserved (ascii_of_N c)); [reflexivity|].
      now rewrite append_empty_r.
    + apply N.ltb_ge in H7.
      now rewrite encode_utf8 by (pose proof (scalar_bound c Hc); lia).
  - rewrite (proj2 (N.ltb_ge h 128) H128). cbn [andb].
    rewrite Hlh, Hh, Hw, IH, Hp. cbn [obind].
    now rewrite encode_utf8 by (pose proof (scalar_bound c Hc); lia).
Qed.

End Encoded.

(** *** The two readings of the field agree *)

Lemma utf8_not_empty (c : N) (rest : string) :
  is_empty (utf8 c ++ rest) = false.
Proof.
  unfold utf8.
  destruct (c <? 128)%N; [reflexivity|].
  destruct (c <? 2048)%N; [reflexivity|].
  destruct (c <? 65536)%N; reflexivity.
Qed.

Lemma utf16_not_empty (c : N) (rest : Raw.text) :
  exists u t, (Raw.utf16 c ++ rest)%list = u :: t.
Proof.
  unfold Raw.utf16. destruct (c <? 65536)%N; cbn [app]; eauto.
Qed.

Section Agreement.
Context {E : Engine}.
Variable net : network.

(** What is left of a well-formed text after [trim], either way. *)
Lemma trimmed_units (points : list N) :
  forallb Raw.scalar points = true ->
  let t := Raw.trim points in
  Raw.trim (Raw.units_of points) = Raw.units_of t
  /\ trim (Raw.bytes_of points) = Raw.bytes_of t
  /\ Raw.encodeURIComponent (Raw.units_of t)
     = Ok (encodeURIComponent (Raw.bytes_of t))
  /\ Raw.to_string (Raw.units_of t) = Raw.bytes_of t
  /\ match t with
     | [] => Raw.units_of t = [] /\ is_empty (Raw.bytes_of t) = true
     | _ :: _ =>
         (exists u t', Raw.units_of t = u :: t')
         /\ is_empty (Raw.bytes_of t) = false
     end.
Proof.
  intros Hp t. pose proof (trim_kept Raw.scalar points Hp) as Ht.
  fold t in Ht.
  split; [now apply trim_units|]. split; [now apply trim_bytes|].
  split; [now apply encode_units|]. split; [now apply to_string_units|].
  destruct t as [|c t]; [now split|].
  split; [apply utf16_not_empty | apply utf8_not_empty].
Qed.

(** The search of each variant on the code units of a well-formed text
    is its search on the bytes. *)
Lemma static_search_agree (k : kind) (points : list N)
  (required message : string) (s : state) :
  forallb Raw.scalar points = true ->
  Raw.search (Static.fetchJson net) (renderTable Static.bullet) showLoading
    k (Raw.units_of points) required message s
  = Static.search net k (Raw.bytes_of points) required message s.
Proof.
  intros Hp.
  destruct (trimmed_units points Hp) as (Hu & Hb & He & Hs & Hn).
  unfold Raw.search, Static.search. cbv zeta. rewrite Hu, Hb.
  destruct (Raw.trim points) as [|c t].
  - destruct Hn as [-> ->]. reflexivity.
  - destruct Hn as [(u & t' & Hc) ->].
    rewrite He, Hs. rewrite Hc. destruct k; reflexivity.
Qed.

Lemma boot_search_agree (k : kind) (points : list N)
  (required message : string) (s : state) :
  forallb Raw.scalar points = true ->
  Raw.search (Boot.fetchJson net) (renderTable Boot.bullet) showLoading
    k (Raw.units_of points) required message s
  = Boot.search net k (Raw.bytes_of points) required message s.
Proof.
  intros Hp.
  destruct (trimmed_units points Hp) as (Hu & Hb & He & Hs & Hn).
  unfold Raw.search, Boot.search. cbv zeta. rewrite Hu, Hb.
  destruct (Raw.trim points) as [|c t].
  - destruct Hn as [-> ->]. reflexivity.
  - destruct Hn as [(u & t' & Hc) ->].
    rewrite He, Hs. rewrite Hc. destruct k; reflexivity.
Qed.

Lemma legacy_search_agree (k : kind) (points : list N)
  (required message : string) (s : state) :
  forallb Raw.scalar points = true ->
  Raw.search (Legacy.fetchJson net) Legacy.renderTable Legacy.showLoading
    k (Raw.units_of points) required message s
  = Legacy.search net k (Raw.bytes_of points) required message s.
Proof.
  intros Hp.
  destruct (trimmed_units points Hp) as (Hu & Hb & He & Hs & Hn).
  unfold Raw.search, Legacy.search. cbv zeta. rewrite Hu, Hb.
  destruct (Raw.trim points) as [|c t].
  - destruct Hn as [-> ->]. reflexivity.
  - destruct Hn as [(u & t' & Hc) ->].
    rewrite He, Hs. rewrite Hc. destruct k; reflexivity.
Qed.

(** X25.  When the text of a field is well-formed Unicode, given by its
    code points, what the handlers do with its UTF-16 code units is what
    they do with its UTF-8 bytes: [trim] removes the same characters,
    [encodeURIComponent] does not throw and gives the percent-encoding
    of the bytes, and the handler of each of the three variants ends
    with the same outcome in the same page state, hence with the same
    requests, stored search and markup. *)
Theorem handlers_agree (k : kind) (points : list N) (s : state) :
  forallb Raw.scalar points = true ->
  field_of k s = Raw.bytes_of points ->
  Raw.encodeURIComponent (Raw.trim (Raw.units_of points))
  = Ok (encodeURIComponent (trim (field_of k s)))
  /\ Raw.to_string (Raw.trim (Raw.units_of points)) = trim (field_of k s)
  /\ raw_handler net k (Raw.units_of points) s = static_handler net k s
  /\ raw_boot_handler net k (Raw.units_of points) s = boot_handler net k s
  /\ raw_legacy_handler net k (Raw.units_of points) s
     = legacy_handler net k s.
Proof.
  intros Hp Hf.
  destruct (trimmed_units points Hp) as (Hu & Hb & He & Hs & _).
  split; [now rewrite Hf, Hu, Hb|]. split; [now rewrite Hf, Hu, Hb|].
  clear Hu Hb He Hs. split; [|split].
  - rewrite raw_handler_search, static_handler_search, Hf.
    rewrite (static_search_agree k points _ _ s Hp).
    now destruct k.
  - unfold raw_boot_handler, boot_handler.
    assert (Hw : forall s1 o, Boot.prewarmViaIframe s = (o, s1) ->
                 field_of k s1 = field_of k s).
    { unfold Boot.prewarmViaIframe, bind, read. intros s1 o.
      destruct (prewarmed s); intros H; injection H as _ <-;
        now destruct k. }
    destruct k; unfold Boot.searchByMachine, Boot.searchByLocation;
      unfold bind at 1; symmetry; unfold bind at 1; symmetry;
      destruct (Boot.prewarmViaIframe s) as [[[]|m] s1] eqn:Hs1;
      try reflexivity;
      cbv beta iota; unfold bind at 1, read at 1;
      specialize (Hw s1 _ eq_refl); cbn [field_of] in Hw, Hf;
      rewrite Hw, Hf; now apply boot_search_agree.
  - unfold raw_legacy_handler, legacy_handler.
    destruct k; unfold Legacy.searchByMachine, Legacy.searchByLocation;
      unfold bind at 1, read at 1; cbn [field_of] in Hf; rewrite Hf;
      now apply legacy_search_agree.
Qed.

End Agreement.

(* ===================================================================== *)
(** ** Runs on the reference engine *)
(* ===================================================================== *)

#[local] Existing Instance Reference.engine.

Lemma fetchJson_one_retry_witness :
  let net := Examples.always Examples.unavailable in
  let url := Examples.machine_url in
  (net (requests (trace Examples.blank)) (boot_request url)
   = Resolved Examples.unavailable
   /\ Boot.attempt Examples.unavailable = Throw "db unavailable")
  /\ emitted (Boot.fetchJson net url) Examples.blank
     = [EvFetch (boot_request url); EvSleep 250; EvFetch (boot_request url)]
  /\ result (Boot.fetchJson net url) Examples.blank = Throw "db unavailable".
Proof.
  intros net url.
  assert (H1 : net (requests (trace Examples.blank)) (boot_request url)
               = Resolved Examples.unavailable) by reflexivity.
  assert (H2 : Boot.attempt Examples.unavailable = Throw "db unavailable")
    by reflexivity.
  destruct (fetchJson_one_retry net url Examples.blank _ _ H1 H2)
    as (He & Hr & _).
  split; [split; [exact H1 | exact H2]|].
  split; [exact He | exact Hr].
Defined.

(** C1, as stated, fails on [static/script.js]: the first attempt fails
    with the backend's message and no second request follows. *)
Lemma fetchJson_retry_counterexample :
  let net := Examples.always Examples.unavailable in
  result (Static.fetchJson net Examples.machine_url) Examples.blank
  = Throw "db unavailable"
  /\ emitted (Static.fetchJson net Examples.machine_url) Examples.blank
     = [EvFetch (Static.json_request Examples.machine_url)].
Proof. split; reflexivity. Qed.

Lemma success_response_validation_witness :
  let r := Examples.empty_json_200 in
  (ok r = true /\ res_body r = BodyText "")
  /\ Boot.attempt r = Throw "Empty response from server"
  /\ static_outcome r = Throw "Unexpected end of JSON input".
Proof.
  intros r.
  assert (H1 : ok r = true) by reflexivity.
  assert (H2 : res_body r = BodyText "") by reflexivity.
  destruct (success_response_validation r "" H1 H2) as (Hb & Hs & _).
  split; [split; [exact H1 | exact H2]|].
  split; [exact Hb | exact Hs].
Defined.

(** C2, as stated, fails in both variants: a success response with an
    empty body and a non-JSON content type is answered neither by "Empty
    response from server" nor by the (empty) text of the body. *)
Lemma empty_body_counterexample :
  let r := Examples.bare_200 in
  let net := Examples.always r in
  ok r = true /\ res_body r = BodyText "" /\ is_json r = false
  /\ result (Boot.fetchJson net Examples.machine_url) Examples.blank
     = Throw "Non-JSON response received"
  /\ result (Static.fetchJson net Examples.machine_url) Examples.blank
     = Throw "Non-JSON response received".
Proof. repeat split; reflexivity. Qed.



(** C3, as stated, fails: a selected value that parses to a negative
    number is not replaced by 50; the request carries it. *)
Lemma negative_limit_counterexample :
  let net := Examples.always Examples.no_content in
  let s := Examples.typed net "-5" in
  parseInt "-5" = Fin (-5)
  /\ search_limit "-5" = Fin (-5)
  /\ requests (emitted (Static.searchByMachine net) s)
     = [Static.json_request "/api/search/machine?machine_id=M-102&limit=-5"].
Proof. repeat split; reflexivity. Qed.


(** C6, on its failing input: the search is answered, with status 200,
    by [{"matched_rows":{"toString":null}}].  [renderTable] stores the
    payload and then throws when it prints the first counter, before it
    enables the buttons: the page is left, in a state it can reach, with
    a result held and export and copy disabled. *)
Theorem failed_render_leaves_buttons_disabled :
  let net := Examples.always MoreExamples.uncountable_response in
  let s := exec (Static.searchByMachine net) (Examples.typed net "50") in
  static_reachable s
  /\ result (renderTable Static.bullet MoreExamples.uncountable) Examples.blank
     = Throw "Cannot convert object to primitive value"
  /\ lastResult s = Some MoreExamples.uncountable
  /\ held s = true
  /\ downloadBtn_disabled s = true
  /\ copyJsonBtn_disabled s = true
  /\ outputBox_innerHTML s
     = error_html "Cannot convert object to primitive value".
Proof.
  intros net s. split; [|repeat split; reflexivity].
  apply static_machine. unfold Examples.typed.
  apply static_edit. apply static_init.
Qed.

(** C9, on its failing input [{"columns":["constructor"],"rows":[{}]}]:
    the one row lacks the one column, and its cell is not empty: it shows
    the member [constructor] that the row inherits. *)
Theorem missing_key_shows_inherited_member :
  let data := MoreExamples.lacking in
  let s' := exec (renderTable Static.bullet data) Examples.blank in
  own (JObj []) "constructor" = None
  /\ result (renderTable Static.bullet data) Examples.blank = Ok tt
  /\ cell_text (JObj []) (JStr "constructor")
     = Ok "function Object() { [native code] }"
  /\ table_texts [JStr "constructor"] [JObj []]
     = Ok [["function Object() { [native code] }"]]
  /\ outputBox_innerHTML s'
     = result_meta Static.bullet "" "1"
       ++ table_markup ["constructor"]
            [["function Object() { [native code] }"]].
Proof. repeat split; reflexivity. Qed.

Lemma table_text_escaped_witness :
  let data := JObj Examples.hostile in
  (result (renderTable Static.bullet data) Examples.blank = Ok tt
   /\ table_texts [JStr "name"; JStr "a<b"]
        [JObj [("name", JStr "<script>x&y</script>")]]
      = Ok [["<script>x&y</script>"; ""]]
   /\ outputBox_innerHTML
        (exec (renderTable Static.bullet data) Examples.blank)
      = result_meta Static.bullet "" "1"
        ++ table_markup ["name"; "a<b"] [["<script>x&y</script>"; ""]]
   /\ row_markup ["<script>x&y</script>"; ""]
      = "<tr><td>&lt;script&gt;x&amp;y&lt;/script&gt;</td><td></td></tr>")
  /\ exists cols rows heads cells matched len table,
       js_or (own data "columns") (JArr []) = JArr cols
       /\ iterate (js_or (own data "rows") (JArr [])) = Ok rows
       /\ Forall2 (fun c text => header_text c = Ok text) cols heads
       /\ Forall2 (fun r texts =>
                     Forall2 (fun c text => cell_text r c = Ok text)
                             cols texts) rows cells
       /\ outputBox_innerHTML
            (exec (renderTable Static.bullet data) Examples.blank)
          = result_meta Static.bullet matched len ++ table
       /\ inert matched = true /\ inert len = true
       /\ read_table table = Some (heads, cells).
Proof.
  intros data.
  assert (H : result (renderTable Static.bullet data) Examples.blank = Ok tt)
    by reflexivity.
  split; [repeat split; reflexivity|].
  exact (proj1 (proj2 (proj2 (table_text_escaped Static.bullet data
                                Examples.blank H)))).
Defined.

Lemma renderTable_table_witness :
  let data := JObj Examples.one_row in
  let s' := exec (renderTable Static.bullet data) Examples.blank in
  result (renderTable Static.bullet data) Examples.blank = Ok tt
  /\ statusText_textContent s' = "Loaded results."
  /\ lastResult s' = Some data
  /\ cell_text (JObj [("id", JStr "M-102"); ("site", JStr "NY")]) (JStr "id")
     = Ok "M-102"
  /\ cell_text (JObj [("id", JStr "M-102")]) (JStr "site") = Ok ""
  /\ (matchedPill_textContent s' = "Matched: 1"
      /\ returnedPill_textContent s' = "Returned: 1"
      /\ outputBox_innerHTML s'
         = result_meta Static.bullet "1" "1"
           ++ table_markup ["id"; "site"] [["M-102"; "NY"]]).
Proof.
  intros data s'.
  assert (H : result (renderTable Static.bullet data) Examples.blank = Ok tt)
    by reflexivity.
  destruct (renderTable_table Static.bullet data Examples.blank H)
    as (_ & Hst & Hl & _ & Hcell & _).
  split; [exact H|]. split; [exact Hst|]. split; [exact Hl|].
  split.
  { rewrite (Hcell _ (JStr "id") "id"); [reflexivity | discriminate
                                         | reflexivity]. }
  split.
  - rewrite (Hcell _ (JStr "site") "site"); [reflexivity | discriminate
                                             | reflexivity].
  - repeat split; reflexivity.
Defined.

Lemma no_content_success_witness :
  let net := Examples.always Examples.no_content in
  let s := Examples.typed net "50" in
  let s' := exec (Static.searchByMachine net) s in
  (is_empty (trim (field_of machine s)) = false
   /\ net (requests (trace s)) (search_request machine s)
      = Resolved Examples.no_content
   /\ status Examples.no_content = 204%N)
  /\ result (Static.searchByMachine net) s = Ok tt
  /\ lastResult s' = Some (JObj [])
  /\ downloadBtn_disabled s' = false
  /\ copyJsonBtn_disabled s' = false.
Proof.
  intros net s s'.
  assert (H1 : is_empty (trim (field_of machine s)) = false) by reflexivity.
  assert (H2 : net (requests (trace s)) (search_request machine s)
               = Resolved Examples.no_content) by reflexivity.
  assert (H3 : status Examples.no_content = 204%N) by reflexivity.
  destruct (no_content_success net machine s Examples.no_content H1 H2 H3)
    as (_ & Hr & _ & _ & _ & Hl & _ & Hd & Hc).
  split; [repeat split; assumption|].
  repeat split; assumption.
Defined.

(** *** The scenarios of the specification *)

(** A search for [M-102] with limit 50 requests
    [/api/search/machine?machine_id=M-102&limit=50]; the one-row answer
    is shown with "Matched: 1" and "Returned: 1". *)
Example scenario_one_row :
  let body := Reference.stringify 0 0 (JObj Examples.one_row) in
  let net := Examples.always
               {| status := 200; content_type := Some "application/json";
                  res_body := BodyText body |} in
  let s := Examples.typed net "50" in
  let s' := exec (Static.searchByMachine net) s in
  requests (emitted (Static.searchByMachine net) s)
  = [Static.json_request Examples.machine_url]
  /\ matchedPill_textContent s' = "Matched: 1"
  /\ returnedPill_textContent s' = "Returned: 1"
  /\ lastSearch s' = Some {| type := machine; value := "M-102" |}.
Proof. repeat split; reflexivity. Qed.

(** A location of white space only: no request, "Location required". *)
Example scenario_blank_location :
  let net := Examples.always Examples.no_content in
  let s := Examples.typed net "50" in
  emitted (Static.searchByLocation net) s
  = [EvToast "error" "Location required"]
  /\ outputBox_innerHTML (exec (Static.searchByLocation net) s)
     = "<div class=" ++ dq ++ "error" ++ dq ++ ">Location required</div>".
Proof. split; reflexivity. Qed.

(** HTTP 500 with [{"detail":"db unavailable"}]: the error shown after
    the retry of the [boot()] variant is "db unavailable". *)
Example scenario_unavailable :
  let net := Examples.always Examples.unavailable in
  let s := Examples.typed net "50" in
  requests (emitted (Boot.searchByMachine net) s)
  = [boot_request Examples.machine_url; boot_request Examples.machine_url]
  /\ outputBox_innerHTML (exec (Boot.searchByMachine net) s)
     = "<div class=" ++ dq ++ "error" ++ dq ++ ">db unavailable</div>".
Proof. split; reflexivity. Qed.

(** HTTP 200 with an empty body and a JSON content type: "Empty response
    from server" in the [boot()] variant, after the one retry. *)
Example scenario_empty_body :
  let net := Examples.always Examples.empty_json_200 in
  let s := Examples.typed net "50" in
  requests (emitted (Boot.searchByMachine net) s)
  = [boot_request Examples.machine_url; boot_request Examples.machine_url]
  /\ outputBox_innerHTML (exec (Boot.searchByMachine net) s)
     = "<div class=" ++ dq ++ "error" ++ dq
       ++ ">Empty response from server</div>".
Proof. split; reflexivity. Qed.

(** A search, then the export: [results.csv] from the export endpoint of
    the machine search, without a limit. *)
Example scenario_export :
  let body := Reference.stringify 0 0 (JObj Examples.one_row) in
  let net : network := fun _ r =>
    if prefix "/api/export/" (req_url r)
    then Resolved {| status := 200; content_type := Some "text/csv";
                     res_body := BodyText "id,site" |}
    else Resolved {| status := 200; content_type := Some "application/json";
                     res_body := BodyText body |} in
  let s := exec (Static.searchByMachine net) (Examples.typed net "50") in
  emitted (downloadAllMatched net) s
  = [EvToast "success" "Preparing full CSV...";
     EvFetch (export_request "/api/export/machine?machine_id=M-102");
     EvDownload "results.csv" "id,site"].
Proof. reflexivity. Qed.

(** *** Witnesses of the further properties *)

Lemma renderTable_failure_witness :
  let data := MoreExamples.uncountable in
  let s' := exec (renderTable Static.bullet data) Examples.blank in
  result (renderTable Static.bullet data) Examples.blank
  = Throw "Cannot convert object to primitive value"
  /\ outputBox_innerHTML s' = ""
  /\ lastResult s' = Some data
  /\ gauges s' = gauges Examples.blank.
Proof.
  intros data s'.
  assert (H : result (renderTable Static.bullet data) Examples.blank
              = Throw "Cannot convert object to primitive value")
    by reflexivity.
  destruct (renderTable_failure Static.bullet data Examples.blank _ H)
    as (Ho & _ & _ & Hl & Hg).
  split; [exact H|]. split; [exact Ho|]. split; [exact Hl | exact Hg].
Defined.

(** A payload whose [columns] is a string: the render stops when it
    builds the markup, with the counters written and the buttons
    enabled. *)
Example bad_columns_rendered :
  let data := MoreExamples.bad_columns in
  let s' := exec (renderTable Static.bullet data) Examples.blank in
  result (renderTable Static.bullet data) Examples.blank
  = Throw "cols.map is not a function"
  /\ outputBox_innerHTML s' = ""
  /\ matchedPill_textContent s' = "Matched: undefined"
  /\ returnedPill_textContent s' = "Returned: 0"
  /\ lastResult s' = Some data
  /\ downloadBtn_disabled s' = false.
Proof. repeat split; reflexivity. Qed.

Lemma search_without_payload_witness :
  let net := MoreExamples.down in
  let s := MoreExamples.searched in
  let s' := exec (Static.searchByMachine net) s in
  result (Static.fetchJson net (req_url (search_request machine s))) s
  = Throw "Failed to fetch"
  /\ stored s' = stored s
  /\ outputBox_innerHTML s' = error_html "Failed to fetch".
Proof.
  intros net s s'.
  assert (H : result (Static.fetchJson net
                        (req_url (search_request machine s))) s
              = Throw "Failed to fetch") by reflexivity.
  destruct (search_without_payload net machine s "Failed to fetch" H)
    as (Hs & _ & _ & Ho & _).
  split; [exact H|]. split; [exact Hs | exact Ho].
Defined.

Lemma export_needs_search_witness :
  let net := MoreExamples.no_export in
  let s := Examples.typed net "50" in
  lastSearch s = None
  /\ emitted (downloadAllMatched net) s
     = [EvToast "error" "Search first before exporting."].
Proof.
  intros net s.
  assert (H : lastSearch s = None) by reflexivity.
  destruct (export_needs_search net s H) as (He & _).
  split; [exact H | exact He].
Defined.


Lemma rejected_fetch_not_retried_witness :
  let net := MoreExamples.down in
  net (requests (trace Examples.blank)) (boot_request Examples.machine_url)
  = Rejected "Failed to fetch"
  /\ result (Boot.fetchJson net Examples.machine_url) Examples.blank
     = Throw "Failed to fetch"
  /\ emitted (Boot.fetchJson net Examples.machine_url) Examples.blank
     = [EvFetch (boot_request Examples.machine_url)].
Proof.
  intros net.
  assert (H : net (requests (trace Examples.blank))
                  (boot_request Examples.machine_url)
              = Rejected "Failed to fetch") by reflexivity.
  destruct (rejected_fetch_not_retried net Examples.machine_url
              Examples.blank _ H) as (Hr & He).
  split; [exact H|]. split; [exact Hr | exact He].
Defined.

Lemma valid_first_response_witness :
  let net := Examples.always MoreExamples.one_row_response in
  (net (requests (trace Examples.blank)) (boot_request Examples.machine_url)
   = Resolved MoreExamples.one_row_response
   /\ Boot.attempt MoreExamples.one_row_response
      = Ok (JObj Examples.one_row))
  /\ result (Boot.fetchJson net Examples.machine_url) Examples.blank
     = Ok (JObj Examples.one_row)
  /\ emitted (Boot.fetchJson net Examples.machine_url) Examples.blank
     = [EvFetch (boot_request Examples.machine_url)].
Proof.
  intros net.
  assert (H1 : net (requests (trace Examples.blank))
                   (boot_request Examples.machine_url)
               = Resolved MoreExamples.one_row_response) by reflexivity.
  assert (H2 : Boot.attempt MoreExamples.one_row_response
               = Ok (JObj Examples.one_row)) by reflexivity.
  destruct (valid_first_response net Examples.machine_url Examples.blank
              _ _ H1 H2) as (Hr & He).
  split; [split; [exact H1 | exact H2]|]. split; [exact Hr | exact He].
Defined.

Lemma retry_recovers_witness :
  let net := MoreExamples.warming in
  let req := boot_request Examples.machine_url in
  (net (requests (trace Examples.blank)) req
   = Resolved MoreExamples.login_page
   /\ Boot.attempt MoreExamples.login_page = Throw "<html>Sign in</html>"
   /\ net (requests (trace Examples.blank) ++ [req])%list req
      = Resolved MoreExamples.one_row_response
   /\ Boot.attempt MoreExamples.one_row_response
      = Ok (JObj Examples.one_row))
  /\ result (Boot.fetchJson net Examples.machine_url) Examples.blank
     = Ok (JObj Examples.one_row).
Proof.
  intros net req.
  assert (H1 : net (requests (trace Examples.blank)) req
               = Resolved MoreExamples.login_page) by reflexivity.
  assert (H2 : Boot.attempt MoreExamples.login_page
               = Throw "<html>Sign in</html>") by reflexivity.
  assert (H3 : net (requests (trace Examples.blank) ++ [req])%list req
               = Resolved MoreExamples.one_row_response) by reflexivity.
  assert (H4 : Boot.attempt MoreExamples.one_row_response
               = Ok (JObj Examples.one_row)) by reflexivity.
  split; [repeat split; assumption|].
  exact (retry_recovers net Examples.machine_url Examples.blank
           _ _ _ _ H1 H2 H3 H4).
Defined.

Lemma search_success_witness :
  let net := Examples.always MoreExamples.one_row_response in
  let s := Examples.typed net "50" in
  let s' := exec (Static.searchByMachine net) s in
  (is_empty (trim (field_of machine s)) = false
   /\ result (Static.fetchJson net (req_url (search_request machine s))) s
      = Ok (JObj Examples.one_row)
   /\ result (renderTable Static.bullet (JObj Examples.one_row)) s = Ok tt)
  /\ result (Static.searchByMachine net) s = Ok tt
  /\ statusText_textContent s' = "Loaded results."
  /\ stored s' = (Some {| type := machine; value := "M-102" |},
                  Some (JObj Examples.one_row))
  /\ downloadBtn_disabled s' = false.
Proof.
  intros net s s'.
  assert (H1 : is_empty (trim (field_of machine s)) = false) by reflexivity.
  assert (H2 : result (Static.fetchJson net
                         (req_url (search_request machine s))) s
               = Ok (JObj Examples.one_row)) by reflexivity.
  assert (H3 : result (renderTable Static.bullet (JObj Examples.one_row)) s
               = Ok tt) by reflexivity.
  destruct (search_success net machine s (JObj Examples.one_row) H1 H2 H3)
    as (Hr & _ & _ & Hst & Hs & Hd & _).
  split; [split; [exact H1 | split; [exact H2 | exact H3]]|].
  split; [exact Hr|]. split; [exact Hst|]. split; [exact Hs | exact Hd].
Defined.


Lemma legacy_table_witness :
  let data := JObj Examples.one_row in
  let s' := exec (Legacy.renderTable data) Examples.blank in
  result (Legacy.renderTable data) Examples.blank = Ok tt
  /\ lastResult s' = Some data
  /\ downloadBtn_disabled s' = false.
Proof.
  intros data s'.
  assert (H : result (Legacy.renderTable data) Examples.blank = Ok tt)
    by reflexivity.
  destruct (legacy_table data Examples.blank H) as (_ & _ & Hl & Hd & _).
  split; [exact H|]. split; [exact Hl | exact Hd].
Defined.

(** The plain variant writes a count as it is: markup in [matched_rows]
    reaches the page. *)
Example legacy_count_unescaped :
  let data := JObj [("matched_rows", JStr "<i>1</i>")] in
  outputBox_innerHTML (exec (Legacy.renderTable data) Examples.blank)
  = Legacy.result_meta "<i>1</i>" "0" ++ table_markup [] []
  /\ outputBox_innerHTML (exec (renderTable Boot.bullet data) Examples.blank)
     = result_meta Boot.bullet "&lt;i&gt;1&lt;/i&gt;" "0"
       ++ table_markup [] [].
Proof. split; reflexivity. Qed.

(** A search of the plain variant on a failing backend: one [fetch]
    without options, the body of the answer as the message. *)
Example legacy_search_unavailable :
  let net := Examples.always Examples.unavailable in
  let s := Examples.typed net "50" in
  let typed := [77; 45; 49; 48; 50]%N in
  let body := "{" ++ dq ++ "detail" ++ dq ++ ":" ++ dq
              ++ "db unavailable" ++ dq ++ "}" in
  emitted (raw_legacy_handler net machine typed) s
  = [EvFetch (Legacy.bare_request Examples.machine_url);
     EvToast "error" body]
  /\ stored (exec (raw_legacy_handler net machine typed) s) = stored s.
Proof. split; vm_compute; reflexivity. Qed.

(** The typed text [M-102] gives the search of the scenario, on code
    units as on bytes; a text beyond ASCII is encoded as its UTF-8
    bytes. *)
Example typed_search :
  let net := Examples.always MoreExamples.one_row_response in
  let s := Examples.typed net "50" in
  let typed := [32; 77; 45; 49; 48; 50; 160]%N in
  Raw.trim typed = [77; 45; 49; 48; 50]%N
  /\ exec (Raw.searchByMachine net typed) s
     = exec (Static.searchByMachine net) s
  /\ Raw.encodeURIComponent [233; 32; 8364; 55357; 56832]%N
     = Ok "%C3%A9%20%E2%82%AC%F0%9F%98%80"
  /\ encodeURIComponent (Raw.to_string [233; 32; 8364; 55357; 56832]%N)
     = "%C3%A9%20%E2%82%AC%F0%9F%98%80".
Proof. repeat split; reflexivity. Qed.

(** An error answer whose [detail] has no string: the message is that of
    the conversion's [TypeError]. *)
Example unprintable_detail :
  let r := {| status := 500; content_type := Some "application/json";
              res_body := BodyText
                            (Reference.stringify 0 0
                               (JObj [("detail", MoreExamples.unprintable)]))
           |} in
  error_message r = "Cannot convert object to primitive value"
  /\ static_outcome r = Throw "Cannot convert object to primitive value".
Proof. split; reflexivity. Qed.

Lemma handlers_agree_witness :
  let net := Examples.always MoreExamples.one_row_response in
  let s := MoreExamples.accented_page net in
  let typed := Raw.units_of MoreExamples.accented in
  (forallb Raw.scalar MoreExamples.accented = true
   /\ field_of machine s = Raw.bytes_of MoreExamples.accented)
  /\ typed = [32; 233; 8364; 55357; 56832; 160]%N
  /\ Raw.encodeURIComponent (Raw.trim typed)
     = Ok "%C3%A9%E2%82%AC%F0%9F%98%80"
  /\ raw_handler net machine typed s = static_handler net machine s
  /\ requests (emitted (raw_handler net machine typed) s)
     = [Static.json_request
          "/api/search/machine?machine_id=%C3%A9%E2%82%AC%F0%9F%98%80&limit=50"].
Proof.
  intros net s typed.
  assert (H1 : forallb Raw.scalar MoreExamples.accented = true)
    by reflexivity.
  assert (H2 : field_of machine s = Raw.bytes_of MoreExamples.accented)
    by reflexivity.
  destruct (handlers_agree net machine MoreExamples.accented s H1 H2)
    as (He & _ & Hh & _).
  split; [split; [exact H1 | exact H2]|].
  split; [reflexivity|]. split; [vm_compute; reflexivity|].
  split; [exact Hh|]. vm_compute. reflexivity.
Defined.
